(** * ElectronFramework: staging of the Electron runtime

    A shallow embedding of
    [packages/app-builder-lib/src/electron/ElectronFramework.ts].

    The asynchronous functions of the source are embedded in a small
    state / exception / trace monad: the state holds the filesystem and the
    shared [Configuration] object, an exception is a rejected promise, and the
    trace records every call that leaves the module (filesystem, external
    worker, logger), in program order. *)

From stdpp Require Import base option list strings gmap fin_maps.
From Stdlib Require Import String Ascii Permutation.

Local Open Scope string_scope.

(** ** JavaScript strings and paths *)

Module Js.

(** [s.endsWith(suffix)] *)
Definition endsWith (s suffix : string) : bool :=
  if decide (String.length suffix ≤ String.length s)%nat
  then bool_decide
         (String.substring (String.length s - String.length suffix)
                           (String.length suffix) s = suffix)
  else false.

(** [s.substring(0, n)] for [0 <= n <= s.length] *)
Definition substring0 (n : nat) (s : string) : string :=
  String.substring 0 n s.

(** [array.includes(x)] on an array of strings *)
Definition includes (l : list string) (x : string) : bool :=
  bool_decide (x ∈ l).

(** A string is truthy when it is not empty. *)
Definition truthy (s : string) : bool :=
  negb (bool_decide (s = "")).

(** [a || b] where [a] is an optional string: [undefined], [null] and the
    empty string are falsy. *)
Definition or_else (a : option string) (b : string) : string :=
  match a with
  | Some s => if truthy s then s else b
  | None => b
  end.

(** [{ ...base, ...o }]: the properties of [o], when [o] is an object, are
    copied over those of [base]; spreading [undefined] or [null] copies
    nothing. *)
Definition spread {V} (o : option (gmap string V)) (base : gmap string V) : gmap string V :=
  match o with
  | Some o => o ∪ base
  | None => base
  end.

End Js.

(** Node's [path] module as it is on a POSIX host ([path.posix]):
    [normalizeString], [normalize], [join], [isAbsolute] and [resolve] of
    lib/path.js. *)
Module path.

Definition sep : string := "/".

(** The segments of [p] between separators: [a//b/] has the segments [a],
    the empty one, [b] and the empty one. *)
Fixpoint split (p : string) : list string :=
  match p with
  | EmptyString => [""]
  | String c p' =>
      if Ascii.eqb c "/" then "" :: split p'
      else match split p' with
           | seg :: segs => String c seg :: segs
           | [] => [String c ""]
           end
  end.

(** The segments with a separator between them. *)
Fixpoint unsplit (segs : list string) : string :=
  match segs with
  | [] => ""
  | seg :: segs' =>
      match segs' with
      | [] => seg
      | _ :: _ => seg ++ sep ++ unsplit segs'
      end
  end.

(** One round of the loop of [normalizeString], on the segments kept so
    far, the last one first: an empty segment and [.] are dropped, [..]
    takes the last kept segment away unless none is left or that one is
    [..] itself, in which case [..] is kept when [allowAboveRoot]. *)
Definition keep (allowAboveRoot : bool) (kept : list string) (seg : string) : list string :=
  if bool_decide (seg = "") || bool_decide (seg = ".") then kept
  else if bool_decide (seg = "..") then
    match kept with
    | last :: rest =>
        if bool_decide (last = "..")
        then (if allowAboveRoot then ".." :: kept else kept)
        else rest
    | [] => if allowAboveRoot then [".."] else []
    end
  else seg :: kept.

Definition normalizeString (p : string) (allowAboveRoot : bool) : string :=
  unsplit (rev (foldl (keep allowAboveRoot) [] (split p))).

Definition isAbsolute (p : string) : bool :=
  match p with
  | String c _ => Ascii.eqb c "/"
  | EmptyString => false
  end.

(** The last character of [p] is the separator. *)
Fixpoint endsWithSep (p : string) : bool :=
  match p with
  | EmptyString => false
  | String c p' =>
      match p' with
      | EmptyString => Ascii.eqb c "/"
      | String _ _ => endsWithSep p'
      end
  end.

Definition normalize (p : string) : string :=
  if bool_decide (p = "") then "."
  else
    let isAbsolute := isAbsolute p in
    let trailingSeparator := endsWithSep p in
    let p := normalizeString p (negb isAbsolute) in
    if bool_decide (p = "") then
      if isAbsolute then "/" else if trailingSeparator then "./" else "."
    else
      let p := if trailingSeparator then p ++ sep else p in
      if isAbsolute then sep ++ p else p.

(** [path.join(...args)]: the arguments that are not empty, with a
    separator between them, normalised; joining nothing gives the current
    directory. *)
Definition joinAll (args : list string) : string :=
  match List.filter (λ arg, negb (bool_decide (arg = ""))) args with
  | [] => "."
  | joined => normalize (unsplit joined)
  end.

(** [path.join(a, b)] *)
Definition join (a b : string) : string := joinAll [a; b].

(** The loop of [path.resolve]: the arguments from the last one to the
    first, then the working directory, each put before what is resolved so
    far, until an absolute one has been put. *)
Fixpoint resolveLoop (args : list string) (resolvedPath : string) : string * bool :=
  match args with
  | [] => (resolvedPath, false)
  | p :: args' =>
      if bool_decide (p = "") then resolveLoop args' resolvedPath
      else
        let resolvedPath := p ++ sep ++ resolvedPath in
        if isAbsolute p then (resolvedPath, true) else resolveLoop args' resolvedPath
  end.

(** [path.resolve(from, to)] in a process whose working directory is
    [cwd]. *)
Definition resolve (cwd from to : string) : string :=
  let '(resolvedPath, resolvedAbsolute) := resolveLoop [to; from; cwd] "" in
  let resolvedPath := normalizeString resolvedPath (negb resolvedAbsolute) in
  if resolvedAbsolute then sep ++ resolvedPath
  else if bool_decide (resolvedPath = "") then "." else resolvedPath.

End path.

(** ** Data model *)

(** [ElectronPlatformName = "darwin" | "linux" | "win32" | "mas"] *)
Inductive ElectronPlatformName := darwin | linux | win32 | mas.

Definition platformNameString (p : ElectronPlatformName) : string :=
  match p with
  | darwin => "darwin"
  | linux => "linux"
  | win32 => "win32"
  | mas => "mas"
  end.

(** [Platform.MAC], [Platform.LINUX], [Platform.WINDOWS] *)
Inductive Platform := MAC | LINUX | WINDOWS.

#[global] Instance Platform_eq_dec : EqDecision Platform.
Proof. solve_decision. Defined.

#[global] Instance ElectronPlatformName_eq_dec : EqDecision ElectronPlatformName.
Proof. solve_decision. Defined.

(** The values a property of [ElectronDownloadOptions] can hold. A property
    can be present and hold [undefined]. *)
Inductive JsValue :=
| VUndefined
| VNull
| VBool (b : bool)
| VStr (s : string).

#[global] Instance JsValue_eq_dec : EqDecision JsValue.
Proof. solve_decision. Defined.

(** Conversion of a value inside a template literal. *)
Definition toStr (v : JsValue) : string :=
  match v with
  | VUndefined => "undefined"
  | VNull => "null"
  | VBool true => "true"
  | VBool false => "false"
  | VStr s => s
  end.

(** [ElectronDownloadOptions] is a plain JS object whose properties are all
    optional: a finite map from property names to values. *)
Abbreviation ElectronDownloadOptions := (gmap string JsValue).

(** [o.k]: reading an absent property gives [undefined]. *)
Definition prop (o : ElectronDownloadOptions) (k : string) : JsValue :=
  default VUndefined (o !! k).

(** [ElectronBrandingOptions], both properties optional. *)
Record ElectronBrandingOptions := {
  projectName : option string;
  productName : option string;
}.

(** [Required<ElectronBrandingOptions>] *)
Module Required.
Record ElectronBrandingOptions := {
  projectName : string;
  productName : string;
}.
End Required.

Definition Metadata := list (string * string).
Definition AsarIntegrity := list (string * string).

(** [electronLanguages?: Array<string> | string] *)
Inductive OneOrMany :=
| One (s : string)
| Many (l : list string).

Record AppInfo := { productFilename : string }.

Record PlatformSpecificBuildOptions := {
  electronLanguages : option OneOrMany;
}.

(** The part of a packager that this file reads. The three [get...Dir]
    methods are defined outside this file and are kept as fields.
    [executableName] exists on a [LinuxPackager] only, and is read on Linux
    only. *)
Record Packager := {
  platform : Platform;
  projectDir : string;
  isPrepackedAppAsar : bool;
  metadata : Metadata;
  appInfo : AppInfo;
  executableName : string;
  platformSpecificBuildOptions : PlatformSpecificBuildOptions;
  getElectronSrcDir : string -> string;
  getElectronDestinationDir : string -> string;
  getResourcesDir : string -> string;
}.

Record PrepareApplicationStageDirectoryOptions := {
  packager : Packager;
  appOutDir : string;
  platformName : ElectronPlatformName;
  arch : string;
  version : string;
}.

Record BeforeCopyExtraFilesOptions := {
  bc_packager : Packager;
  bc_appOutDir : string;
  bc_asarIntegrity : option AsarIntegrity;
  bc_platformName : ElectronPlatformName;
}.

(** [electronDist?: string | ((options) => string)] *)
Inductive ElectronDist :=
| DistPath (p : string)
| DistFunction (f : PrepareApplicationStageDirectoryOptions -> option string).

(** The part of [Configuration] that this file reads. [packager.config] and
    the [configuration] argument of [createElectronFrameworkSupport] are one
    object, held in the state below. *)
Record Configuration := {
  electronVersion : option string;
  electronBranding : option ElectronBrandingOptions;
  electronDownload : option ElectronDownloadOptions;
  electronDist : option ElectronDist;
  downloadAlternateFFmpeg : bool;
}.

Definition set_electronVersion (v : option string) (c : Configuration) : Configuration :=
  {| electronVersion := v;
     electronBranding := electronBranding c;
     electronDownload := electronDownload c;
     electronDist := electronDist c;
     downloadAlternateFFmpeg := downloadAlternateFFmpeg c |}.

(** The object built by [new ElectronFramework(name, version, distMacOsAppName)] *)
Record Framework := {
  fw_name : string;
  fw_version : string;
  fw_distMacOsAppName : string;
}.

(** ** Filesystem *)

Inductive entry :=
| File (data : string)
| Dir.

#[global] Instance entry_eq_dec : EqDecision entry.
Proof. solve_decision. Defined.

(** A filesystem maps the path of every file and directory to its entry.
    An entry is found under the text of its path: the calls below are given
    normalised paths, as [path.join] and [path.resolve] make them. *)
Abbreviation FS := (gmap string entry).

(** Rejections. [Error] is a JS [Error] with its message; the others are the
    failures of a system call, with the path it was called on. *)
Inductive exn :=
| Error (message : string)
| ENOENT (p : string)
| ENOTDIR (p : string)
| EISDIR (p : string)
| EEXIST (p : string)
| ENOTEMPTY (p : string).

Inductive Res (A : Type) :=
| Ok (a : A)
| Throw (e : exn).
Arguments Ok {A} a.
Arguments Throw {A} e.

Definition isOk {A} (r : Res A) : bool :=
  match r with Ok _ => true | Throw _ => false end.

Module FS.

(** [k] is [p] or lies below it. *)
Definition under (p k : string) : bool :=
  bool_decide (k = p) || String.prefix (p ++ path.sep) k.

(** [k] lies strictly below [p]. *)
Definition below (p k : string) : bool :=
  String.prefix (p ++ path.sep) k.

Definition removeTree (p : string) (m : FS) : FS :=
  filter (λ kv, under p kv.1 = false) m.

(** The path [k], which is under [src], moved under [dst]. *)
Definition reroot (src dst k : string) : string :=
  dst ++ String.substring (String.length src) (String.length k - String.length src) k.

(** Every entry under [src] also put at the same place under [dst]. *)
Definition graft (src dst : string) (from : FS) (into : FS) : FS :=
  map_fold (λ k e acc, if under src k then <[reroot src dst k := e]> acc else acc) into from.

(** The names of the entries of the directory [dir]. *)
Definition children (dir : string) (m : FS) : list string :=
  omap (λ kv,
          let k := kv.1 in
          if below dir k then
            let name := String.substring (String.length dir + 1)
                          (String.length k - (String.length dir + 1)) k in
            match String.index 0 path.sep name with
            | None => Some name
            | Some _ => None
            end
          else None)
       (map_to_list m).

(** Modelled from the spec: [fs.unlink] as used by [unlinkIfExists] of
    builder-util (not in src), which removes the file if present and for
    which absence is not an error. *)
Definition unlink (p : string) (m : FS) : Res FS :=
  match m !! p with
  | Some (File _) => Ok (delete p m)
  | Some Dir => Throw (EISDIR p)
  | None => Throw (ENOENT p)
  end.

(** POSIX [rename(2)], as called by fs-extra's [rename]. *)
Definition rename (src dst : string) (m : FS) : Res FS :=
  match m !! src with
  | None => Throw (ENOENT src)
  | Some (File d) =>
      match m !! dst with
      | Some Dir => Throw (EISDIR dst)
      | _ => Ok (<[dst := File d]> (delete src m))
      end
  | Some Dir =>
      if bool_decide (src = dst) then Ok m else
      match m !! dst with
      | Some (File _) => Throw (ENOTDIR dst)
      | _ =>
          if bool_decide (children dst m = []) then
            Ok (graft src dst m (removeTree dst (removeTree src m)))
          else Throw (ENOTEMPTY dst)
      end
  end.

(** The directories above [p], the nearest last: the paths that end before
    a separator of [p]. *)
Fixpoint ancestors (before rest : list string) : list string :=
  match rest with
  | [] => []
  | seg :: rest' =>
      match rest' with
      | [] => []
      | _ :: _ => path.unsplit (before ++ [seg]) :: ancestors (before ++ [seg]) rest'
      end
  end.

Definition parents (p : string) : list string :=
  List.filter (λ a, negb (bool_decide (a = ""))) (ancestors [] (path.split p)).

(** [fs.mkdir(dir, { recursive: true })], which fs-extra's [mkdirs] calls:
    the directory and every missing directory above it are created; a file
    in the way is an error. *)
Definition isFile (m : FS) (p : string) : bool :=
  match m !! p with
  | Some (File _) => true
  | _ => false
  end.

Definition mkdirs (dir : string) (m : FS) : Res FS :=
  match List.find (isFile m) (parents dir) with
  | Some a => Throw (ENOTDIR a)
  | None =>
      match m !! dir with
      | Some (File _) => Throw (EEXIST dir)
      | _ => Ok (foldr (λ a acc, <[a := Dir]> acc) m (parents dir ++ [dir]))
      end
  end.

(** fs-extra's [emptyDir]: the content of the directory is deleted and the
    directory itself stays; when it cannot be listed, [mkdirs] is called on
    it, which creates it with the missing directories above it. *)
Definition emptyDir (dir : string) (m : FS) : Res FS :=
  match m !! dir with
  | Some Dir => Ok (filter (λ kv, below dir kv.1 = false) m)
  | _ => mkdirs dir m
  end.

(** Modelled from the spec: [copyDir] of builder-util (not in src), which
    copies the source subtree into the destination, created with the
    missing directories above it. *)
Definition copyDir (src dst : string) (m : FS) : Res FS :=
  match m !! src with
  | Some Dir =>
      match mkdirs dst m with
      | Ok m' => Ok (graft src dst m m')
      | Throw e => Throw e
      end
  | Some (File _) => Throw (ENOTDIR src)
  | None => Throw (ENOENT src)
  end.

(** [fs.rm(p, { recursive: true, force: true })]: a missing path is not an
    error. *)
Definition rm (p : string) (m : FS) : FS :=
  removeTree p m.

End FS.

(** ** Effects *)

(** One argument of the command line given to the external worker.
    [JSON.stringify] is kept symbolic. *)
Inductive Arg :=
| ArgStr (s : string)
| ArgJson (v : list ElectronDownloadOptions).

(** The calls that leave this module. *)
Inductive Event :=
| EvLogInfo (fields : list (string * string)) (message : string)
| EvStatOrNull (p : string)
| EvUnlinkIfExists (p : string)
| EvRename (src dst : string)
| EvEmptyDir (p : string)
| EvCopyDir (src dst : string) (isUseHardLink : bool)
| EvReaddir (p : string)
| EvRm (p : string)
| EvExecuteAppBuilder (args : list Arg)
| EvCreateMacApp (appOutDir : string) (isMas : bool)
| EvReplaceFFMPEG (appOutDir : string)
| EvGetElectronVersionFromInstalled (projectDir : string)
| EvComputeElectronVersion (projectDir : string).

Record State := {
  files : FS;
  config : Configuration;
}.

Definition set_files (m : FS) (st : State) : State :=
  {| files := m; config := config st |}.

Definition set_config (c : Configuration) (st : State) : State :=
  {| files := files st; config := c |}.

(** What a run leaves: its result, the state it ends in, and the calls it
    made, oldest first. *)
Record Outcome (A : Type) := {
  res : Res A;
  final : State;
  trace : list Event;
}.
Arguments res {A} _.
Arguments final {A} _.
Arguments trace {A} _.
Arguments Build_Outcome {A} _ _ _.

Definition M (A : Type) : Type := State -> Outcome A.

Definition ret {A} (a : A) : M A :=
  λ st, {| res := Ok a; final := st; trace := [] |}.

Definition throw {A} (e : exn) : M A :=
  λ st, {| res := Throw e; final := st; trace := [] |}.

(** The outcome [o], with the calls [t] made before it. *)
Definition after {A} (t : list Event) (o : Outcome A) : Outcome A :=
  match o with
  | {| res := r; final := st; trace := t' |} => {| res := r; final := st; trace := t ++ t' |}
  end.

(** [await m], then the continuation; a rejection skips the continuation. *)
Definition bind {A B} (m : M A) (k : A -> M B) : M B :=
  λ st,
    match m st with
    | {| res := Ok a; final := st'; trace := t |} => after t (k a st')
    | {| res := Throw e; final := st'; trace := t |} =>
        {| res := Throw e; final := st'; trace := t |}
    end.

#[global] Instance M_ret : MRet M := @ret.
#[global] Instance M_bind : MBind M := λ A B k m, bind m k.

(** [m.catch(() => { /* ignore */ })] *)
Definition catch_ignore {A} (m : M A) : M unit :=
  λ st,
    match m st with
    | {| res := _; final := st'; trace := t |} => {| res := Ok tt; final := st'; trace := t |}
    end.

Definition emit (e : Event) : M unit :=
  λ st, {| res := Ok tt; final := st; trace := [e] |}.

Definition getFiles : M FS :=
  λ st, {| res := Ok (files st); final := st; trace := [] |}.

Definition getConfig : M Configuration :=
  λ st, {| res := Ok (config st); final := st; trace := [] |}.

Definition putConfig (c : Configuration) : M unit :=
  λ st, {| res := Ok tt; final := set_config c st; trace := [] |}.

(** A filesystem call that either changes the filesystem or rejects. *)
Definition onFiles (f : FS -> Res FS) : M unit :=
  λ st,
    match f (files st) with
    | Ok m => {| res := Ok tt; final := set_files m st; trace := [] |}
    | Throw e => {| res := Throw e; final := st; trace := [] |}
    end.

(** A call that works on the filesystem for a while and then returns or
    rejects: whatever it wrote before a rejection stays written. *)
Definition onFilesLeaving (f : FS -> Res unit * FS) : M unit :=
  λ st,
    match f (files st) with
    | (r, m) => {| res := r; final := set_files m st; trace := [] |}
    end.

(** The collaborators of this file that live elsewhere: their results are
    taken as given. The external worker and the bundle constructor give
    their result together with the filesystem they leave, which a failure
    may have changed too. [cwd] is the working directory of the process,
    which [path.resolve] reads. *)
Module Ext.
Record External := {
  cwd : string;
  isSafeToUnpackElectronOnRemoteBuildServer : Packager -> Configuration -> bool;
  executeAppBuilder : list Arg -> FS -> Res unit * FS;
  createMacApp :
    Packager -> Configuration -> string -> option AsarIntegrity -> bool -> FS -> Res unit * FS;
  replaceFFMPEG : string -> string -> ElectronPlatformName -> string -> FS -> FS;
  getElectronVersionFromInstalled : string -> FS -> option string;
  computeElectronVersion : string -> Metadata -> FS -> Res string;
  (** the order in which the operating system lists the entries of a
      directory *)
  readdirOrder : string -> list string -> list string;
}.
End Ext.
Abbreviation External := Ext.External.

(** Modelled from the spec: [DO_NOT_USE_HARD_LINKS] of builder-util (not in
    src), the policy given as [isUseHardLink] under which copies are real,
    independent files. *)
Definition DO_NOT_USE_HARD_LINKS : bool := false.

(** [log.info(fields, message)] *)
Definition log_info (fields : list (string * string)) (message : string) : M unit :=
  emit (EvLogInfo fields message).

(** Modelled from the spec: [statOrNull] of builder-util (not in src), which
    tells whether the path exists: the entry found there, or [null]. *)
Definition statOrNull (p : string) : M (option entry) :=
  emit (EvStatOrNull p) ;; m ← getFiles; mret (m !! p).

(** Modelled from the spec: [unlinkIfExists] of builder-util (not in src),
    best-effort: the failure of the [unlink] is ignored. *)
Definition unlinkIfExists (p : string) : M unit :=
  emit (EvUnlinkIfExists p) ;; catch_ignore (onFiles (FS.unlink p)).

(** fs-extra's [rename] *)
Definition rename (src dst : string) : M unit :=
  emit (EvRename src dst) ;; onFiles (FS.rename src dst).

(** fs-extra's [emptyDir] *)
Definition emptyDir (p : string) : M unit :=
  emit (EvEmptyDir p) ;; onFiles (FS.emptyDir p).

(** [copyDir(src, dst, { isUseHardLink })] of builder-util *)
Definition copyDir (src dst : string) (isUseHardLink : bool) : M unit :=
  emit (EvCopyDir src dst isUseHardLink) ;; onFiles (FS.copyDir src dst).

(** [fs.rm(p, { recursive: true, force: true })] *)
Definition fs_rm (p : string) : M unit :=
  emit (EvRm p) ;; onFiles (λ m, Ok (FS.rm p m)).

(** Modelled from the spec: [asArray] of builder-util (not in src), which
    turns an absent value into the empty array and a single value into a
    one-element array. *)
Definition asArray (v : option OneOrMany) : list string :=
  match v with
  | None => []
  | Some (One s) => [s]
  | Some (Many l) => l
  end.

(** [BluebirdPromise.map(items, mapper, CONCURRENCY)] with the mapper's
    calls taken one at a time, in the order of [items]. *)
Fixpoint promiseMap {A} (mapper : A -> M unit) (items : list A) : M unit :=
  match items with
  | [] => mret tt
  | x :: rest => mapper x ;; promiseMap mapper rest
  end.

Section Program.

Variable ext : External.

(** [isSafeToUnpackElectronOnRemoteBuildServer(packager)] of
    ../platformPackager, which reads the packager and its configuration. *)
Definition isSafeToUnpackElectronOnRemoteBuildServer (packager : Packager) : M bool :=
  cfg ← getConfig; mret (Ext.isSafeToUnpackElectronOnRemoteBuildServer ext packager cfg).

(** [executeAppBuilder(args)] of builder-util: the external worker, a
    subprocess that changes the filesystem and then exits, with a failure or
    without. *)
Definition executeAppBuilder (args : list Arg) : M unit :=
  emit (EvExecuteAppBuilder args) ;; onFilesLeaving (Ext.executeAppBuilder ext args).

(** [createMacApp(packager, appOutDir, asarIntegrity, isMas)] of
    ./electronMac: the macOS bundle constructor. *)
Definition createMacApp (packager : Packager) (appOutDir : string)
    (asarIntegrity : option AsarIntegrity) (isMas : bool) : M unit :=
  emit (EvCreateMacApp appOutDir isMas) ;;
  cfg ← getConfig;
  onFilesLeaving (Ext.createMacApp ext packager cfg appOutDir asarIntegrity isMas).

(** [replaceFFMPEG(appOutDir, version, platformName, arch, resolve)], awaited
    until it calls [resolve]. *)
Definition replaceFFMPEG (appOutDir version : string) (platformName : ElectronPlatformName)
    (arch : string) : M unit :=
  emit (EvReplaceFFMPEG appOutDir) ;;
  onFiles (λ m, Ok (Ext.replaceFFMPEG ext appOutDir version platformName arch m)).

(** [getElectronVersionFromInstalled(projectDir)] of ./electronVersion: the
    version of the installed package, or [null]. *)
Definition getElectronVersionFromInstalled (projectDir : string) : M (option string) :=
  emit (EvGetElectronVersionFromInstalled projectDir) ;;
  m ← getFiles; mret (Ext.getElectronVersionFromInstalled ext projectDir m).

(** [computeElectronVersion(projectDir, new Lazy(() => packager.metadata))]
    of ./electronVersion: the version found from the manifest, or a
    rejection. *)
Definition computeElectronVersion (projectDir : string) (metadata : Metadata) : M string :=
  emit (EvComputeElectronVersion projectDir) ;;
  m ← getFiles;
  match Ext.computeElectronVersion ext projectDir metadata m with
  | Ok v => mret v
  | Throw e => throw e
  end.

(** fs-extra's [readdir]: the names in the directory, in the order the
    operating system gives them. *)
Definition readdir (dir : string) : M (list string) :=
  emit (EvReaddir dir) ;;
  m ← getFiles;
  match m !! dir with
  | Some Dir => mret (Ext.readdirOrder ext dir (FS.children dir m))
  | Some (File _) => throw (ENOTDIR dir)
  | None => throw (ENOENT dir)
  end.

(** *** The functions of ElectronFramework.ts *)

Definition createBrandingOpts (opts : Configuration) : Required.ElectronBrandingOptions :=
  {| Required.projectName := Js.or_else (electronBranding opts ≫= projectName) "electron";
     Required.productName := Js.or_else (electronBranding opts ≫= productName) "Electron" |}.

Definition createDownloadOpts (opts : Configuration) (platform : ElectronPlatformName)
    (arch electronVersion : string) : ElectronDownloadOptions :=
  Js.spread (electronDownload opts)
    (<["version" := VStr electronVersion]>
       (<["arch" := VStr arch]>
          (<["platform" := VStr (platformNameString platform)]> ∅))).

(** The callback given to [BluebirdPromise.map], lines 99 to 109. *)
Definition pruneLocale (wantedLanguages : list string) (langFileExt resourcesDir file : string)
    : M unit :=
  if negb (Js.endsWith file langFileExt) then mret tt
  else
    let language :=
      Js.substring0 (String.length file - String.length langFileExt) file in
    if negb (Js.includes wantedLanguages language)
    then fs_rm (path.join resourcesDir file)
    else mret tt.

Definition beforeCopyExtraFiles (options : BeforeCopyExtraFilesOptions) : M unit :=
  let packager := bc_packager options in
  let appOutDir := bc_appOutDir options in
  cfg ← getConfig;
  let electronBranding := createBrandingOpts cfg in
  if bool_decide (platform packager = LINUX) then
    safe ← isSafeToUnpackElectronOnRemoteBuildServer packager;
    if negb safe then
      let executable := path.join appOutDir (executableName packager) in
      rename (path.join appOutDir (Required.projectName electronBranding)) executable
    else mret tt
  else if bool_decide (platform packager = WINDOWS) then
    let executable := path.join appOutDir (productFilename (appInfo packager) ++ ".exe") in
    rename (path.join appOutDir (Required.projectName electronBranding ++ ".exe")) executable
  else
    createMacApp packager appOutDir (bc_asarIntegrity options)
                 (bool_decide (bc_platformName options = mas)) ;;
    let wantedLanguages := asArray (electronLanguages (platformSpecificBuildOptions packager)) in
    if bool_decide (List.length wantedLanguages = 0%nat) then mret tt
    else
      let langFileExt := ".lproj" in
      let resourcesDir := getResourcesDir packager appOutDir in
      listing ← readdir resourcesDir;
      promiseMap (pruneLocale wantedLanguages langFileExt resourcesDir) listing.

(** Line 206: [resourcesPath]. *)
Definition cleanup_resourcesPath (prepareOptions : PrepareApplicationStageDirectoryOptions)
    (distMacOsAppName : string) : string :=
  let out := appOutDir prepareOptions in
  let isMac := bool_decide (platform (packager prepareOptions) = MAC) in
  if isMac
  then path.joinAll [out; distMacOsAppName; "Contents"; "Resources"]
  else path.join out "resources".

(** The three promises given to [Promise.all] are started in the order of
    the array and none of them rejects; their calls are taken in that
    order. *)
Definition cleanupAfterUnpack (prepareOptions : PrepareApplicationStageDirectoryOptions)
    (distMacOsAppName : string) (isFullCleanup : bool) : M unit :=
  let out := appOutDir prepareOptions in
  let isMac := bool_decide (platform (packager prepareOptions) = MAC) in
  let resourcesPath := cleanup_resourcesPath prepareOptions distMacOsAppName in
  (if isFullCleanup then unlinkIfExists (path.join resourcesPath "default_app.asar") else mret tt) ;;
  (if isFullCleanup then unlinkIfExists (path.join out "version") else mret tt) ;;
  (if isMac then mret tt
   else catch_ignore (rename (path.join out "LICENSE") (path.join out "LICENSE.electron.txt"))).

(** Line 172: the initial value of [dist]. *)
Definition unpack_dist (cfg : Configuration)
    (prepareOptions : PrepareApplicationStageDirectoryOptions) : option string :=
  match electronDist cfg with
  | Some (DistFunction electronDist) => electronDist prepareOptions
  | Some (DistPath electronDist) => Some electronDist
  | None => None
  end.

(** Line 174: [zipFile]. *)
Definition unpack_zipFile (options : ElectronDownloadOptions)
    (platformName : ElectronPlatformName) : string :=
  "electron-v" ++ toStr (prop options "version") ++ "-" ++
  platformNameString platformName ++ "-" ++ toStr (prop options "arch") ++ ".zip".

(** Line 175: [resolvedDist]. *)
Definition unpack_resolvedDist (packager : Packager) (dist : string) : string :=
  if path.isAbsolute dist then dist
  else path.resolve (Ext.cwd ext) (projectDir packager) dist.

(** The command line of the external worker, line 188. *)
Definition unpack_args (options : ElectronDownloadOptions) (appOutDir distMacOsAppName : string)
    : list Arg :=
  [ArgStr "unpack-electron"; ArgStr "--configuration"; ArgJson [options];
   ArgStr "--output"; ArgStr appOutDir;
   ArgStr "--distMacOsAppName"; ArgStr distMacOsAppName].

(** [unpack] returns nothing in the source; what is returned here is the
    [options] object as [unpack] leaves it, since line 178 writes into it.
    The [if] of lines 184 to 198 gives [None] for the early [return] and
    otherwise the value that [isFullCleanup] has after it. *)
Definition unpack (prepareOptions : PrepareApplicationStageDirectoryOptions)
    (options : ElectronDownloadOptions) (distMacOsAppName : string)
    : M ElectronDownloadOptions :=
  let packager := packager prepareOptions in
  let appOutDir := appOutDir prepareOptions in
  let platformName := platformName prepareOptions in
  cfg ← getConfig;
  let dist := unpack_dist cfg prepareOptions in
  '(options, dist) ←
    match dist return M (ElectronDownloadOptions * option string) with
    | Some d =>
        let zipFile := unpack_zipFile options platformName in
        let resolvedDist := unpack_resolvedDist packager d in
        s ← statOrNull (path.join resolvedDist zipFile);
        match s with
        | Some _ =>
            log_info [("resolvedDist", resolvedDist); ("zipFile", zipFile)]
                     "Resolved electronDist" ;;
            mret (<["cache" := VStr resolvedDist]> options, None)
        | None => mret (options, Some d)
        end
    | None => mret (options, None)
    end;
  isFullCleanup ←
    match dist return M (option bool) with
    | None =>
        safe ← isSafeToUnpackElectronOnRemoteBuildServer packager;
        if (safe : bool) then mret None
        else
          executeAppBuilder (unpack_args options appOutDir distMacOsAppName) ;;
          mret (Some false)
    | Some d =>
        let source := getElectronSrcDir packager d in
        let destination := getElectronDestinationDir packager appOutDir in
        log_info [("source", source); ("destination", destination)] "copying Electron" ;;
        emptyDir appOutDir ;;
        copyDir source destination DO_NOT_USE_HARD_LINKS ;;
        mret (Some true)
    end;
  match isFullCleanup with
  | None => mret options
  | Some isFullCleanup =>
      cleanupAfterUnpack prepareOptions distMacOsAppName isFullCleanup ;;
      mret options
  end.

Definition prepareApplicationStageDirectory (this : Framework)
    (options : PrepareApplicationStageDirectoryOptions) : M unit :=
  cfg ← getConfig;
  unpack options
         (createDownloadOpts cfg (platformName options) (arch options) (fw_version this))
         (fw_distMacOsAppName this) ;;
  cfg ← getConfig;
  if downloadAlternateFFmpeg cfg then
    log_info [] "downloading non-proprietary FFMPEG, piping output" ;;
    replaceFFMPEG (appOutDir options) (version options) (platformName options) (arch options)
  else mret tt.

(** The [configuration] argument of the source is the shared object of the
    state: it is read with [getConfig] and written with [putConfig]. *)
Definition createElectronFrameworkSupport (packager : Packager) : M Framework :=
  configuration ← getConfig;
  version ←
    match electronVersion configuration with
    | Some version => mret version
    | None =>
        version ←
          (if isPrepackedAppAsar packager then
             version ← getElectronVersionFromInstalled (projectDir packager);
             match version with
             | None => throw (Error "Cannot compute electron version for prepacked asar")
             | Some version => mret version
             end
           else computeElectronVersion (projectDir packager) (metadata packager));
        configuration ← getConfig;
        putConfig (set_electronVersion (Some version) configuration) ;;
        mret version
    end;
  configuration ← getConfig;
  let branding := createBrandingOpts configuration in
  mret {| fw_name := Required.projectName branding;
          fw_version := version;
          fw_distMacOsAppName := Required.productName branding ++ ".app" |}.

End Program.

(** ** Concrete builds

    Small builds on which the functions above are run. *)

Module Scenario.

(** A worker that unpacks an Electron executable and its licence into
    [/out]; every other collaborator does nothing. *)
Definition collaborators (safe : bool) (installed : option string)
    (order : list string -> list string) : External :=
  {| Ext.cwd := "/project";
     Ext.isSafeToUnpackElectronOnRemoteBuildServer := λ _ _, safe;
     Ext.executeAppBuilder := λ _ m,
       (Ok tt, <["/out/LICENSE" := File "MIT"]> (<["/out/electron" := File "ELF"]> m));
     Ext.createMacApp := λ _ _ _ _ _ m, (Ok tt, m);
     Ext.replaceFFMPEG := λ _ _ _ _ m, m;
     Ext.getElectronVersionFromInstalled := λ _ _, installed;
     Ext.computeElectronVersion := λ _ _ _, Ok "25.0.0";
     Ext.readdirOrder := λ _ l, order l |}.

Definition mkPackager (p : Platform) (prepacked : bool) (languages : option OneOrMany)
    : Packager :=
  {| platform := p;
     projectDir := "/project";
     isPrepackedAppAsar := prepacked;
     metadata := [];
     appInfo := {| productFilename := "My App" |};
     executableName := "my-app";
     platformSpecificBuildOptions := {| electronLanguages := languages |};
     getElectronSrcDir := λ dist, path.resolve "/project" "/project" dist;
     getElectronDestinationDir := λ appOutDir, appOutDir;
     getResourcesDir := λ appOutDir,
       match p with
       | MAC => path.join appOutDir "My App.app/Contents/Resources"
       | _ => path.join appOutDir "resources"
       end |}.

Definition mkConfig (v : option string) (dist : option ElectronDist)
    (download : option ElectronDownloadOptions) : Configuration :=
  {| electronVersion := v;
     electronBranding := None;
     electronDownload := download;
     electronDist := dist;
     downloadAlternateFFmpeg := false |}.

Definition prepare (p : Platform) (name : ElectronPlatformName)
    : PrepareApplicationStageDirectoryOptions :=
  {| packager := mkPackager p false None;
     appOutDir := "/out";
     platformName := name;
     arch := "x64";
     version := "25.0.0" |}.

Definition hook (p : Platform) (name : ElectronPlatformName) (languages : option OneOrMany)
    : BeforeCopyExtraFilesOptions :=
  {| bc_packager := mkPackager p false languages;
     bc_appOutDir := "/out";
     bc_asarIntegrity := None;
     bc_platformName := name |}.

(** A stage directory as a skipped acquisition finds it: already populated,
    licence included. *)
Definition staged : FS :=
  list_to_map
    [("/out", Dir); ("/out/LICENSE", File "MIT"); ("/out/electron", File "ELF");
     ("/out/version", File "25.0.0"); ("/out/resources", Dir);
     ("/out/resources/default_app.asar", File "asar")].

(** A local Electron distribution in [/project/dist], without any zip. *)
Definition withDist : FS :=
  list_to_map
    [("/project", Dir); ("/project/dist", Dir);
     ("/project/dist/electron", File "ELF"); ("/project/dist/LICENSE", File "MIT");
     ("/project/dist/version", File "25.0.0"); ("/project/dist/resources", Dir);
     ("/project/dist/resources/default_app.asar", File "asar")].

(** The same distribution directory, holding the zip of the wanted build. *)
Definition withZip : FS :=
  <["/project/dist/electron-v25.0.0-linux-x64.zip" := File "PK"]> withDist.

(** A Windows stage directory right after unpacking. *)
Definition windowsStage : FS :=
  list_to_map [("/out", Dir); ("/out/electron.exe", File "MZ")].

(** The resources of a macOS bundle with three locales and one other file. *)
Definition resources : string := "/out/My App.app/Contents/Resources".

Definition macStage : FS :=
  list_to_map
    [("/out", Dir); (resources, Dir);
     (resources ++ "/en.lproj", Dir); (resources ++ "/en.lproj/a.strings", File "en");
     (resources ++ "/fr.lproj", Dir); (resources ++ "/fr.lproj/a.strings", File "fr");
     (resources ++ "/de.lproj", Dir); (resources ++ "/de.lproj/a.strings", File "de");
     (resources ++ "/readme.txt", File "read me")].

(** A bundle before its construction: the resources of [macStage] and the
    icon of Electron. *)
Definition bundleStage : FS :=
  <[resources ++ "/electron.icns" := File "icns"]> macStage.

(** A bundle constructor that replaces the icon of Electron by the icon of
    the application; every other collaborator as in [collaborators]. *)
Definition branding : External :=
  {| Ext.cwd := "/project";
     Ext.isSafeToUnpackElectronOnRemoteBuildServer := λ _ _, false;
     Ext.executeAppBuilder := λ _ m, (Ok tt, m);
     Ext.createMacApp := λ _ _ _ _ _ m,
       (Ok tt, <[resources ++ "/My App.icns" := File "icns"]>
                 (delete (resources ++ "/electron.icns") m));
     Ext.replaceFFMPEG := λ _ _ _ _ m, m;
     Ext.getElectronVersionFromInstalled := λ _ _, None;
     Ext.computeElectronVersion := λ _ _ _, Ok "25.0.0";
     Ext.readdirOrder := λ _ l, l |}.

Definition options0 : ElectronDownloadOptions :=
  createDownloadOpts (mkConfig None None None) linux "x64" "25.0.0".

End Scenario.

(** ** Reading traces *)

(** The acquisition a run made, read off its trace: the local copy is the
    only caller of [emptyDir] and [copyDir], the delegated unpack the only
    caller of the external worker. *)
Definition isCopyDir (e : Event) : bool :=
  match e with EvCopyDir _ _ _ => true | _ => false end.

Definition isEmptyDir (e : Event) : bool :=
  match e with EvEmptyDir _ => true | _ => false end.

Definition isExecuteAppBuilder (e : Event) : bool :=
  match e with EvExecuteAppBuilder _ => true | _ => false end.

Definition isRm (e : Event) : bool :=
  match e with EvRm _ => true | _ => false end.

Definition isReaddir (e : Event) : bool :=
  match e with EvReaddir _ => true | _ => false end.

Definition isLocalCopy (e : Event) : bool := isEmptyDir e || isCopyDir e.

Definition usedLocalCopy (t : list Event) : bool := existsb isLocalCopy t.
Definition usedDelegation (t : list Event) : bool := existsb isExecuteAppBuilder t.

(** The paths removed by [fs.rm] during a run. *)
Definition removed (t : list Event) : list string :=
  omap (λ e, match e with EvRm p => Some p | _ => None end) t.

(** The three cleanup calls of [cleanupAfterUnpack]. *)
Definition removeAsar (prepareOptions : PrepareApplicationStageDirectoryOptions)
    (distMacOsAppName : string) : Event :=
  EvUnlinkIfExists (path.join (cleanup_resourcesPath prepareOptions distMacOsAppName)
                              "default_app.asar").

Definition removeVersion (prepareOptions : PrepareApplicationStageDirectoryOptions) : Event :=
  EvUnlinkIfExists (path.join (appOutDir prepareOptions) "version").

Definition renameLicense (prepareOptions : PrepareApplicationStageDirectoryOptions) : Event :=
  EvRename (path.join (appOutDir prepareOptions) "LICENSE")
           (path.join (appOutDir prepareOptions) "LICENSE.electron.txt").

Definition isCleanup (e : Event) : bool :=
  match e with
  | EvUnlinkIfExists _ | EvRename _ _ => true
  | _ => false
  end.

(** ** Joining a plain relative path to a directory *)

(** A plain name: not empty, not [.] and not [..]. *)
Definition plainName (seg : string) : bool :=
  negb (bool_decide (seg = "") || bool_decide (seg = ".") || bool_decide (seg = "..")).

(** A relative path made of plain names only. *)
Definition plainPath (p : string) : bool := forallb plainName (path.split p).

(** No separator occurs in [seg]. *)
Fixpoint noSep (seg : string) : bool :=
  match seg with
  | EmptyString => true
  | String c seg' => negb (Ascii.eqb c "/") && noSep seg'
  end.

(** The kept segments, last first, are as [normalizeString] leaves them:
    plain names above [..] segments, which occur only when
    [allowAboveRoot]. *)
Fixpoint normalKept (allowAboveRoot : bool) (kept : list string) : bool :=
  match kept with
  | [] => true
  | seg :: rest =>
      if bool_decide (seg = "..")
      then allowAboveRoot && forallb (λ s, bool_decide (s = "..")) rest
      else plainName seg && normalKept allowAboveRoot rest
  end.

(** The segments of [dir] that normalisation keeps, first one first. *)
Definition keptOf (dir : string) : list string :=
  rev (foldl (path.keep (negb (path.isAbsolute dir))) [] (path.split dir)).

(** What [path.join(dir, x)] puts before a plain relative path [x]: the
    normalised [dir] and a separator, or nothing when [dir] normalises to
    the current directory. *)
Definition joinBase (dir : string) : string :=
  ((if path.isAbsolute dir then "/" else "") +:+
   match keptOf dir with
   | [] => ""
   | segs => path.unsplit segs +:+ "/"
   end)%string.

Local Open Scope list_scope.

(** ** What a run of [unpack] consists of *)

(** The calls of [cleanupAfterUnpack]. *)
Definition cleanupEvents (po : PrepareApplicationStageDirectoryOptions) (dmn : string)
    (isFullCleanup : bool) : list Event :=
  (if isFullCleanup then [removeAsar po dmn; removeVersion po] else []) ++
  (if bool_decide (platform (packager po) = MAC) then [] else [renameLicense po]).

(** The value of [options] and of [dist] after lines 173 to 181. *)
Definition unpack_resolved (ext : External) (cfg : Configuration) (po : PrepareApplicationStageDirectoryOptions)
    (options : ElectronDownloadOptions) (m : FS) : ElectronDownloadOptions * option string :=
  match unpack_dist cfg po with
  | Some d =>
      let resolvedDist := unpack_resolvedDist ext (packager po) d in
      match m !! path.join resolvedDist (unpack_zipFile options (platformName po)) with
      | Some _ => (<["cache" := VStr resolvedDist]> options, None)
      | None => (options, Some d)
      end
  | None => (options, None)
  end.

(** The calls of lines 173 to 181. *)
Definition resolveEvents (ext : External) (cfg : Configuration) (po : PrepareApplicationStageDirectoryOptions)
    (options : ElectronDownloadOptions) (m : FS) : list Event :=
  match unpack_dist cfg po with
  | Some d =>
      let resolvedDist := unpack_resolvedDist ext (packager po) d in
      let zipFile := unpack_zipFile options (platformName po) in
      EvStatOrNull (path.join resolvedDist zipFile) ::
      match m !! path.join resolvedDist zipFile with
      | Some _ => [EvLogInfo [("resolvedDist", resolvedDist); ("zipFile", zipFile)]
                             "Resolved electronDist"]
      | None => []
      end
  | None => []
  end.

(** The calls of the local copy, lines 191 to 197. *)
Definition copyEvents (po : PrepareApplicationStageDirectoryOptions) (d : string) : list Event :=
  let source := getElectronSrcDir (packager po) d in
  let destination := getElectronDestinationDir (packager po) (appOutDir po) in
  [EvLogInfo [("source", source); ("destination", destination)] "copying Electron";
   EvEmptyDir (appOutDir po);
   EvCopyDir source destination DO_NOT_USE_HARD_LINKS].

(** The run [o] ends with a run of the finalizer. *)
Definition finalizerRan {A} (po : PrepareApplicationStageDirectoryOptions) (dmn : string)
    (o : Outcome A) : Prop :=
  exists (isFullCleanup : bool) (st1 : State) (t0 : list Event),
    trace o = t0 ++ trace (cleanupAfterUnpack po dmn isFullCleanup st1) /\
    final o = final (cleanupAfterUnpack po dmn isFullCleanup st1).


(** ** What locale pruning removes *)

(** The entry [file] of the resources directory is a locale that is not
    wanted: the test of lines 100 to 105. *)
Definition isPruned (wantedLanguages : list string) (langFileExt file : string) : bool :=
  Js.endsWith file langFileExt &&
  negb (Js.includes wantedLanguages
          (Js.substring0 (String.length file - String.length langFileExt) file)).

Definition pruned (wantedLanguages : list string) (langFileExt : string)
    (listing : list string) : list string :=
  filter (λ file, isPruned wantedLanguages langFileExt file = true) listing.

(** The filesystem after [fs.rm] of each of [names] in [dir], in turn. *)
Definition rmAll (dir : string) (names : list string) (m : FS) : FS :=
  foldl (λ m name, FS.rm (path.join dir name) m) m names.


(** ** Best-effort filesystem calls *)

(** The filesystem after a call whose failure is ignored. *)
Definition bestEffort (f : FS -> Res FS) (m : FS) : FS :=
  match f m with
  | Ok m' => m'
  | Throw _ => m
  end.

Definition isReplaceFFMPEG (e : Event) : bool :=
  match e with EvReplaceFFMPEG _ => true | _ => false end.

Definition isStatOrNull (e : Event) : bool :=
  match e with EvStatOrNull _ => true | _ => false end.
(** ** Proof support *)

Ltac run :=
  cbv [mbind mret M_bind M_ret bind ret throw emit getFiles getConfig putConfig onFiles onFilesLeaving
       catch_ignore log_info statOrNull unlinkIfExists rename emptyDir copyDir fs_rm
       isSafeToUnpackElectronOnRemoteBuildServer executeAppBuilder createMacApp
       replaceFFMPEG getElectronVersionFromInstalled computeElectronVersion readdir
       set_files set_config after];
  cbn [res final trace files config app fst snd].

Ltac break_inner :=
  match goal with
  | H : ?x = _ |- context [match ?x with _ => _ end] => rewrite H
  | |- context [match ?x with _ => _ end] =>
      lazymatch x with
      | context [match _ with _ => _ end] => fail
      | _ => destruct x eqn:?
      end
  end.

Ltac steps := repeat (break_inner; cbn [res final trace files config app after] in * ).

(** ** Paths *)

Lemma append_assoc (a b c : string) : ((a +:+ b) +:+ c = a +:+ (b +:+ c))%string.
Proof.
  induction a as [|x a IH]; [reflexivity|].
  change (String x ((a +:+ b) +:+ c) = String x (a +:+ (b +:+ c)))%string.
  f_equal. exact IH.
Qed.

Lemma append_nil_r (a : string) : (a +:+ "")%string = a.
Proof.
  induction a as [|x a IH]; [reflexivity|].
  change (String x (a +:+ "") = String x a)%string. f_equal. exact IH.
Qed.

Lemma split_nonempty (p : string) : path.split p <> [].
Proof.
  destruct p as [|c p]; cbn [path.split]; [discriminate|].
  destruct (Ascii.eqb c "/"); [discriminate|].
  destruct (path.split p); discriminate.
Qed.

Lemma unsplit_String (c : ascii) (seg : string) (segs : list string) :
  path.unsplit (String c seg :: segs) = String c (path.unsplit (seg :: segs)).
Proof. destruct segs; reflexivity. Qed.

Lemma unsplit_split (p : string) : path.unsplit (path.split p) = p.
Proof.
  induction p as [|c p IH]; [reflexivity|].
  cbn [path.split]. destruct (Ascii.eqb_spec c "/") as [->|Hc].
  - pose proof (split_nonempty p) as Hne.
    destruct (path.split p) as [|seg segs] eqn:Hs; [congruence|].
    change (path.unsplit ("" :: seg :: segs)) with (String "/" (path.unsplit (seg :: segs))).
    rewrite IH. reflexivity.
  - pose proof (split_nonempty p) as Hne.
    destruct (path.split p) as [|seg segs] eqn:Hs; [congruence|].
    rewrite unsplit_String, IH. reflexivity.
Qed.

Lemma split_String_sep (p : string) : path.split (String "/" p) = "" :: path.split p.
Proof. reflexivity. Qed.

Lemma split_append (a b : string) :
  path.split (a +:+ String "/" b)%string = path.split a ++ path.split b.
Proof.
  induction a as [|c a IH]; [reflexivity|].
  change (path.split (String c (a +:+ String "/" b)%string) =
          path.split (String c a) ++ path.split b).
  cbn [path.split]. rewrite IH.
  destruct (Ascii.eqb c "/"); [reflexivity|].
  pose proof (split_nonempty a) as Hne.
  destruct (path.split a) as [|seg segs]; [congruence | reflexivity].
Qed.

Lemma split_noSep (p : string) : Forall (λ seg, noSep seg = true) (path.split p).
Proof.
  induction p as [|c p IH]; [repeat constructor|].
  cbn [path.split]. destruct (Ascii.eqb c "/") eqn:Hc; [constructor; [reflexivity | exact IH]|].
  destruct (path.split p) as [|seg segs]; [repeat constructor; cbn; rewrite Hc; reflexivity|].
  inversion IH as [|? ? Hseg Hsegs]; subst.
  constructor; [cbn; rewrite Hc, Hseg; reflexivity | exact Hsegs].
Qed.

Lemma split_of_noSep (seg : string) : noSep seg = true -> path.split seg = [seg].
Proof.
  induction seg as [|c seg IH]; [reflexivity|].
  cbn [noSep path.split]. intros [Hc Hseg]%andb_true_iff.
  apply negb_true_iff in Hc. rewrite Hc, (IH Hseg). reflexivity.
Qed.

Lemma split_unsplit (segs : list string) :
  segs <> [] -> Forall (λ seg, noSep seg = true) segs ->
  path.split (path.unsplit segs) = segs.
Proof.
  induction segs as [|seg segs IH]; [congruence|].
  intros _ Hall. inversion Hall as [|? ? Hseg Hsegs]; subst.
  destruct segs as [|seg' segs].
  - apply split_of_noSep, Hseg.
  - change (path.unsplit (seg :: seg' :: segs))
      with (seg +:+ String "/" (path.unsplit (seg' :: segs)))%string.
    rewrite split_append, (split_of_noSep seg Hseg), IH by (congruence || assumption).
    reflexivity.
Qed.

Lemma unsplit_app (l xs : list string) :
  xs <> [] ->
  path.unsplit (l ++ xs) =
    (match l with [] => "" | _ => path.unsplit l +:+ "/" end +:+ path.unsplit xs)%string.
Proof.
  intros Hxs. induction l as [|seg l IH]; [reflexivity|].
  destruct l as [|seg' l].
  - destruct xs as [|x xs]; [congruence|].
    change (seg +:+ String "/" (path.unsplit (x :: xs)) =
            (seg +:+ "/") +:+ path.unsplit (x :: xs))%string.
    rewrite append_assoc. reflexivity.
  - change (path.unsplit ((seg :: seg' :: l) ++ xs))
      with (seg +:+ String "/" (path.unsplit ((seg' :: l) ++ xs)))%string.
    rewrite IH.
    change (path.unsplit (seg :: seg' :: l))
      with (seg +:+ String "/" (path.unsplit (seg' :: l)))%string.
    rewrite !append_assoc. reflexivity.
Qed.

(** *** Normalisation of the kept segments *)

Lemma plainName_spec (seg : string) :
  plainName seg = true <-> seg <> "" /\ seg <> "." /\ seg <> "..".
Proof.
  unfold plainName. rewrite negb_true_iff, !orb_false_iff, !bool_decide_eq_false. tauto.
Qed.

Lemma keep_plainName (allow : bool) (kept : list string) (seg : string) :
  plainName seg = true -> path.keep allow kept seg = seg :: kept.
Proof.
  intros (H1 & H2 & H3)%plainName_spec. unfold path.keep.
  rewrite (bool_decide_eq_false_2 (seg = "")), (bool_decide_eq_false_2 (seg = ".")),
    (bool_decide_eq_false_2 (seg = "..")) by assumption.
  reflexivity.
Qed.

Lemma foldl_keep_plainName (allow : bool) (xs kept : list string) :
  forallb plainName xs = true ->
  foldl (path.keep allow) kept xs = rev xs ++ kept.
Proof.
  revert kept. induction xs as [|x xs IH]; intros kept; [reflexivity|].
  cbn [forallb foldl rev]. intros [Hx Hxs]%andb_true_iff.
  rewrite (keep_plainName _ _ _ Hx), IH by exact Hxs.
  rewrite <- app_assoc. reflexivity.
Qed.

Lemma normalKept_tail (allow : bool) (seg : string) (rest : list string) :
  normalKept allow (seg :: rest) = true -> normalKept allow rest = true.
Proof.
  cbn [normalKept]. case_bool_decide.
  - intros [Ha Hall]%andb_true_iff. clear -Ha Hall.
    induction rest as [|s rest IH]; [reflexivity|].
    cbn [forallb] in Hall. apply andb_true_iff in Hall as [Hs Hrest].
    cbn [normalKept]. rewrite Hs, Ha, Hrest. reflexivity.
  - intros [_ Hrest]%andb_true_iff. exact Hrest.
Qed.

Lemma keep_normal (allow : bool) (kept : list string) (seg : string) :
  normalKept allow kept = true -> normalKept allow (path.keep allow kept seg) = true.
Proof.
  intros Hk. unfold path.keep.
  destruct (bool_decide (seg = "") || bool_decide (seg = ".")) eqn:Hskip; [exact Hk|].
  destruct (bool_decide (seg = "..")) eqn:Hdd.
  - destruct kept as [|last rest].
    + destruct allow; reflexivity.
    + destruct (bool_decide (last = "..")) eqn:Hlast.
      * destruct allow; [|exact Hk].
        cbn [normalKept] in Hk. rewrite Hlast in Hk.
        cbn [normalKept forallb]. rewrite Hlast.
        rewrite (bool_decide_eq_true_2 (".." = "..")) by reflexivity.
        cbn. apply andb_true_iff in Hk as [_ Hk]. exact Hk.
      * exact (normalKept_tail _ _ _ Hk).
  - cbn [normalKept]. rewrite Hdd, Hk, andb_true_r. unfold plainName.
    rewrite orb_false_r in Hskip || idtac.
    rewrite Hdd, orb_false_r, Hskip. reflexivity.
Qed.

Lemma foldl_keep_normal (allow : bool) (segs kept : list string) :
  normalKept allow kept = true -> normalKept allow (foldl (path.keep allow) kept segs) = true.
Proof.
  revert kept. induction segs as [|seg segs IH]; intros kept Hk; [exact Hk|].
  cbn [foldl]. apply IH, keep_normal, Hk.
Qed.

Lemma keep_noSep (allow : bool) (kept : list string) (seg : string) :
  Forall (λ s, noSep s = true) kept -> noSep seg = true ->
  Forall (λ s, noSep s = true) (path.keep allow kept seg).
Proof.
  intros Hk Hseg. unfold path.keep.
  destruct (bool_decide (seg = "") || bool_decide (seg = ".")); [exact Hk|].
  case_bool_decide.
  - destruct kept as [|last rest]; [destruct allow; repeat constructor|].
    case_bool_decide.
    + destruct allow; [constructor; [reflexivity | exact Hk] | exact Hk].
    + inversion Hk; assumption.
  - constructor; assumption.
Qed.

Lemma foldl_keep_noSep (allow : bool) (segs kept : list string) :
  Forall (λ s, noSep s = true) kept -> Forall (λ s, noSep s = true) segs ->
  Forall (λ s, noSep s = true) (foldl (path.keep allow) kept segs).
Proof.
  revert kept. induction segs as [|seg segs IH]; intros kept Hk Hs; [exact Hk|].
  inversion Hs; subst. cbn [foldl]. apply IH; [apply keep_noSep|]; assumption.
Qed.

Lemma foldl_keep_rev (allow : bool) (kept : list string) :
  normalKept allow kept = true -> foldl (path.keep allow) [] (rev kept) = kept.
Proof.
  induction kept as [|seg rest IH]; [reflexivity|].
  intros Hk. cbn [rev]. rewrite foldl_app. cbn [foldl].
  rewrite IH by exact (normalKept_tail _ _ _ Hk).
  cbn [normalKept] in Hk. case_bool_decide as Hdd.
  - subst seg. apply andb_true_iff in Hk as [-> Hall].
    unfold path.keep. cbn [bool_decide decide_rel orb].
    rewrite (bool_decide_eq_false_2 (".." = "")), (bool_decide_eq_false_2 (".." = ".")),
      (bool_decide_eq_true_2 (".." = "..")) by (discriminate || reflexivity).
    cbn [orb]. destruct rest as [|last rest]; [reflexivity|].
    cbn [forallb] in Hall. apply andb_true_iff in Hall as [Hlast _]. rewrite Hlast. reflexivity.
  - apply andb_true_iff in Hk as [Hp _]. apply keep_plainName, Hp.
Qed.

(** *** The first and the last character *)

Lemma split_singleton_empty (p : string) : path.split p = [""] -> p = "".
Proof. intros H. rewrite <- (unsplit_split p), H. reflexivity. Qed.

Lemma endsWithSep_last (p : string) :
  path.endsWithSep p = true -> last (path.split p) = Some "".
Proof.
  induction p as [|c p IH]; [discriminate|].
  destruct p as [|c' p'].
  - cbn [path.endsWithSep]. intros ->%Ascii.eqb_eq. reflexivity.
  - change (path.endsWithSep (String c (String c' p'))) with (path.endsWithSep (String c' p')).
    intros H. specialize (IH H).
    change (path.split (String c (String c' p')))
      with (if Ascii.eqb c "/" then "" :: path.split (String c' p')
            else match path.split (String c' p') with
                 | seg :: segs => String c seg :: segs
                 | [] => [String c ""]
                 end).
    destruct (path.split (String c' p')) as [|seg segs] eqn:Hs; [discriminate|].
    destruct segs as [|seg' segs].
    + cbn in IH. injection IH as ->. apply split_singleton_empty in Hs. discriminate.
    + destruct (Ascii.eqb c "/"); exact IH.
Qed.

Lemma plainPath_nonempty (x : string) : plainPath x = true -> x <> "".
Proof. intros H ->. discriminate. Qed.

Lemma plainPath_not_absolute (x : string) : plainPath x = true -> path.isAbsolute x = false.
Proof.
  destruct x as [|c x]; [reflexivity|].
  unfold plainPath. cbn [path.split path.isAbsolute].
  destruct (Ascii.eqb c "/"); [discriminate | reflexivity].
Qed.

Lemma plainName_last (xs : list string) :
  forallb plainName xs = true -> last xs <> Some "".
Proof.
  intros Hall Hlast. apply last_Some_elem_of, list_elem_of_In in Hlast.
  rewrite forallb_forall in Hall. specialize (Hall _ Hlast). discriminate.
Qed.

Lemma isAbsolute_app (a b : string) :
  a <> "" -> path.isAbsolute (a +:+ b) = path.isAbsolute a.
Proof. destruct a; [congruence | reflexivity]. Qed.

Lemma append_nonempty_r (a b : string) : b <> "" -> a +:+ b <> "".
Proof. destruct a; [trivial | discriminate]. Qed.

(** *** [path.join] on a plain relative path *)

Lemma normalize_plain_tail (s : string) (l : list string) (x : string) :
  plainPath x = true ->
  path.split s = l ++ path.split x ->
  path.normalize s =
    (if path.isAbsolute s then "/" else "") +:+
    path.unsplit (rev (foldl (path.keep (negb (path.isAbsolute s))) [] l) ++ path.split x).
Proof.
  intros Hx Hs.
  assert (Hxs : path.split x <> []) by apply split_nonempty.
  assert (Hends : path.endsWithSep s = false).
  { destruct (path.endsWithSep s) eqn:He; [|reflexivity].
    apply endsWithSep_last in He. rewrite Hs in He.
    rewrite last_app in He. destruct (last (path.split x)) as [y|] eqn:Hl.
    - exfalso. apply (plainName_last (path.split x) Hx). rewrite Hl. exact He.
    - apply last_None in Hl. congruence. }
  assert (Hne : s <> "").
  { intros ->. cbn in Hs. destruct l as [|y l].
    - cbn in Hs. unfold plainPath in Hx. rewrite <- Hs in Hx. discriminate.
    - injection Hs as _ Hs. destruct l; [cbn in Hs; congruence | discriminate]. }
  unfold path.normalize, path.normalizeString.
  rewrite (bool_decide_eq_false_2 (s = "")) by exact Hne.
  cbv zeta. rewrite Hends, Hs, foldl_app.
  rewrite foldl_keep_plainName by exact Hx.
  rewrite rev_app_distr, rev_involutive.
  rewrite bool_decide_eq_false_2.
  - destruct (path.isAbsolute s); reflexivity.
  - rewrite unsplit_app by exact Hxs. rewrite unsplit_split.
    apply append_nonempty_r, plainPath_nonempty, Hx.
Qed.

Lemma join_plainPath (dir x : string) :
  plainPath x = true -> path.join dir x = joinBase dir +:+ x.
Proof.
  intros Hx. pose proof (plainPath_nonempty x Hx) as Hne.
  assert (Hxs : path.split x <> []) by apply split_nonempty.
  unfold path.join, path.joinAll. cbn [List.filter].
  rewrite (bool_decide_eq_false_2 (x = "")) by exact Hne. cbn [negb].
  destruct (decide (dir = "")) as [->|Hdir].
  - cbn [bool_decide decide_rel negb path.unsplit].
    rewrite (bool_decide_eq_true_2 ("" = "")) by reflexivity. cbn [negb path.unsplit].
    rewrite (normalize_plain_tail x [] x Hx eq_refl).
    rewrite (plainPath_not_absolute x Hx). cbn [foldl rev app].
    rewrite unsplit_split. reflexivity.
  - rewrite (bool_decide_eq_false_2 (dir = "")) by exact Hdir. cbn [negb].
    change (path.unsplit [dir; x]) with (dir +:+ String "/" x).
    rewrite (normalize_plain_tail _ (path.split dir) x Hx (split_append dir x)).
    rewrite isAbsolute_app by exact Hdir.
    unfold joinBase, keptOf. rewrite unsplit_app by exact Hxs.
    rewrite unsplit_split, !append_assoc.
    destruct (rev (foldl (path.keep (negb (path.isAbsolute dir))) [] (path.split dir)));
      reflexivity.
Qed.

Lemma keptOf_normal (dir : string) :
  normalKept (negb (path.isAbsolute dir)) (rev (keptOf dir)) = true /\
  Forall (λ seg, noSep seg = true) (keptOf dir).
Proof.
  unfold keptOf. rewrite rev_involutive. split.
  - apply foldl_keep_normal. reflexivity.
  - apply Forall_rev, foldl_keep_noSep; [constructor | apply split_noSep].
Qed.

Lemma normalKept_nonempty (allow : bool) (seg : string) (rest : list string) :
  normalKept allow (seg :: rest) = true -> seg <> "".
Proof.
  cbn [normalKept]. case_bool_decide as Hdd; [subst; discriminate|].
  intros [Hp _]%andb_true_iff. apply plainName_spec in Hp. tauto.
Qed.

Lemma normalKept_all_nonempty (allow : bool) (kept : list string) :
  normalKept allow kept = true -> Forall (λ seg, seg <> "") kept.
Proof.
  induction kept as [|seg rest IH]; [constructor|].
  intros Hk. constructor; [exact (normalKept_nonempty _ _ _ Hk)|].
  apply IH, (normalKept_tail _ _ _ Hk).
Qed.

Lemma keptOf_head (dir seg : string) (segs : list string) :
  keptOf dir = seg :: segs -> exists c seg', seg = String c seg' /\ Ascii.eqb c "/" = false.
Proof.
  intros Hk. destruct (keptOf_normal dir) as [Hn Hs]. rewrite Hk in Hn, Hs.
  apply normalKept_all_nonempty in Hn. apply Forall_rev in Hn. rewrite rev_involutive in Hn.
  inversion Hn as [|? ? Hne _]; subst. inversion Hs as [|? ? Hsep _]; subst.
  destruct seg as [|c seg']; [congruence|].
  exists c, seg'. split; [reflexivity|].
  cbn [noSep] in Hsep. apply andb_true_iff in Hsep as [Hc _]. apply negb_true_iff, Hc.
Qed.

Lemma joinBase_shape (dir x : string) :
  plainPath x = true ->
  path.isAbsolute (joinBase dir +:+ x) = path.isAbsolute dir /\
  exists skipped,
    path.split (joinBase dir +:+ x) = skipped ++ keptOf dir ++ path.split x /\
    (skipped = [] \/ skipped = [""]).
Proof.
  intros Hx. unfold joinBase.
  destruct (keptOf_normal dir) as [_ Hs].
  destruct (keptOf dir) as [|seg segs] eqn:Hk.
  - destruct (path.isAbsolute dir).
    + split; [reflexivity|]. exists [""]. split; [reflexivity | right; reflexivity].
    + split; [exact (plainPath_not_absolute x Hx)|]. exists []. split; [reflexivity | left; reflexivity].
  - assert (Hsplit : path.split ((path.unsplit (seg :: segs) +:+ "/") +:+ x) =
                     (seg :: segs) ++ path.split x).
    { rewrite append_assoc. change ("/" +:+ x) with (String "/" x).
      rewrite split_append, split_unsplit by (congruence || assumption). reflexivity. }
    destruct (path.isAbsolute dir).
    + split; [reflexivity|]. exists [""]. split; [|right; reflexivity].
      change (("/" +:+ path.unsplit (seg :: segs) +:+ "/") +:+ x)
        with (String "/" ((path.unsplit (seg :: segs) +:+ "/") +:+ x)).
      rewrite split_String_sep, Hsplit. reflexivity.
    + split.
      * destruct (keptOf_head dir seg segs Hk) as (c & seg' & -> & Hc).
        rewrite unsplit_String.
        change (path.isAbsolute (String c ((path.unsplit (seg' :: segs) +:+ "/") +:+ x)) = false).
        exact Hc.
      * exists []. split; [exact Hsplit | left; reflexivity].
Qed.

Lemma joinBase_join (dir x : string) :
  plainPath x = true ->
  joinBase (joinBase dir +:+ x) = (joinBase dir +:+ x) +:+ "/".
Proof.
  intros Hx. destruct (joinBase_shape dir x Hx) as (Habs & skipped & Hsplit & Hskipped).
  assert (Hxs : path.split x <> []) by apply split_nonempty.
  assert (Hkept : keptOf (joinBase dir +:+ x) = keptOf dir ++ path.split x).
  { unfold keptOf at 1. rewrite Habs, Hsplit, !foldl_app.
    assert (Hskip : foldl (path.keep (negb (path.isAbsolute dir))) [] skipped = []).
    { destruct Hskipped as [-> | ->]; reflexivity. }
    rewrite Hskip.
    destruct (keptOf_normal dir) as [Hn _].
    rewrite <- (rev_involutive (keptOf dir)) at 1.
    rewrite (foldl_keep_rev _ _ Hn).
    rewrite foldl_keep_plainName by exact Hx.
    rewrite rev_app_distr, !rev_involutive. reflexivity. }
  unfold joinBase at 1. rewrite Hkept, Habs.
  destruct (keptOf dir ++ path.split x) as [|seg segs] eqn:Happ.
  { apply app_eq_nil in Happ as [_ Happ]. congruence. }
  rewrite <- Happ, unsplit_app, unsplit_split by exact Hxs.
  unfold joinBase. rewrite !append_assoc.
  destruct (keptOf dir); reflexivity.
Qed.

Lemma plainPath_append (a b : string) :
  plainPath a = true -> plainPath b = true -> plainPath (a +:+ String "/" b) = true.
Proof.
  unfold plainPath. intros Ha Hb. rewrite split_append, forallb_app, Ha, Hb. reflexivity.
Qed.

Lemma join_nonempty (dir a : string) : plainPath a = true -> path.join dir a <> "".
Proof.
  intros Ha. rewrite join_plainPath by exact Ha. apply append_nonempty_r, plainPath_nonempty, Ha.
Qed.

Lemma join_join (dir a b : string) :
  plainPath a = true -> plainPath b = true ->
  path.join (path.join dir a) b = path.join dir (a +:+ path.sep +:+ b).
Proof.
  intros Ha Hb.
  rewrite (join_plainPath dir a Ha), (join_plainPath _ b Hb), joinBase_join by exact Ha.
  change (a +:+ path.sep +:+ b) with (a +:+ String "/" b).
  rewrite (join_plainPath dir _ (plainPath_append a b Ha Hb)).
  rewrite !append_assoc. reflexivity.
Qed.

Lemma prefix_append (a b c : string) :
  String.prefix (a +:+ b) (a +:+ c) = String.prefix b c.
Proof.
  induction a as [|x a IH]; [reflexivity|].
  change (String.prefix (String x (a +:+ b)) (String x (a +:+ c)) = String.prefix b c).
  cbn [String.prefix].
  destruct (ascii_dec x x); [exact IH | congruence].
Qed.

Lemma under_join (dir a b : string) :
  plainPath a = true -> plainPath b = true ->
  FS.under (path.join dir a) (path.join dir b) = FS.under a b.
Proof.
  intros Ha Hb. rewrite !join_plainPath by assumption.
  unfold FS.under. rewrite append_assoc, prefix_append. f_equal.
  apply bool_decide_ext. split.
  - intros Heq. apply String.app_inj in Heq. exact Heq.
  - intros ->. reflexivity.
Qed.

Lemma prefix_join (dir a b : string) :
  plainPath a = true -> plainPath b = true ->
  String.prefix (path.join dir a) (path.join dir b) = String.prefix a b.
Proof. intros Ha Hb. rewrite !join_plainPath by assumption. apply prefix_append. Qed.

Lemma join_inj (dir a b : string) :
  plainPath a = true -> plainPath b = true -> path.join dir a = path.join dir b -> a = b.
Proof.
  intros Ha Hb. rewrite !join_plainPath by assumption.
  intros Heq. apply String.app_inj in Heq. exact Heq.
Qed.

(** ** The helpers on small inputs *)

Example endsWith_lproj :
  Js.endsWith "en.lproj" ".lproj" = true /\ Js.endsWith "readme.txt" ".lproj" = false /\
  Js.endsWith "proj" ".lproj" = false.
Proof. repeat split. Qed.

Example language_of_lproj :
  Js.substring0 (String.length "pt_BR.lproj" - String.length ".lproj") "pt_BR.lproj" = "pt_BR".
Proof. reflexivity. Qed.

Example join_segments :
  path.join "/out" "version" = "/out/version" /\ path.join "" "version" = "version" /\
  path.join "/out" "" = "/out" /\ path.join "" "" = ".".
Proof. repeat split. Qed.

Example join_normalises :
  path.join "/out/" "version" = "/out/version" /\ path.join "./dist" "e.zip" = "dist/e.zip" /\
  path.join "/out" "../x" = "/x" /\ path.join "a//b/." "c" = "a/b/c" /\
  path.join "dist/" "" = "dist/" /\ path.join ".." ".." = "../..".
Proof. repeat split. Qed.

Example join_many :
  path.joinAll ["/out"; "Electron.app"; "Contents"; "Resources"] =
    "/out/Electron.app/Contents/Resources" /\
  path.joinAll ["/out"; ""; "Contents"; "../Resources"] = "/out/Resources".
Proof. repeat split. Qed.

Example resolve_relative :
  path.resolve "/cwd" "/project" "dist" = "/project/dist" /\
  path.resolve "/cwd" "/project" "/opt/e" = "/opt/e" /\
  path.resolve "/cwd" "/project" "./dist/" = "/project/dist" /\
  path.resolve "/cwd" "project" "../dist" = "/cwd/dist" /\
  path.resolve "/cwd" "" "" = "/cwd".
Proof. repeat split. Qed.

Example emptyDir_creates_parents :
  FS.emptyDir "/a/b/c" ∅ = Ok (list_to_map [("/a", Dir); ("/a/b", Dir); ("/a/b/c", Dir)]) /\
  FS.emptyDir "/a/b" (list_to_map [("/a", File "x")]) = Throw (ENOTDIR "/a") /\
  FS.emptyDir "/a" (list_to_map [("/a", File "x")]) = Throw (EEXIST "/a") /\
  FS.emptyDir "/a" (list_to_map [("/a", Dir); ("/a/b", Dir); ("/a/b/c", File "x")]) =
    Ok (list_to_map [("/a", Dir)]).
Proof. repeat split; vm_compute; reflexivity. Qed.

Example children_of_resources :
  FS.children Scenario.resources Scenario.macStage =
    ["en.lproj"; "fr.lproj"; "readme.txt"; "de.lproj"].
Proof. vm_compute. reflexivity. Qed.

Example rm_removes_the_tree :
  FS.rm (Scenario.resources +:+ "/de.lproj") Scenario.macStage
    !! (Scenario.resources +:+ "/de.lproj/a.strings") = None /\
  FS.rm (Scenario.resources +:+ "/de.lproj") Scenario.macStage
    !! (Scenario.resources +:+ "/en.lproj/a.strings") = Some (File "en").
Proof. split; vm_compute; reflexivity. Qed.

Example zipFile_name :
  unpack_zipFile Scenario.options0 linux = "electron-v25.0.0-linux-x64.zip".
Proof. vm_compute. reflexivity. Qed.

(** ** The finalizer *)

Lemma cleanupAfterUnpack_res po dmn b st :
  res (cleanupAfterUnpack po dmn b st) = Ok tt.
Proof.
  unfold cleanupAfterUnpack. run. steps; reflexivity.
Qed.

Lemma cleanupAfterUnpack_trace po dmn b st :
  trace (cleanupAfterUnpack po dmn b st) = cleanupEvents po dmn b.
Proof.
  unfold cleanupAfterUnpack, cleanupEvents, removeAsar, removeVersion, renameLicense.
  run. steps; reflexivity.
Qed.

Lemma cleanupAfterUnpack_config po dmn b st :
  config (final (cleanupAfterUnpack po dmn b st)) = config st.
Proof.
  unfold cleanupAfterUnpack.
  run. steps; reflexivity.
Qed.

Ltac cleanup_step :=
  match goal with
  | |- context [match cleanupAfterUnpack ?po ?dmn ?b ?s with _ => _ end] =>
      let H1 := fresh "Hres" in
      let H2 := fresh "Htrace" in
      pose proof (cleanupAfterUnpack_res po dmn b s) as H1;
      pose proof (cleanupAfterUnpack_trace po dmn b s) as H2;
      destruct (cleanupAfterUnpack po dmn b s);
      cbn [res trace] in H1, H2; subst
  end.

Ltac exec :=
  run;
  repeat (first [cleanup_step | break_inner];
          cbn [res final trace files config app after fst snd] in * ).


(** ** Branding *)

Lemma or_else_populated a b : b <> "" -> Js.or_else a b <> "".
Proof.
  intros Hb. unfold Js.or_else, Js.truthy.
  destruct a as [s|]; [|exact Hb].
  case_bool_decide; simpl; assumption.
Qed.

(** C9: branding resolution always gives two non-empty names; each one is
    the configured name when that name is present and not empty, and its own
    default otherwise, whatever the other one is; an empty or absent
    [electronBranding] gives "electron" and "Electron". *)
Theorem createBrandingOpts_defaults (opts : Configuration) :
  let configuredProject := electronBranding opts ≫= projectName in
  let configuredProduct := electronBranding opts ≫= productName in
  let b := createBrandingOpts opts in
  (Required.projectName b <> "" /\ Required.productName b <> "") /\
  Required.projectName b =
    match configuredProject with
    | Some s => if bool_decide (s = "") then "electron" else s
    | None => "electron"
    end /\
  Required.productName b =
    match configuredProduct with
    | Some s => if bool_decide (s = "") then "Electron" else s
    | None => "Electron"
    end /\
  (electronBranding opts = None \/
   electronBranding opts = Some {| projectName := None; productName := None |} ->
   b = {| Required.projectName := "electron"; Required.productName := "Electron" |}).
Proof.
  cbv zeta. unfold createBrandingOpts. cbn [Required.projectName Required.productName].
  repeat split.
  - apply or_else_populated. discriminate.
  - apply or_else_populated. discriminate.
  - unfold Js.or_else, Js.truthy.
    destruct (electronBranding opts ≫= projectName); [case_bool_decide|]; reflexivity.
  - unfold Js.or_else, Js.truthy.
    destruct (electronBranding opts ≫= productName); [case_bool_decide|]; reflexivity.
  - intros [-> | ->]; reflexivity.
Qed.

Lemma createBrandingOpts_defaults_witness :
  createBrandingOpts (Scenario.mkConfig None None None) =
    {| Required.projectName := "electron"; Required.productName := "Electron" |}.
Proof.
  apply (createBrandingOpts_defaults (Scenario.mkConfig None None None)).
  left. reflexivity.
Defined.

(** ** Download options *)

(** C10: a property present in the configured [electronDownload] object is
    the one found in the download options, whatever the pipeline computed
    for it; so a configured version, platform or arch wins over the resolved
    Electron version and the target platform and arch. *)
Theorem createDownloadOpts_override (opts : Configuration) (download : ElectronDownloadOptions)
    (platform : ElectronPlatformName) (arch electronVersion k : string) (v : JsValue) :
  electronDownload opts = Some download ->
  download !! k = Some v ->
  createDownloadOpts opts platform arch electronVersion !! k = Some v /\
  prop (createDownloadOpts opts platform arch electronVersion) k = v.
Proof.
  intros Hd Hk. unfold createDownloadOpts, Js.spread, prop. rewrite Hd.
  assert (H : (download ∪ (<["version" := VStr electronVersion]>
                 (<["arch" := VStr arch]>
                    (<["platform" := VStr (platformNameString platform)]> ∅)))) !! k = Some v).
  { apply lookup_union_Some_l. exact Hk. }
  rewrite H. split; reflexivity.
Qed.

Lemma createDownloadOpts_override_witness :
  prop (createDownloadOpts
          (Scenario.mkConfig None None
             (Some (<["version" := VStr "1.0.0"]> (<["arch" := VStr "ia32"]> ∅))))
          linux "x64" "25.0.0") "version" = VStr "1.0.0".
Proof.
  apply (createDownloadOpts_override
           (Scenario.mkConfig None None
              (Some (<["version" := VStr "1.0.0"]> (<["arch" := VStr "ia32"]> ∅))))
           (<["version" := VStr "1.0.0"]> (<["arch" := VStr "ia32"]> ∅))
           linux "x64" "25.0.0" "version" (VStr "1.0.0")).
  - reflexivity.
  - vm_compute. reflexivity.
Defined.

(** Without a configured value the computed one is used. *)
Lemma createDownloadOpts_computed (opts : Configuration)
    (platform : ElectronPlatformName) (arch electronVersion : string) :
  electronDownload opts = None ->
  prop (createDownloadOpts opts platform arch electronVersion) "version" = VStr electronVersion /\
  prop (createDownloadOpts opts platform arch electronVersion) "arch" = VStr arch /\
  prop (createDownloadOpts opts platform arch electronVersion) "platform" =
    VStr (platformNameString platform).
Proof.
  intros Hd. unfold createDownloadOpts, Js.spread, prop. rewrite Hd.
  repeat split; simplify_map_eq; reflexivity.
Qed.


(** ** Version resolution *)

Section VersionFacts.
Variable ext : External.
Variable packager : Packager.

(** A configured version is returned as it is, without any call and
    without any change of state. *)
Lemma createElectronFrameworkSupport_configured (st : State) (v : string) :
  electronVersion (config st) = Some v ->
  createElectronFrameworkSupport ext packager st =
    {| res := Ok {| fw_name := Required.projectName (createBrandingOpts (config st));
                    fw_version := v;
                    fw_distMacOsAppName :=
                      Required.productName (createBrandingOpts (config st)) +:+ ".app" |};
       final := st;
       trace := [] |}.
Proof.
  intros Hv. unfold createElectronFrameworkSupport. run. rewrite Hv. reflexivity.
Qed.

Lemma createBrandingOpts_set_electronVersion (v : option string) (c : Configuration) :
  createBrandingOpts (set_electronVersion v c) = createBrandingOpts c.
Proof. reflexivity. Qed.

(** A computed version is written into the configuration. *)
Lemma createElectronFrameworkSupport_computed (st : State) (fw : Framework) :
  electronVersion (config st) = None ->
  res (createElectronFrameworkSupport ext packager st) = Ok fw ->
  final (createElectronFrameworkSupport ext packager st) =
    set_config (set_electronVersion (Some (fw_version fw)) (config st)) st /\
  fw_name fw = Required.projectName (createBrandingOpts (config st)) /\
  fw_distMacOsAppName fw = Required.productName (createBrandingOpts (config st)) +:+ ".app".
Proof.
  intros Hv. unfold createElectronFrameworkSupport. run. rewrite Hv.
  steps; intros H; inversion H; subst; clear H; cbn; auto.
Qed.

End VersionFacts.

(** C3: when [electronVersion] is set, framework creation returns it
    unchanged, makes no call at all (so no read of the installed metadata or
    of the manifest) and leaves the state as it was; when the version is
    computed, it is written into [electronVersion], and any later creation on
    that configuration, whatever the collaborators then answer, returns the
    same framework without a call and without a further write. *)
Theorem createElectronFrameworkSupport_memoized (ext : External) (packager : Packager)
    (st : State) :
  let o := createElectronFrameworkSupport ext packager st in
  (forall v, electronVersion (config st) = Some v ->
     (exists fw, res o = Ok fw /\ fw_version fw = v) /\ final o = st /\ trace o = []) /\
  (forall fw, electronVersion (config st) = None -> res o = Ok fw ->
     electronVersion (config (final o)) = Some (fw_version fw) /\
     forall (ext' : External) (packager' : Packager) (st' : State),
       config st' = config (final o) ->
       let o' := createElectronFrameworkSupport ext' packager' st' in
       res o' = Ok fw /\ final o' = st' /\ trace o' = []).
Proof.
  cbv zeta. split.
  - intros v Hv. rewrite (createElectronFrameworkSupport_configured ext packager st v Hv).
    cbn. eauto.
  - intros fw Hnone Hok.
    destruct (createElectronFrameworkSupport_computed ext packager st fw Hnone Hok)
      as (Hfinal & Hname & Happ).
    rewrite Hfinal. split; [reflexivity|].
    intros ext' packager' st' Hcfg.
    rewrite (createElectronFrameworkSupport_configured ext' packager' st' (fw_version fw))
      by (rewrite Hcfg; reflexivity).
    cbn [res final trace]. rewrite Hcfg. unfold set_config. cbn [config].
    rewrite createBrandingOpts_set_electronVersion, <- Hname, <- Happ.
    destruct fw; auto.
Qed.

Lemma createElectronFrameworkSupport_memoized_witness :
  let ext := Scenario.collaborators false None id in
  let packager := Scenario.mkPackager LINUX false None in
  let st := {| files := Scenario.staged; config := Scenario.mkConfig None None None |} in
  let o := createElectronFrameworkSupport ext packager st in
  electronVersion (config st) = None /\
  res o = Ok {| fw_name := "electron"; fw_version := "25.0.0";
                fw_distMacOsAppName := "Electron.app" |} /\
  trace o = [EvComputeElectronVersion "/project"] /\
  electronVersion (config (final o)) = Some "25.0.0" /\
  let o' := createElectronFrameworkSupport (Scenario.collaborators true (Some "1.0.0") id)
              (Scenario.mkPackager LINUX true None) (final o) in
  res o' = res o /\ final o' = final o /\ trace o' = [].
Proof.
  cbv zeta.
  split; [reflexivity|]. split; [reflexivity|]. split; [reflexivity|].
  pose proof (createElectronFrameworkSupport_memoized
                (Scenario.collaborators false None id)
                (Scenario.mkPackager LINUX false None)
                {| files := Scenario.staged; config := Scenario.mkConfig None None None |}) as H.
  cbv zeta in H. destruct H as [_ H].
  specialize (H _ eq_refl eq_refl). destruct H as [H1 H2].
  split; [exact H1|].
  exact (H2 (Scenario.collaborators true (Some "1.0.0") id)
            (Scenario.mkPackager LINUX true None) _ eq_refl).
Defined.

(** C4: a pre-packed build with no configured version and no installed
    version rejects with the error that names the problem; nothing is
    returned and nothing is written into the configuration. *)
Theorem createElectronFrameworkSupport_prepacked_fails (ext : External) (packager : Packager)
    (st : State) :
  isPrepackedAppAsar packager = true ->
  electronVersion (config st) = None ->
  Ext.getElectronVersionFromInstalled ext (projectDir packager) (files st) = None ->
  let o := createElectronFrameworkSupport ext packager st in
  res o = Throw (Error "Cannot compute electron version for prepacked asar") /\
  final o = st /\
  trace o = [EvGetElectronVersionFromInstalled (projectDir packager)].
Proof.
  intros Hpre Hv Hinst. cbv zeta. unfold createElectronFrameworkSupport. run.
  rewrite Hv, Hpre, Hinst. auto.
Qed.

Lemma createElectronFrameworkSupport_prepacked_fails_witness :
  let ext := Scenario.collaborators false None id in
  let packager := Scenario.mkPackager LINUX true None in
  let st := {| files := Scenario.staged; config := Scenario.mkConfig None None None |} in
  res (createElectronFrameworkSupport ext packager st) =
    Throw (Error "Cannot compute electron version for prepacked asar").
Proof.
  cbv zeta.
  apply (createElectronFrameworkSupport_prepacked_fails
           (Scenario.collaborators false None id)
           (Scenario.mkPackager LINUX true None)
           {| files := Scenario.staged; config := Scenario.mkConfig None None None |});
    reflexivity.
Defined.

(** ** Acquisition and cleanup *)

Section UnpackFacts.
Variable ext : External.
Variable po : PrepareApplicationStageDirectoryOptions.
Variable options : ElectronDownloadOptions.
Variable dmn : string.
Variable st : State.

Let resolved := unpack_resolved ext (config st) po options (files st).
Let safe := Ext.isSafeToUnpackElectronOnRemoteBuildServer ext (packager po) (config st).
Let before := resolveEvents ext (config st) po options (files st).

Ltac unpack_cases :=
  subst resolved safe before;
  unfold unpack_resolved, resolveEvents, copyEvents;
  destruct (unpack_dist (config st) po) as [d0|] eqn:Hdist;
  [destruct (files st !! path.join (unpack_resolvedDist ext (packager po) d0)
                           (unpack_zipFile options (platformName po))) eqn:Hzip|];
  cbn [fst snd]; intros;
  repeat match goal with
         | H : Some _ = Some _ |- _ => inversion H; subst; clear H
         end;
  try discriminate;
  unfold unpack; exec; rewrite ?app_nil_r; try reflexivity; try congruence.

(** The early [return] of line 186. *)
Lemma unpack_skipped :
  resolved.2 = None -> safe = true ->
  unpack ext po options dmn st =
    {| res := Ok resolved.1; final := st; trace := before |}.
Proof. unpack_cases. Qed.

(** The external worker, then the cleanup that is not the full one. *)
Lemma unpack_delegated :
  resolved.2 = None -> safe = false ->
  unpack ext po options dmn st =
    let args := unpack_args resolved.1 (appOutDir po) dmn in
    match Ext.executeAppBuilder ext args (files st) with
    | (Ok _, m) =>
        {| res := Ok resolved.1;
           final := final (cleanupAfterUnpack po dmn false (set_files m st));
           trace := before ++ EvExecuteAppBuilder args :: cleanupEvents po dmn false |}
    | (Throw e, m) =>
        {| res := Throw e; final := set_files m st;
           trace := before ++ [EvExecuteAppBuilder args] |}
    end.
Proof. unpack_cases. Qed.

(** The local copy, then the full cleanup. *)
Lemma unpack_copied (d : string) :
  resolved.2 = Some d ->
  unpack ext po options dmn st =
    let source := getElectronSrcDir (packager po) d in
    let destination := getElectronDestinationDir (packager po) (appOutDir po) in
    match FS.emptyDir (appOutDir po) (files st) with
    | Ok m1 =>
        match FS.copyDir source destination m1 with
        | Ok m2 =>
            {| res := Ok resolved.1;
               final := final (cleanupAfterUnpack po dmn true (set_files m2 st));
               trace := before ++ copyEvents po d ++ cleanupEvents po dmn true |}
        | Throw e =>
            {| res := Throw e; final := set_files m1 st; trace := before ++ copyEvents po d |}
        end
    | Throw e =>
        {| res := Throw e; final := st;
           trace := before ++ [EvLogInfo [("source", source); ("destination", destination)]
                                         "copying Electron";
                               EvEmptyDir (appOutDir po)] |}
    end.
Proof. unpack_cases. Qed.

End UnpackFacts.

(** The preparation entry point is [unpack] on the download options built
    from the configuration, followed, when asked for, by the replacement of
    FFmpeg. *)
Lemma prepareApplicationStageDirectory_unpack (ext : External) (this : Framework)
    (options : PrepareApplicationStageDirectoryOptions) (st : State) :
  let o := unpack ext options
             (createDownloadOpts (config st) (platformName options) (arch options)
                (fw_version this))
             (fw_distMacOsAppName this) st in
  prepareApplicationStageDirectory ext this options st =
    match res o with
    | Ok _ =>
        if downloadAlternateFFmpeg (config (final o)) then
          {| res := Ok tt;
             final := set_files
                        (Ext.replaceFFMPEG ext (appOutDir options) (version options)
                           (platformName options) (arch options) (files (final o)))
                        (final o);
             trace := trace o ++
                      [EvLogInfo [] "downloading non-proprietary FFMPEG, piping output";
                       EvReplaceFFMPEG (appOutDir options)] |}
        else {| res := Ok tt; final := final o; trace := trace o |}
    | Throw e => {| res := Throw e; final := final o; trace := trace o |}
    end.
Proof.
  cbv zeta. unfold prepareApplicationStageDirectory. run.
  destruct (unpack ext options _ _ st) as [[a|e] st' t]; cbn [res final trace]; [|reflexivity].
  destruct (downloadAlternateFFmpeg (config st')); rewrite ?app_nil_r; reflexivity.
Qed.

Ltac unpack_trace_cases ext po options dmn st :=
  let d := fresh "d" in
  let Hr := fresh "Hresolved" in
  let Hs := fresh "Hsafe" in
  destruct (unpack_resolved ext (config st) po options (files st)).2 as [d|] eqn:Hr;
  [ rewrite (unpack_copied ext po options dmn st d Hr)
  | destruct (Ext.isSafeToUnpackElectronOnRemoteBuildServer ext (packager po) (config st))
      eqn:Hs;
    [ rewrite (unpack_skipped ext po options dmn st Hr Hs)
    | rewrite (unpack_delegated ext po options dmn st Hr Hs) ] ];
  cbv zeta;
  unfold resolveEvents, copyEvents, cleanupEvents, removeAsar, removeVersion, renameLicense,
    usedLocalCopy, usedDelegation;
  repeat (break_inner; cbn [res final trace files config app after fst snd] in * ).

Ltac trace_facts :=
  cbn [isOk existsb forallb isLocalCopy isEmptyDir isCopyDir isExecuteAppBuilder isCleanup
       negb orb andb In app];
  repeat match goal with
         | H : bool_decide _ = true |- _ => apply bool_decide_eq_true_1 in H
         | H : bool_decide _ = false |- _ => apply bool_decide_eq_false_1 in H
         end;
  intuition (try discriminate; try congruence; eauto).

(** C1, as the code has it: in every run that completes, the two marker
    removals ([default_app.asar] and [version]) are made exactly when the
    local copy was used, and no removal is made when the acquisition was
    delegated or skipped; the LICENSE rename does not follow the strategy: it
    is tried exactly when an acquisition was made, copied or delegated, and
    the platform is not macOS. A run that fails makes no cleanup call. *)
Theorem unpack_cleanup_by_strategy (ext : External)
    (po : PrepareApplicationStageDirectoryOptions) (options : ElectronDownloadOptions)
    (dmn : string) (st : State) :
  let o := unpack ext po options dmn st in
  (isOk (res o) = true ->
   (usedLocalCopy (trace o) = true <-> In (removeAsar po dmn) (trace o)) /\
   (usedLocalCopy (trace o) = true <-> In (removeVersion po) (trace o)) /\
   (forall p, In (EvUnlinkIfExists p) (trace o) -> usedLocalCopy (trace o) = true) /\
   (In (renameLicense po) (trace o) <->
      (usedLocalCopy (trace o) || usedDelegation (trace o)) = true /\
      platform (packager po) <> MAC)) /\
  (isOk (res o) = false ->
   forallb (λ e, negb (isCleanup e)) (trace o) = true).
Proof.
  cbv zeta.
  unpack_trace_cases ext po options dmn st.
  all: trace_facts.
Qed.

Lemma unpack_cleanup_by_strategy_witness :
  let ext := Scenario.collaborators true None id in
  let po := Scenario.prepare LINUX linux in
  let st := {| files := Scenario.withDist;
               config := Scenario.mkConfig None (Some (DistPath "dist")) None |} in
  let o := unpack ext po Scenario.options0 "Electron.app" st in
  isOk (res o) = true /\
  usedLocalCopy (trace o) = true /\
  In (EvUnlinkIfExists "/out/resources/default_app.asar") (trace o).
Proof.
  cbv zeta.
  assert (Hok : isOk (res (unpack (Scenario.collaborators true None id)
                             (Scenario.prepare LINUX linux) Scenario.options0 "Electron.app"
                             {| files := Scenario.withDist;
                                config := Scenario.mkConfig None (Some (DistPath "dist")) None |}))
                = true) by (vm_compute; reflexivity).
  assert (Hcopy : usedLocalCopy (trace (unpack (Scenario.collaborators true None id)
                             (Scenario.prepare LINUX linux) Scenario.options0 "Electron.app"
                             {| files := Scenario.withDist;
                                config := Scenario.mkConfig None (Some (DistPath "dist")) None |}))
                = true) by (vm_compute; reflexivity).
  split; [exact Hok|]. split; [exact Hcopy|].
  pose proof (unpack_cleanup_by_strategy (Scenario.collaborators true None id)
                (Scenario.prepare LINUX linux) Scenario.options0 "Electron.app"
                {| files := Scenario.withDist;
                   config := Scenario.mkConfig None (Some (DistPath "dist")) None |}) as H.
  cbv zeta in H. destruct H as [H _]. destruct (H Hok) as [H1 _].
  apply H1. exact Hcopy.
Defined.

(** C1 as stated fails: a delegated acquisition on Linux makes no local copy
    and still renames LICENSE. *)
Lemma license_rename_without_local_copy :
  let ext := Scenario.collaborators false None id in
  let po := Scenario.prepare LINUX linux in
  let st := {| files := Scenario.staged; config := Scenario.mkConfig None None None |} in
  let o := unpack ext po Scenario.options0 "Electron.app" st in
  ~ ((usedLocalCopy (trace o) = true <-> In (removeAsar po "Electron.app") (trace o)) /\
     (usedLocalCopy (trace o) = true <-> In (removeVersion po) (trace o)) /\
     (usedLocalCopy (trace o) = true <-> In (renameLicense po) (trace o))).
Proof.
  cbv zeta. intros (_ & _ & H).
  assert (Hcopy : usedLocalCopy (trace (unpack (Scenario.collaborators false None id)
                             (Scenario.prepare LINUX linux) Scenario.options0 "Electron.app"
                             {| files := Scenario.staged;
                                config := Scenario.mkConfig None None None |}))
                = false) by (vm_compute; reflexivity).
  rewrite Hcopy in H. 
  assert (Hfalse : false = true); [|discriminate Hfalse].
  apply H. vm_compute. right. left. reflexivity.
Qed.

(** C2, as the code has it: when the acquisition is skipped (no local
    distribution left to copy, and unpacking is safe to leave to the remote
    build server), [unpack] returns before the finalizer: it makes no cleanup
    call and leaves the state as it found it. In every other run that
    completes, the finalizer runs on the state the acquisition left, with
    [isFullCleanup] set exactly when the local copy was used. *)
Theorem unpack_finalizer_unless_skipped (ext : External)
    (po : PrepareApplicationStageDirectoryOptions) (options : ElectronDownloadOptions)
    (dmn : string) (st : State) :
  let o := unpack ext po options dmn st in
  let resolved := unpack_resolved ext (config st) po options (files st) in
  let safe := Ext.isSafeToUnpackElectronOnRemoteBuildServer ext (packager po) (config st) in
  (resolved.2 = None -> safe = true ->
   res o = Ok resolved.1 /\ final o = st /\
   forallb (λ e, negb (isCleanup e)) (trace o) = true /\
   usedLocalCopy (trace o) = false /\ usedDelegation (trace o) = false) /\
  (isOk (res o) = true -> resolved.2 <> None \/ safe = false ->
   usedLocalCopy (trace o) = bool_decide (resolved.2 <> None) /\
   exists (m : FS) (t0 : list Event),
     forallb (λ e, negb (isCleanup e)) t0 = true /\
     trace o = t0 ++ trace (cleanupAfterUnpack po dmn (usedLocalCopy (trace o))
                              (set_files m st)) /\
     final o = final (cleanupAfterUnpack po dmn (usedLocalCopy (trace o)) (set_files m st))).
Proof.
  cbv zeta. split.
  - intros Hr Hs. rewrite (unpack_skipped ext po options dmn st Hr Hs).
    cbn [res final trace]. unfold resolveEvents, usedLocalCopy, usedDelegation.
    repeat break_inner; auto.
  - destruct (unpack_resolved ext (config st) po options (files st)).2 as [d|] eqn:Hr.
    + intros Hok _. rewrite (unpack_copied ext po options dmn st d Hr) in *.
      cbv zeta in *.
      destruct (FS.emptyDir (appOutDir po) (files st)) as [m1|]; [|discriminate Hok].
      destruct (FS.copyDir _ _ m1) as [m2|]; [|discriminate Hok].
      cbn [res final trace].
      assert (Hcopy : usedLocalCopy
                (resolveEvents ext (config st) po options (files st) ++
                 copyEvents po d ++ cleanupEvents po dmn true) = true).
      { unfold usedLocalCopy. rewrite !existsb_app.
        cbn. rewrite orb_true_r. reflexivity. }
      rewrite Hcopy. split; [reflexivity|].
      exists m2, (resolveEvents ext (config st) po options (files st) ++ copyEvents po d).
      rewrite cleanupAfterUnpack_trace, <- app_assoc. split; [|auto].
      rewrite forallb_app. unfold resolveEvents. repeat break_inner; reflexivity.
    + intros Hok [Hne | Hs]; [congruence|].
      rewrite (unpack_delegated ext po options dmn st Hr Hs) in *.
      cbv zeta in *.
      destruct (Ext.executeAppBuilder ext _ (files st)) as [[[]|] m]; [|discriminate Hok].
      cbn [res final trace].
      assert (Hcopy : usedLocalCopy
                (resolveEvents ext (config st) po options (files st) ++
                 EvExecuteAppBuilder
                   (unpack_args (unpack_resolved ext (config st) po options (files st)).1
                      (appOutDir po) dmn) :: cleanupEvents po dmn false) = false).
      { unfold usedLocalCopy, resolveEvents, cleanupEvents.
        repeat break_inner; reflexivity. }
      rewrite Hcopy. split; [reflexivity|].
      exists m, (resolveEvents ext (config st) po options (files st) ++
                 [EvExecuteAppBuilder
                    (unpack_args (unpack_resolved ext (config st) po options (files st)).1
                       (appOutDir po) dmn)]).
      rewrite cleanupAfterUnpack_trace, <- app_assoc. split; [|auto].
      rewrite forallb_app. unfold resolveEvents. repeat break_inner; reflexivity.
Qed.

Lemma unpack_finalizer_unless_skipped_witness :
  let ext := Scenario.collaborators true None id in
  let po := Scenario.prepare LINUX linux in
  let st := {| files := Scenario.staged; config := Scenario.mkConfig None None None |} in
  let o := unpack ext po Scenario.options0 "Electron.app" st in
  (unpack_resolved ext (config st) po Scenario.options0 (files st)).2 = None /\
  Ext.isSafeToUnpackElectronOnRemoteBuildServer ext (packager po) (config st) = true /\
  final o = st /\
  forallb (λ e, negb (isCleanup e)) (trace o) = true.
Proof.
  cbv zeta. split; [reflexivity|]. split; [reflexivity|].
  pose proof (unpack_finalizer_unless_skipped (Scenario.collaborators true None id)
                (Scenario.prepare LINUX linux) Scenario.options0 "Electron.app"
                {| files := Scenario.staged; config := Scenario.mkConfig None None None |}) as H.
  cbv zeta in H. destruct H as [H _].
  destruct (H eq_refl eq_refl) as (_ & Hfinal & Hclean & _).
  split; assumption.
Defined.

(** C2 as stated fails: on Linux the finalizer always tries the LICENSE
    rename, and the skipped acquisition below makes no call at all, so the
    finalizer did not run; had it run on this stage directory, it would have
    renamed the licence found there. *)
Lemma skipped_acquisition_runs_no_finalizer :
  let ext := Scenario.collaborators true None id in
  let po := Scenario.prepare LINUX linux in
  let st := {| files := Scenario.staged; config := Scenario.mkConfig None None None |} in
  let o := unpack ext po Scenario.options0 "Electron.app" st in
  usedLocalCopy (trace o) = false /\ usedDelegation (trace o) = false /\
  ~ finalizerRan po "Electron.app" o /\
  final (cleanupAfterUnpack po "Electron.app" false st) <> st.
Proof.
  cbv zeta. split; [vm_compute; reflexivity|]. split; [vm_compute; reflexivity|]. split.
  - intros (b & st1 & t0 & Htrace & _).
    rewrite cleanupAfterUnpack_trace in Htrace.
    assert (Hnil : trace (unpack (Scenario.collaborators true None id)
                            (Scenario.prepare LINUX linux) Scenario.options0 "Electron.app"
                            {| files := Scenario.staged;
                               config := Scenario.mkConfig None None None |}) = [])
      by (vm_compute; reflexivity).
    rewrite Hnil in Htrace. symmetry in Htrace.
    apply app_eq_nil in Htrace. destruct Htrace as [_ Htrace].
    unfold cleanupEvents in Htrace. apply app_eq_nil in Htrace.
    destruct Htrace as [_ Htrace]. cbn in Htrace. discriminate Htrace.
  - intros Heq.
    assert (Hl : files (final (cleanupAfterUnpack (Scenario.prepare LINUX linux) "Electron.app"
                                 false
                                 {| files := Scenario.staged;
                                    config := Scenario.mkConfig None None None |}))
                 !! "/out/LICENSE" = None) by (vm_compute; reflexivity).
    rewrite Heq in Hl. vm_compute in Hl. discriminate Hl.
Qed.

(** ** The zip found in [electronDist] *)

(** C5: when the resolved [electronDist] directory holds the zip of the
    wanted build, [unpack] writes that directory into [options.cache] and
    forgets the local distribution, makes no local copy ([emptyDir] and
    [copyDir] are not called), and, where an acquisition is made at all, it
    is the delegated one: the external worker is called once, with the
    options that hold that cache. The directory is [electronDist] itself
    when it is absolute and is resolved against the project directory
    otherwise; the zip is looked up under its normalised path. *)
Theorem unpack_zip_is_cache (ext : External)
    (po : PrepareApplicationStageDirectoryOptions) (options : ElectronDownloadOptions)
    (dmn : string) (st : State) (d : string) (e : entry) :
  let resolvedDist :=
    if path.isAbsolute d then d
    else path.resolve (Ext.cwd ext) (projectDir (packager po)) d in
  let zipFile := unpack_zipFile options (platformName po) in
  let cached := <["cache" := VStr resolvedDist]> options in
  let args := [ArgStr "unpack-electron"; ArgStr "--configuration"; ArgJson [cached];
               ArgStr "--output"; ArgStr (appOutDir po);
               ArgStr "--distMacOsAppName"; ArgStr dmn] in
  let safe := Ext.isSafeToUnpackElectronOnRemoteBuildServer ext (packager po) (config st) in
  let o := unpack ext po options dmn st in
  unpack_dist (config st) po = Some d ->
  files st !! path.join resolvedDist zipFile = Some e ->
  unpack_resolved ext (config st) po options (files st) = (cached, None) /\
  usedLocalCopy (trace o) = false /\
  prop cached "cache" = VStr resolvedDist /\
  (isOk (res o) = true -> res o = Ok cached) /\
  (forall args', In (EvExecuteAppBuilder args') (trace o) -> args' = args) /\
  (safe = false ->
   In (EvExecuteAppBuilder args) (trace o) /\
   List.length (List.filter isExecuteAppBuilder (trace o)) = 1%nat) /\
  usedDelegation (trace o) = negb safe.
Proof.
  cbv zeta. intros Hdist Hzip.
  change (if path.isAbsolute d then d
          else path.resolve (Ext.cwd ext) (projectDir (packager po)) d)
    with (unpack_resolvedDist ext (packager po) d) in *.
  assert (Hres : unpack_resolved ext (config st) po options (files st) =
                 (<["cache" := VStr (unpack_resolvedDist ext (packager po) d)]> options, None)).
  { unfold unpack_resolved. rewrite Hdist. cbv zeta. rewrite Hzip. reflexivity. }
  assert (Hprop : prop (<["cache" := VStr (unpack_resolvedDist ext (packager po) d)]> options)
                    "cache" = VStr (unpack_resolvedDist ext (packager po) d)).
  { unfold prop. rewrite lookup_insert_eq. reflexivity. }
  assert (Hr : (unpack_resolved ext (config st) po options (files st)).2 = None)
    by (rewrite Hres; reflexivity).
  destruct (Ext.isSafeToUnpackElectronOnRemoteBuildServer ext (packager po) (config st))
    eqn:Hs.
  - split; [exact Hres|].
    rewrite (unpack_skipped ext po options dmn st Hr Hs), Hres.
    unfold resolveEvents, usedLocalCopy, usedDelegation. rewrite Hdist. cbv zeta.
    rewrite Hzip. cbn. intuition (try discriminate; try congruence).
  - split; [exact Hres|].
    rewrite (unpack_delegated ext po options dmn st Hr Hs), Hres.
    unfold resolveEvents, usedLocalCopy, usedDelegation, cleanupEvents, removeAsar,
      removeVersion, renameLicense, unpack_args.
    rewrite Hdist. cbv zeta. rewrite Hzip.
    repeat break_inner; cbn; intuition (try discriminate; try congruence).
Qed.

Lemma unpack_zip_is_cache_witness :
  let ext := Scenario.collaborators false None id in
  let po := Scenario.prepare LINUX linux in
  let st := {| files := Scenario.withZip;
               config := Scenario.mkConfig None (Some (DistPath "./dist")) None |} in
  let o := unpack ext po Scenario.options0 "Electron.app" st in
  unpack_dist (config st) po = Some "./dist" /\
  files st !! "/project/dist/electron-v25.0.0-linux-x64.zip" = Some (File "PK") /\
  usedLocalCopy (trace o) = false /\
  usedDelegation (trace o) = true /\
  res o = Ok (<["cache" := VStr "/project/dist"]> Scenario.options0).
Proof.
  cbv zeta.
  assert (Hdist : unpack_dist (Scenario.mkConfig None (Some (DistPath "./dist")) None)
                    (Scenario.prepare LINUX linux) = Some "./dist") by reflexivity.
  assert (Hzip : Scenario.withZip !! "/project/dist/electron-v25.0.0-linux-x64.zip" =
                 Some (File "PK")) by (vm_compute; reflexivity).
  split; [exact Hdist|]. split; [exact Hzip|].
  pose proof (unpack_zip_is_cache (Scenario.collaborators false None id)
                (Scenario.prepare LINUX linux) Scenario.options0 "Electron.app"
                {| files := Scenario.withZip;
                   config := Scenario.mkConfig None (Some (DistPath "./dist")) None |}
                "./dist" (File "PK") Hdist Hzip) as (_ & Hcopy & _ & Hok & _ & _ & Hdeleg).
  split; [exact Hcopy|]. split; [exact Hdeleg|].
  apply Hok. vm_compute. reflexivity.
Defined.

(** The zip is found whichever way [electronDist] names the directory. *)
Example zip_found_in_dist :
  Forall (λ dist,
            let st := {| files := Scenario.withZip;
                         config := Scenario.mkConfig None (Some (DistPath dist)) None |} in
            let o := unpack (Scenario.collaborators false None id)
                       (Scenario.prepare LINUX linux) Scenario.options0 "Electron.app" st in
            usedLocalCopy (trace o) = false /\ usedDelegation (trace o) = true /\
            head (trace o) =
              Some (EvStatOrNull "/project/dist/electron-v25.0.0-linux-x64.zip"))
         ["dist"; "./dist"; "dist/"; "dist//"; "/project/dist"; "/project/dist/";
          "/project/./dist"; "../project/dist"; "/opt/../project/dist"].
Proof. repeat constructor; vm_compute; reflexivity. Qed.

Example cache_is_resolvedDist :
  Forall (λ '(dist, cache),
            let st := {| files := Scenario.withZip;
                         config := Scenario.mkConfig None (Some (DistPath dist)) None |} in
            let o := unpack (Scenario.collaborators true None id)
                       (Scenario.prepare LINUX linux) Scenario.options0 "Electron.app" st in
            res o = Ok (<["cache" := VStr cache]> Scenario.options0))
         [("dist", "/project/dist"); ("./dist/", "/project/dist");
          ("/project/dist/", "/project/dist/"); ("/project/./dist", "/project/./dist")].
Proof. repeat constructor; vm_compute; reflexivity. Qed.

(** ** Locale pruning *)

Lemma state_eta (st : State) : {| files := files st; config := config st |} = st.
Proof. destruct st; reflexivity. Qed.

Lemma pruneLocale_run (wanted : list string) (ext dir file : string) (st : State) :
  pruneLocale wanted ext dir file st =
    if isPruned wanted ext file
    then {| res := Ok tt;
            final := set_files (FS.rm (path.join dir file) (files st)) st;
            trace := [EvRm (path.join dir file)] |}
    else {| res := Ok tt; final := st; trace := [] |}.
Proof.
  unfold pruneLocale, isPruned.
  destruct (Js.endsWith file ext); cbn [negb andb]; [|reflexivity].
  destruct (Js.includes wanted _); cbn [negb]; reflexivity.
Qed.

Lemma promiseMap_pruneLocale (wanted : list string) (ext dir : string) (l : list string) :
  forall st : State,
    promiseMap (pruneLocale wanted ext dir) l st =
      {| res := Ok tt;
         final := set_files (rmAll dir (pruned wanted ext l) (files st)) st;
         trace := map (λ name, EvRm (path.join dir name)) (pruned wanted ext l) |}.
Proof.
  induction l as [|file l IH]; intros st.
  - cbn. unfold set_files. rewrite state_eta. reflexivity.
  - cbn [promiseMap]. unfold mbind, M_bind, bind.
    rewrite pruneLocale_run. unfold pruned. rewrite filter_cons.
    destruct (isPruned wanted ext file) eqn:Hp.
    + rewrite decide_True by reflexivity. rewrite IH. reflexivity.
    + rewrite decide_False by discriminate. rewrite IH. reflexivity.
Qed.

Lemma rm_comm (p q : string) (m : FS) : FS.rm p (FS.rm q m) = FS.rm q (FS.rm p m).
Proof. unfold FS.rm, FS.removeTree. apply map_filter_comm. Qed.

Lemma rmAll_permutation (dir : string) (l l' : list string) :
  l ≡ₚ l' -> forall m, rmAll dir l m = rmAll dir l' m.
Proof.
  unfold rmAll.
  induction 1 as [|x l l' _ IH|x y l|l l' l'' _ IH1 _ IH2]; intros m; cbn [foldl].
  - reflexivity.
  - apply IH.
  - rewrite rm_comm. reflexivity.
  - rewrite IH1. apply IH2.
Qed.

(** The filesystem that pruning leaves and the set of entries it removes do
    not depend on the order in which the directory was listed. *)
Lemma promiseMap_pruneLocale_order (wanted : list string) (ext dir : string)
    (l l' : list string) (st : State) :
  l ≡ₚ l' ->
  final (promiseMap (pruneLocale wanted ext dir) l st) =
    final (promiseMap (pruneLocale wanted ext dir) l' st) /\
  removed (trace (promiseMap (pruneLocale wanted ext dir) l st)) ≡ₚ
    removed (trace (promiseMap (pruneLocale wanted ext dir) l' st)).
Proof.
  intros Hp. rewrite !promiseMap_pruneLocale. cbn [final trace].
  assert (Hf : pruned wanted ext l ≡ₚ pruned wanted ext l')
    by (unfold pruned; rewrite Hp; reflexivity).
  split.
  - rewrite (rmAll_permutation dir _ _ Hf). reflexivity.
  - assert (Hr : forall names, removed (map (λ name, EvRm (path.join dir name)) names) =
                               map (path.join dir) names).
    { induction names as [|n names IH]; [reflexivity|]. cbn. f_equal. exact IH. }
    rewrite !Hr, Hf. reflexivity.
Qed.

Section HookFacts.
Variable ext : External.
Variable options : BeforeCopyExtraFilesOptions.
Variable st : State.

Let packager := bc_packager options.
Let appOutDir := bc_appOutDir options.
Let wantedLanguages := asArray (electronLanguages (platformSpecificBuildOptions packager)).
Let resourcesDir := getResourcesDir packager appOutDir.
Let construct :=
  Ext.createMacApp ext packager (config st) appOutDir (bc_asarIntegrity options)
    (bool_decide (bc_platformName options = mas)) (files st).
Let constructed := EvCreateMacApp appOutDir (bool_decide (bc_platformName options = mas)).

(** On macOS with no wanted language the hook is the bundle constructor
    and nothing else. *)
Lemma beforeCopyExtraFiles_mac_keep_all :
  platform packager = MAC -> wantedLanguages = [] ->
  beforeCopyExtraFiles ext options st =
    {| res := construct.1; final := set_files construct.2 st; trace := [constructed] |}.
Proof.
  subst packager appOutDir wantedLanguages resourcesDir construct constructed.
  intros Hmac Hwanted. unfold beforeCopyExtraFiles. rewrite Hmac, Hwanted.
  rewrite (bool_decide_eq_false_2 (MAC = LINUX)) by discriminate.
  rewrite (bool_decide_eq_false_2 (MAC = WINDOWS)) by discriminate.
  rewrite (bool_decide_eq_true_2 (List.length (@nil string) = 0%nat)) by reflexivity.
  exec; repeat match goal with a : unit |- _ => destruct a end; reflexivity.
Qed.

(** On macOS with wanted languages the hook constructs the bundle, lists
    the resources directory and removes the locales that are not wanted. *)
Lemma beforeCopyExtraFiles_mac_prune (m : FS) :
  platform packager = MAC -> wantedLanguages <> [] ->
  construct = (Ok tt, m) -> m !! resourcesDir = Some Dir ->
  beforeCopyExtraFiles ext options st =
    let listing := Ext.readdirOrder ext resourcesDir (FS.children resourcesDir m) in
    let names := pruned wantedLanguages ".lproj" listing in
    {| res := Ok tt;
       final := set_files (rmAll resourcesDir names m) st;
       trace := constructed :: EvReaddir resourcesDir ::
                map (λ name, EvRm (path.join resourcesDir name)) names |}.
Proof.
  subst packager appOutDir wantedLanguages resourcesDir construct constructed.
  intros Hmac Hwanted Hm Hdir. unfold beforeCopyExtraFiles. rewrite Hmac.
  rewrite (bool_decide_eq_false_2 (MAC = LINUX)) by discriminate.
  rewrite (bool_decide_eq_false_2 (MAC = WINDOWS)) by discriminate.
  destruct (asArray _) as [|w ws] eqn:Hw; [congruence|].
  rewrite (bool_decide_eq_false_2 (List.length (w :: ws) = 0%nat)) by discriminate.
  run. rewrite Hm. cbn [res final trace files config app]. rewrite Hdir.
  cbn [res final trace files config app].
  rewrite promiseMap_pruneLocale. reflexivity.
Qed.

End HookFacts.

(** *** Paths that a removal leaves alone *)

Lemma rm_lookup_other (p k : string) (m : FS) :
  FS.under p k = false -> FS.rm p m !! k = m !! k.
Proof.
  intros Hu. unfold FS.rm, FS.removeTree.
  destruct (m !! k) as [e|] eqn:Hk.
  - apply map_lookup_filter_Some. split; [exact Hk | exact Hu].
  - apply map_lookup_filter_None. left. exact Hk.
Qed.

Lemma rm_lookup_under (p k : string) (m : FS) :
  FS.under p k = true -> FS.rm p m !! k = None.
Proof.
  intros Hu. unfold FS.rm, FS.removeTree.
  apply map_lookup_filter_None. right. intros e _. cbn. congruence.
Qed.

Lemma removed_rm (dir : string) (names : list string) :
  removed (map (λ name, EvRm (path.join dir name)) names) = map (path.join dir) names.
Proof. induction names as [|n names IH]; [reflexivity | cbn; f_equal; exact IH]. Qed.

(** C7: on macOS with an empty allow-list the hook prunes nothing: it calls
    the bundle constructor and nothing else, no directory is listed, no
    entry is removed by the hook itself, and the result and the filesystem
    it leaves are those of the bundle constructor. What the bundle
    constructor leaves as it was is therefore as it was after the hook. *)
Theorem beforeCopyExtraFiles_empty_allow_list (ext : External)
    (options : BeforeCopyExtraFilesOptions) (st : State) :
  let packager := bc_packager options in
  let isMas := bool_decide (bc_platformName options = mas) in
  let built := Ext.createMacApp ext packager (config st) (bc_appOutDir options)
                 (bc_asarIntegrity options) isMas (files st) in
  let o := beforeCopyExtraFiles ext options st in
  platform packager = MAC ->
  asArray (electronLanguages (platformSpecificBuildOptions packager)) = [] ->
  trace o = [EvCreateMacApp (bc_appOutDir options) isMas] /\
  removed (trace o) = [] /\
  res o = built.1 /\
  final o = set_files built.2 st /\
  (forall k, built.2 !! k = files st !! k -> files (final o) !! k = files st !! k) /\
  (built.2 = files st -> final o = st).
Proof.
  cbv zeta. intros Hmac Hwanted.
  rewrite (beforeCopyExtraFiles_mac_keep_all ext options st Hmac Hwanted).
  cbn [res final trace files set_files removed omap].
  repeat split; try reflexivity.
  - intros k Hk. exact Hk.
  - intros ->. destruct st; reflexivity.
Qed.

Lemma beforeCopyExtraFiles_empty_allow_list_witness :
  let ext := Scenario.collaborators false None id in
  let options := Scenario.hook MAC darwin None in
  let st := {| files := Scenario.macStage; config := Scenario.mkConfig None None None |} in
  let o := beforeCopyExtraFiles ext options st in
  platform (bc_packager options) = MAC /\
  asArray (electronLanguages (platformSpecificBuildOptions (bc_packager options))) = [] /\
  trace o = [EvCreateMacApp "/out" false] /\ res o = Ok tt /\ final o = st.
Proof.
  cbv zeta. split; [reflexivity|]. split; [reflexivity|].
  destruct (beforeCopyExtraFiles_empty_allow_list
              (Scenario.collaborators false None id) (Scenario.hook MAC darwin None)
              {| files := Scenario.macStage; config := Scenario.mkConfig None None None |}
              eq_refl eq_refl) as (Ht & _ & Hr & Hf & _).
  split; [exact Ht|]. split; [exact Hr | exact Hf].
Defined.

(** C7, as the claim has it, fails: the hook is the bundle constructor
    first, and the bundle constructor works in the resources directory. With
    an empty allow-list and a constructor that replaces the icon of the
    bundle, [electron.icns] is gone from the resources directory after the
    hook and another entry has come, though nothing was pruned. *)
Lemma bundle_construction_changes_resources :
  let ext := Scenario.branding in
  let options := Scenario.hook MAC darwin None in
  let st := {| files := Scenario.bundleStage; config := Scenario.mkConfig None None None |} in
  let o := beforeCopyExtraFiles ext options st in
  platform (bc_packager options) = MAC /\
  asArray (electronLanguages (platformSpecificBuildOptions (bc_packager options))) = [] /\
  res o = Ok tt /\
  removed (trace o) = [] /\
  files st !! (Scenario.resources +:+ "/electron.icns") = Some (File "icns") /\
  files (final o) !! (Scenario.resources +:+ "/electron.icns") = None /\
  FS.children Scenario.resources (files (final o)) <>
    FS.children Scenario.resources (files st).
Proof. cbv zeta. repeat split; vm_compute; congruence. Qed.

(** C6: with the allow-list {en, fr} and a resources directory that lists,
    in any order, en.lproj, fr.lproj, de.lproj and readme.txt, the hook
    removes de.lproj and nothing else: the filesystem it leaves is the one
    of the bundle constructor without the tree of de.lproj, where
    en.lproj, fr.lproj and readme.txt are as they were. *)
Theorem locale_pruning_example (ext : External) (options : BeforeCopyExtraFilesOptions)
    (st : State) (m : FS) :
  let packager := bc_packager options in
  let resourcesDir := getResourcesDir packager (bc_appOutDir options) in
  let o := beforeCopyExtraFiles ext options st in
  platform packager = MAC ->
  asArray (electronLanguages (platformSpecificBuildOptions packager)) = ["en"; "fr"] ->
  Ext.createMacApp ext packager (config st) (bc_appOutDir options) (bc_asarIntegrity options)
    (bool_decide (bc_platformName options = mas)) (files st) = (Ok tt, m) ->
  m !! resourcesDir = Some Dir ->
  Ext.readdirOrder ext resourcesDir (FS.children resourcesDir m) ≡ₚ
    ["en.lproj"; "fr.lproj"; "de.lproj"; "readme.txt"] ->
  res o = Ok tt /\
  removed (trace o) = [path.join resourcesDir "de.lproj"] /\
  files (final o) = FS.rm (path.join resourcesDir "de.lproj") m /\
  files (final o) !! path.join resourcesDir "de.lproj" = None /\
  Forall (λ name, files (final o) !! path.join resourcesDir name =
                  m !! path.join resourcesDir name)
         ["en.lproj"; "fr.lproj"; "readme.txt"].
Proof.
  cbv zeta. intros Hmac Hwanted Hm Hdir Hlisting.
  rewrite (beforeCopyExtraFiles_mac_prune ext options st m Hmac) by
    (try assumption; rewrite Hwanted; discriminate).
  cbv zeta. rewrite Hwanted.
  assert (Hpruned : pruned ["en"; "fr"] ".lproj"
                      (Ext.readdirOrder ext
                         (getResourcesDir (bc_packager options) (bc_appOutDir options))
                         (FS.children
                            (getResourcesDir (bc_packager options) (bc_appOutDir options)) m))
                    = ["de.lproj"]).
  { apply Permutation_singleton_r. unfold pruned. rewrite Hlisting.
    vm_compute. reflexivity. }
  rewrite Hpruned. cbn [res final trace files set_files map rmAll foldl].
  split; [reflexivity|]. split; [reflexivity|]. split; [reflexivity|]. split.
  - apply rm_lookup_under. unfold FS.under.
    rewrite bool_decide_eq_true_2 by reflexivity. reflexivity.
  - repeat constructor; apply rm_lookup_other; rewrite under_join by reflexivity;
      vm_compute; reflexivity.
Qed.

Lemma locale_pruning_example_witness :
  let ext := Scenario.collaborators false None (@rev string) in
  let options := Scenario.hook MAC darwin (Some (Many ["en"; "fr"])) in
  let st := {| files := Scenario.macStage; config := Scenario.mkConfig None None None |} in
  let o := beforeCopyExtraFiles ext options st in
  Ext.readdirOrder ext Scenario.resources (FS.children Scenario.resources Scenario.macStage) =
    ["de.lproj"; "readme.txt"; "fr.lproj"; "en.lproj"] /\
  res o = Ok tt /\
  removed (trace o) = ["/out/My App.app/Contents/Resources/de.lproj"] /\
  files (final o) = FS.rm "/out/My App.app/Contents/Resources/de.lproj" Scenario.macStage.
Proof.
  cbv zeta. split; [vm_compute; reflexivity|].
  assert (Hdir : Scenario.macStage !! Scenario.resources = Some Dir)
    by (vm_compute; reflexivity).
  assert (Hlisting : rev (FS.children Scenario.resources Scenario.macStage) ≡ₚ
                     ["en.lproj"; "fr.lproj"; "de.lproj"; "readme.txt"]).
  { rewrite <- Permutation_rev.
    replace (FS.children Scenario.resources Scenario.macStage)
      with ["en.lproj"; "fr.lproj"; "readme.txt"; "de.lproj"] by (vm_compute; reflexivity).
    apply perm_skip, perm_skip, perm_swap. }
  destruct (locale_pruning_example
              (Scenario.collaborators false None (@rev string))
              (Scenario.hook MAC darwin (Some (Many ["en"; "fr"])))
              {| files := Scenario.macStage; config := Scenario.mkConfig None None None |}
              Scenario.macStage eq_refl eq_refl eq_refl Hdir Hlisting)
    as (Hres & Hremoved & Hfiles & _).
  split; [exact Hres|]. split; [exact Hremoved | exact Hfiles].
Defined.

(** ** The Windows executable *)

(** C8, as the code has it: on Windows the hook renames
    [<projectName>.exe] in [appOutDir] to [<productFilename>.exe], and the
    rename is required: when the source executable is absent, as it is when
    the hook runs again on a directory it has already renamed, the hook
    rejects with the failure of the rename and changes nothing. *)
Theorem beforeCopyExtraFiles_windows (ext : External) (options : BeforeCopyExtraFilesOptions)
    (st : State) :
  let packager := bc_packager options in
  let source :=
    path.join (bc_appOutDir options)
              (Required.projectName (createBrandingOpts (config st)) +:+ ".exe") in
  let executable :=
    path.join (bc_appOutDir options) (productFilename (appInfo packager) +:+ ".exe") in
  let o := beforeCopyExtraFiles ext options st in
  platform packager = WINDOWS ->
  trace o = [EvRename source executable] /\
  (files st !! source = None -> res o = Throw (ENOENT source) /\ final o = st) /\
  (forall data, files st !! source = Some (File data) -> files st !! executable <> Some Dir ->
     res o = Ok tt /\
     files (final o) = <[executable := File data]> (delete source (files st)) /\
     files (final o) !! executable = Some (File data) /\
     (source <> executable ->
      files (final o) !! source = None /\
      let again := beforeCopyExtraFiles ext options (final o) in
      res again = Throw (ENOENT source) /\ final again = final o)).
Proof.
  cbv zeta. intros Hwin.
  assert (Hrun : forall st' : State,
             config st' = config st ->
             beforeCopyExtraFiles ext options st' =
               (rename
                  (path.join (bc_appOutDir options)
                     (Required.projectName (createBrandingOpts (config st)) +:+ ".exe"))
                  (path.join (bc_appOutDir options)
                     (productFilename (appInfo (bc_packager options)) +:+ ".exe")) st')).
  { intros st' Hcfg. unfold beforeCopyExtraFiles. rewrite Hwin.
    rewrite (bool_decide_eq_false_2 (WINDOWS = LINUX)) by discriminate.
    rewrite (bool_decide_eq_true_2 (WINDOWS = WINDOWS)) by reflexivity.
    run. rewrite Hcfg. steps; reflexivity. }
  rewrite (Hrun st eq_refl). unfold rename, FS.rename. run.
  split; [steps; reflexivity|]. split.
  - intros Hsrc. rewrite Hsrc. cbn. auto.
  - intros data Hsrc Hdst. rewrite Hsrc.
    set (source := path.join (bc_appOutDir options)
                     (Required.projectName (createBrandingOpts (config st)) +:+ ".exe")) in *.
    set (executable := path.join (bc_appOutDir options)
                         (productFilename (appInfo (bc_packager options)) +:+ ".exe")) in *.
    assert (Hgone : source <> executable ->
                    <[executable := File data]> (delete source (files st)) !! source = None).
    { intros Hne. rewrite lookup_insert_ne by congruence. apply lookup_delete_eq. }
    destruct (files st !! executable) as [[data'|]|] eqn:Hexe; [|congruence|].
    all: cbn [res final trace files].
    all: split; [reflexivity|]; split; [reflexivity|].
    all: split; [apply lookup_insert_eq|].
    all: intros Hne; split; [exact (Hgone Hne)|].
    all: rewrite Hrun by reflexivity; unfold rename, FS.rename; run.
    all: fold source; rewrite (Hgone Hne); cbn; auto.
Qed.

Lemma beforeCopyExtraFiles_windows_witness :
  let ext := Scenario.collaborators false None id in
  let options := Scenario.hook WINDOWS win32 None in
  let st := {| files := Scenario.windowsStage; config := Scenario.mkConfig None None None |} in
  let o := beforeCopyExtraFiles ext options st in
  platform (bc_packager options) = WINDOWS /\
  files st !! "/out/electron.exe" = Some (File "MZ") /\
  files st !! "/out/My App.exe" <> Some Dir /\
  res o = Ok tt /\
  files (final o) !! "/out/My App.exe" = Some (File "MZ") /\
  res (beforeCopyExtraFiles ext options (final o)) = Throw (ENOENT "/out/electron.exe").
Proof.
  cbv zeta.
  assert (Hsrc : Scenario.windowsStage !! "/out/electron.exe" = Some (File "MZ"))
    by (vm_compute; reflexivity).
  assert (Hdst : Scenario.windowsStage !! "/out/My App.exe" <> Some Dir)
    by (vm_compute; discriminate).
  split; [reflexivity|]. split; [exact Hsrc|]. split; [exact Hdst|].
  destruct (beforeCopyExtraFiles_windows
              (Scenario.collaborators false None id) (Scenario.hook WINDOWS win32 None)
              {| files := Scenario.windowsStage; config := Scenario.mkConfig None None None |}
              eq_refl) as (_ & _ & H).
  destruct (H "MZ" Hsrc Hdst) as (Hres & _ & Hexe & Hagain).
  split; [exact Hres|]. split; [exact Hexe|].
  destruct Hagain as (_ & Hthrow & _); [vm_compute; discriminate|].
  exact Hthrow.
Defined.

(** C8 as stated fails: run on the directory it has already renamed, the
    hook rejects, and the rejection is the hook's result. *)
Lemma second_windows_rename_rejects :
  let ext := Scenario.collaborators false None id in
  let options := Scenario.hook WINDOWS win32 None in
  let st := {| files := Scenario.windowsStage; config := Scenario.mkConfig None None None |} in
  let first := beforeCopyExtraFiles ext options st in
  let second := beforeCopyExtraFiles ext options (final first) in
  res first = Ok tt /\
  files (final first) !! "/out/My App.exe" = Some (File "MZ") /\
  files (final first) !! "/out/electron.exe" = None /\
  ~ (isOk (res second) = true) /\
  res second = Throw (ENOENT "/out/electron.exe").
Proof.
  cbv zeta. repeat split; try (vm_compute; reflexivity).
  vm_compute. discriminate.
Qed.

(** * Further properties of the staging code *)

(** ** Paths under the stage directory *)

Lemma prefix_append_self (a s : string) : String.prefix a (a +:+ s) = true.
Proof.
  induction a as [|x a IH]; [destruct s; reflexivity|].
  change (String.prefix (String x a) (String x (a +:+ s)) = true).
  cbn [String.prefix]. destruct (ascii_dec x x); [exact IH | congruence].
Qed.

Lemma prefix_append_l (a b k : string) :
  String.prefix (a +:+ b) k = true -> String.prefix a k = true.
Proof.
  revert k. induction a as [|x a IH]; intros k; [destruct k; reflexivity|].
  change (String.prefix (String x (a +:+ b)) k = true -> String.prefix (String x a) k = true).
  destruct k as [|y k]; cbn [String.prefix]; [discriminate|].
  destruct (ascii_dec x y); [apply IH | discriminate].
Qed.

Lemma prefix_refl (a : string) : String.prefix a a = true.
Proof.
  induction a as [|x a IH]; [reflexivity|].
  cbn [String.prefix]. destruct (ascii_dec x x); [exact IH | congruence].
Qed.

Lemma under_prefix (p k : string) : FS.under p k = true -> String.prefix p k = true.
Proof.
  unfold FS.under. intros [Heq | Hpre]%orb_true_iff.
  - apply bool_decide_eq_true_1 in Heq. subst k. apply prefix_refl.
  - exact (prefix_append_l _ _ _ Hpre).
Qed.

(** *** What the filesystem calls leave alone *)

Lemma graft_lookup_other (src dst k : string) (from into : FS) :
  String.prefix dst k = false -> FS.graft src dst from into !! k = into !! k.
Proof.
  intros Hk. unfold FS.graft.
  apply (map_fold_weak_ind (λ r (_ : FS), r !! k = into !! k)); [reflexivity|].
  intros i x m r _ IH. destruct (FS.under src i); [|exact IH].
  rewrite lookup_insert_ne; [exact IH|].
  unfold FS.reroot. intros <-. rewrite prefix_append_self in Hk. discriminate.
Qed.

Lemma removeTree_lookup_other (p k : string) (m : FS) :
  FS.under p k = false -> FS.removeTree p m !! k = m !! k.
Proof. exact (rm_lookup_other p k m). Qed.

Lemma rename_lookup_other (src dst k : string) (m m' : FS) :
  FS.rename src dst m = Ok m' ->
  FS.under src k = false -> String.prefix dst k = false ->
  m' !! k = m !! k.
Proof.
  intros Hren Hsrc Hdst.
  assert (Hks : k <> src).
  { intros ->. unfold FS.under in Hsrc.
    rewrite bool_decide_eq_true_2 in Hsrc by reflexivity. discriminate. }
  assert (Hkd : k <> dst) by (intros ->; rewrite prefix_refl in Hdst; discriminate).
  assert (Hud : FS.under dst k = false).
  { destruct (FS.under dst k) eqn:Hu; [|reflexivity].
    apply under_prefix in Hu. congruence. }
  unfold FS.rename in Hren.
  destruct (m !! src) as [[d|]|]; [| |discriminate].
  - destruct (m !! dst) as [[d'|]|]; inversion Hren; subst;
      rewrite lookup_insert_ne, lookup_delete_ne by congruence; reflexivity.
  - case_bool_decide; [inversion Hren; subst; reflexivity|].
    destruct (m !! dst) as [[d'|]|]; [discriminate| |];
      (case_bool_decide; [|discriminate]); inversion Hren; subst;
      rewrite graft_lookup_other, !removeTree_lookup_other by assumption; reflexivity.
Qed.

Lemma unlink_lookup_other (p k : string) (m m' : FS) :
  FS.unlink p m = Ok m' -> k <> p -> m' !! k = m !! k.
Proof.
  unfold FS.unlink. destruct (m !! p) as [[d|]|]; intros H Hne; inversion H; subst.
  apply lookup_delete_ne. congruence.
Qed.

Lemma unlink_not_file (p : string) (m m' : FS) (d : string) :
  FS.unlink p m = Ok m' -> m' !! p <> Some (File d).
Proof.
  unfold FS.unlink. destruct (m !! p) as [[d'|]|]; intros H; inversion H; subst.
  rewrite lookup_delete_eq. discriminate.
Qed.

Lemma bestEffort_unlink_not_file (p : string) (m : FS) (d : string) :
  bestEffort (FS.unlink p) m !! p <> Some (File d).
Proof.
  unfold bestEffort, FS.unlink.
  destruct (m !! p) as [[d'|]|] eqn:Hp; rewrite ?lookup_delete_eq, ?Hp; discriminate.
Qed.

Lemma bestEffort_unlink_keeps_not_file (p k : string) (m : FS) (d : string) :
  m !! k <> Some (File d) -> bestEffort (FS.unlink p) m !! k <> Some (File d).
Proof.
  unfold bestEffort, FS.unlink. intros Hk.
  destruct (m !! p) as [[d'|]|]; try exact Hk.
  destruct (decide (k = p)) as [->|Hne].
  - rewrite lookup_delete_eq. discriminate.
  - rewrite lookup_delete_ne by congruence. exact Hk.
Qed.

Lemma bestEffort_unlink_other (p k : string) (m : FS) :
  k <> p -> bestEffort (FS.unlink p) m !! k = m !! k.
Proof.
  unfold bestEffort. intros Hne.
  destruct (FS.unlink p m) as [m'|] eqn:Hu; [|reflexivity].
  exact (unlink_lookup_other p k m m' Hu Hne).
Qed.

Lemma bestEffort_rename_other (src dst k : string) (m : FS) :
  FS.under src k = false -> String.prefix dst k = false ->
  bestEffort (FS.rename src dst) m !! k = m !! k.
Proof.
  unfold bestEffort. intros Hs Hd.
  destruct (FS.rename src dst m) as [m'|] eqn:Hr; [|reflexivity].
  exact (rename_lookup_other src dst k m m' Hr Hs Hd).
Qed.

(** ** What the finalizer does to the stage directory *)

(** The filesystem that [cleanupAfterUnpack] leaves: each of its three calls
    is made best-effort, on the result of the one before. *)
Lemma cleanupAfterUnpack_files (po : PrepareApplicationStageDirectoryOptions) (dmn : string)
    (isFullCleanup : bool) (st : State) :
  let out := appOutDir po in
  let m1 :=
    if isFullCleanup
    then bestEffort (FS.unlink (path.join (cleanup_resourcesPath po dmn) "default_app.asar"))
           (files st)
    else files st in
  let m2 :=
    if isFullCleanup then bestEffort (FS.unlink (path.join out "version")) m1 else m1 in
  files (final (cleanupAfterUnpack po dmn isFullCleanup st)) =
    if bool_decide (platform (packager po) = MAC) then m2
    else bestEffort (FS.rename (path.join out "LICENSE") (path.join out "LICENSE.electron.txt"))
           m2.
Proof.
  cbv zeta. unfold cleanupAfterUnpack, bestEffort. run. steps; reflexivity.
Qed.

Section CleanupFacts.
Variable po : PrepareApplicationStageDirectoryOptions.
Variable dmn : string.

Let out := appOutDir po.
Let asar := path.join (cleanup_resourcesPath po dmn) "default_app.asar".
Let license := path.join out "LICENSE".
Let renamed := path.join out "LICENSE.electron.txt".

Lemma asar_of_stage :
  platform (packager po) <> MAC ->
  asar = path.join out "resources/default_app.asar".
Proof.
  intros Hmac. subst asar out. unfold cleanup_resourcesPath.
  rewrite bool_decide_eq_false_2 by assumption.
  rewrite join_join by reflexivity. reflexivity.
Qed.

Lemma license_apart_from (name : string) :
  plainPath name = true -> FS.under "LICENSE" name = false ->
  String.prefix "LICENSE.electron.txt" name = false ->
  FS.under license (path.join out name) = false /\
  String.prefix renamed (path.join out name) = false.
Proof.
  intros Hne Hu Hp. subst license renamed. split.
  - rewrite under_join by (assumption || reflexivity). exact Hu.
  - rewrite prefix_join by (assumption || reflexivity). exact Hp.
Qed.

End CleanupFacts.

(** After a full cleanup neither marker is left as a file: whatever the
    stage directory held, [default_app.asar] in the resources directory and
    [version] at the top are not files any more. *)
Theorem cleanupAfterUnpack_removes_markers (po : PrepareApplicationStageDirectoryOptions)
    (dmn : string) (st : State) (d : string) :
  let left := files (final (cleanupAfterUnpack po dmn true st)) in
  left !! path.join (cleanup_resourcesPath po dmn) "default_app.asar" <> Some (File d) /\
  left !! path.join (appOutDir po) "version" <> Some (File d).
Proof.
  cbv zeta. rewrite cleanupAfterUnpack_files. cbv zeta.
  set (m1 := bestEffort (FS.unlink (path.join (cleanup_resourcesPath po dmn) "default_app.asar"))
               (files st)).
  set (m2 := bestEffort (FS.unlink (path.join (appOutDir po) "version")) m1).
  assert (Hasar : m2 !! path.join (cleanup_resourcesPath po dmn) "default_app.asar"
                  <> Some (File d)).
  { apply bestEffort_unlink_keeps_not_file, bestEffort_unlink_not_file. }
  assert (Hver : m2 !! path.join (appOutDir po) "version" <> Some (File d))
    by apply bestEffort_unlink_not_file.
  case_bool_decide as Hmac; [split; assumption|].
  destruct (license_apart_from po "resources/default_app.asar") as [Hu1 Hp1];
    [reflexivity | reflexivity | reflexivity |].
  destruct (license_apart_from po "version") as [Hu2 Hp2];
    [reflexivity | reflexivity | reflexivity |].
  rewrite (asar_of_stage po dmn Hmac) in *.
  rewrite !bestEffort_rename_other by assumption.
  split; assumption.
Qed.

Lemma bestEffort_rename_file (src dst : string) (m : FS) (d : string) :
  src <> dst -> m !! src = Some (File d) -> m !! dst <> Some Dir ->
  bestEffort (FS.rename src dst) m !! dst = Some (File d) /\
  bestEffort (FS.rename src dst) m !! src = None.
Proof.
  intros Hne Hsrc Hdst. unfold bestEffort, FS.rename. rewrite Hsrc.
  destruct (m !! dst) as [[d'|]|]; [|congruence|].
  all: rewrite lookup_insert_eq, lookup_insert_ne, lookup_delete_eq by congruence.
  all: split; reflexivity.
Qed.

(** Off macOS the finalizer renames the licence, full cleanup or not: a
    LICENSE file in the stage directory ends up as LICENSE.electron.txt, with
    its content, and LICENSE itself is gone. *)
Theorem cleanupAfterUnpack_renames_license (po : PrepareApplicationStageDirectoryOptions)
    (dmn : string) (isFullCleanup : bool) (st : State) (d : string) :
  let license := path.join (appOutDir po) "LICENSE" in
  let renamed := path.join (appOutDir po) "LICENSE.electron.txt" in
  let left := files (final (cleanupAfterUnpack po dmn isFullCleanup st)) in
  platform (packager po) <> MAC ->
  files st !! license = Some (File d) ->
  files st !! renamed <> Some Dir ->
  left !! renamed = Some (File d) /\ left !! license = None.
Proof.
  cbv zeta. intros Hmac Hlic Hren. rewrite cleanupAfterUnpack_files. cbv zeta.
  rewrite bool_decide_eq_false_2 by assumption.
  rewrite (asar_of_stage po dmn Hmac).
  set (out := appOutDir po) in *.
  assert (Hne : path.join out "LICENSE" <> path.join out "LICENSE.electron.txt").
  { intros Heq. apply join_inj in Heq; [discriminate | reflexivity | reflexivity]. }
  assert (Hother : forall name, plainPath name = true ->
                     name <> "resources/default_app.asar" ->
                     name <> "version" ->
                     bestEffort (FS.unlink (path.join out "version"))
                       (bestEffort (FS.unlink (path.join out "resources/default_app.asar"))
                          (files st)) !! path.join out name =
                     files st !! path.join out name).
  { intros name Hn Ha Hv.
    rewrite !bestEffort_unlink_other; [reflexivity| |];
      intros Heq; apply join_inj in Heq; congruence || reflexivity. }
  destruct isFullCleanup; apply bestEffort_rename_file; try assumption.
  - rewrite Hother by first [reflexivity | discriminate]. exact Hlic.
  - rewrite Hother by first [reflexivity | discriminate]. exact Hren.
Qed.

Lemma cleanupAfterUnpack_renames_license_witness :
  let po := Scenario.prepare LINUX linux in
  let st := {| files := Scenario.staged; config := Scenario.mkConfig None None None |} in
  let left := files (final (cleanupAfterUnpack po "Electron.app" true st)) in
  platform (packager po) <> MAC /\
  files st !! "/out/LICENSE" = Some (File "MIT") /\
  files st !! "/out/LICENSE.electron.txt" <> Some Dir /\
  left !! "/out/LICENSE.electron.txt" = Some (File "MIT") /\ left !! "/out/LICENSE" = None.
Proof.
  cbv zeta.
  assert (Hmac : platform (packager (Scenario.prepare LINUX linux)) <> MAC) by discriminate.
  assert (Hlic : Scenario.staged !! "/out/LICENSE" = Some (File "MIT"))
    by (vm_compute; reflexivity).
  assert (Hren : Scenario.staged !! "/out/LICENSE.electron.txt" <> Some Dir)
    by (vm_compute; discriminate).
  split; [exact Hmac|]. split; [exact Hlic|]. split; [exact Hren|].
  exact (cleanupAfterUnpack_renames_license (Scenario.prepare LINUX linux) "Electron.app" true
           {| files := Scenario.staged; config := Scenario.mkConfig None None None |}
           "MIT" Hmac Hlic Hren).
Defined.

Lemma cleanupAfterUnpack_lookup_other (po : PrepareApplicationStageDirectoryOptions)
    (dmn : string) (isFullCleanup : bool) (st : State) (k : string) :
  k <> path.join (cleanup_resourcesPath po dmn) "default_app.asar" ->
  k <> path.join (appOutDir po) "version" ->
  FS.under (path.join (appOutDir po) "LICENSE") k = false ->
  String.prefix (path.join (appOutDir po) "LICENSE.electron.txt") k = false ->
  files (final (cleanupAfterUnpack po dmn isFullCleanup st)) !! k = files st !! k.
Proof.
  intros Ha Hv Hl Hr. rewrite cleanupAfterUnpack_files. cbv zeta.
  case_bool_decide; [|rewrite bestEffort_rename_other by assumption];
    destruct isFullCleanup; rewrite ?bestEffort_unlink_other by assumption; reflexivity.
Qed.

(** The finalizer touches nothing but the two markers and the licence: a
    path that is neither marker and lies neither under LICENSE nor behind the
    name LICENSE.electron.txt holds after it what it held before, and the
    finalizer never rejects and never writes the configuration. *)
Theorem cleanupAfterUnpack_frame (po : PrepareApplicationStageDirectoryOptions)
    (dmn : string) (isFullCleanup : bool) (st : State) (k : string) :
  let o := cleanupAfterUnpack po dmn isFullCleanup st in
  k <> path.join (cleanup_resourcesPath po dmn) "default_app.asar" ->
  k <> path.join (appOutDir po) "version" ->
  FS.under (path.join (appOutDir po) "LICENSE") k = false ->
  String.prefix (path.join (appOutDir po) "LICENSE.electron.txt") k = false ->
  files (final o) !! k = files st !! k /\ res o = Ok tt /\ config (final o) = config st.
Proof.
  cbv zeta. intros Ha Hv Hl Hr.
  split; [|split; [apply cleanupAfterUnpack_res | apply cleanupAfterUnpack_config]].
  apply cleanupAfterUnpack_lookup_other; assumption.
Qed.

Lemma cleanupAfterUnpack_frame_witness :
  let po := Scenario.prepare LINUX linux in
  let st := {| files := Scenario.staged; config := Scenario.mkConfig None None None |} in
  files (final (cleanupAfterUnpack po "Electron.app" true st)) !! "/out/electron" =
    Some (File "ELF").
Proof.
  cbv zeta.
  destruct (cleanupAfterUnpack_frame (Scenario.prepare LINUX linux) "Electron.app" true
              {| files := Scenario.staged; config := Scenario.mkConfig None None None |}
              "/out/electron") as [H _];
    [vm_compute; discriminate | vm_compute; discriminate
    | vm_compute; reflexivity | vm_compute; reflexivity |].
  rewrite H. vm_compute. reflexivity.
Defined.

(** A stage directory without LICENSE is no error: the cleanup that is not
    the full one swallows the failed rename and leaves the state as it was. *)
Theorem cleanupAfterUnpack_without_license (po : PrepareApplicationStageDirectoryOptions)
    (dmn : string) (st : State) :
  let o := cleanupAfterUnpack po dmn false st in
  files st !! path.join (appOutDir po) "LICENSE" = None ->
  res o = Ok tt /\ final o = st.
Proof.
  cbv zeta. intros Hlic. unfold cleanupAfterUnpack.
  destruct (bool_decide (platform (packager po) = MAC)); run; [auto|].
  unfold FS.rename. rewrite Hlic. auto.
Qed.

Lemma cleanupAfterUnpack_without_license_witness :
  let po := Scenario.prepare WINDOWS win32 in
  let st := {| files := Scenario.windowsStage; config := Scenario.mkConfig None None None |} in
  files st !! "/out/LICENSE" = None /\
  final (cleanupAfterUnpack po "Electron.app" false st) = st.
Proof.
  cbv zeta.
  assert (Hlic : Scenario.windowsStage !! "/out/LICENSE" = None) by (vm_compute; reflexivity).
  split; [exact Hlic|].
  exact (proj2 (cleanupAfterUnpack_without_license (Scenario.prepare WINDOWS win32)
                  "Electron.app"
                  {| files := Scenario.windowsStage;
                     config := Scenario.mkConfig None None None |} Hlic)).
Defined.

(** ** How an acquisition fails *)

(** A failure of the external worker is the failure of [unpack]: the error
    is passed on as it is and no cleanup call is made, so the filesystem
    stays as the failed worker left it, with whatever it had unpacked. *)
Theorem unpack_worker_failure (ext : External)
    (po : PrepareApplicationStageDirectoryOptions) (options : ElectronDownloadOptions)
    (dmn : string) (st : State) (e : exn) (left : FS) :
  let resolved := unpack_resolved ext (config st) po options (files st) in
  let args := [ArgStr "unpack-electron"; ArgStr "--configuration"; ArgJson [resolved.1];
               ArgStr "--output"; ArgStr (appOutDir po);
               ArgStr "--distMacOsAppName"; ArgStr dmn] in
  let o := unpack ext po options dmn st in
  resolved.2 = None ->
  Ext.isSafeToUnpackElectronOnRemoteBuildServer ext (packager po) (config st) = false ->
  Ext.executeAppBuilder ext args (files st) = (Throw e, left) ->
  res o = Throw e /\ files (final o) = left /\ config (final o) = config st /\
  last (trace o) = Some (EvExecuteAppBuilder args) /\
  forallb (λ ev, negb (isCleanup ev)) (trace o) = true.
Proof.
  cbv zeta. intros Hr Hs He.
  rewrite (unpack_delegated ext po options dmn st Hr Hs). cbv zeta.
  unfold unpack_args. rewrite He.
  cbn [res final trace files config set_files].
  split; [reflexivity|]. split; [reflexivity|]. split; [reflexivity|]. split.
  - rewrite last_snoc. reflexivity.
  - rewrite forallb_app. unfold resolveEvents. repeat break_inner; reflexivity.
Qed.

Lemma unpack_worker_failure_witness :
  let ext :=
    {| Ext.cwd := "/project";
       Ext.isSafeToUnpackElectronOnRemoteBuildServer := λ _ _, false;
       Ext.executeAppBuilder := λ _ m,
         (Throw (Error "exit code 1"), <["/out/electron" := File "EL"]> m);
       Ext.createMacApp := λ _ _ _ _ _ m, (Ok tt, m);
       Ext.replaceFFMPEG := λ _ _ _ _ m, m;
       Ext.getElectronVersionFromInstalled := λ _ _, None;
       Ext.computeElectronVersion := λ _ _ _, Ok "25.0.0";
       Ext.readdirOrder := λ _ l, l |} in
  let st := {| files := Scenario.staged; config := Scenario.mkConfig None None None |} in
  let o := unpack ext (Scenario.prepare LINUX linux) Scenario.options0 "Electron.app" st in
  res o = Throw (Error "exit code 1") /\
  files (final o) = <["/out/electron" := File "EL"]> Scenario.staged /\
  files (final o) !! "/out/LICENSE" = Some (File "MIT").
Proof.
  cbv zeta.
  match goal with
  | |- res (unpack ?ext ?po ?options ?dmn ?st) = _ /\ _ =>
      destruct (unpack_worker_failure ext po options dmn st (Error "exit code 1")
                  (<["/out/electron" := File "EL"]> Scenario.staged)
                  eq_refl eq_refl eq_refl) as (Hres & Hfinal & _)
  end.
  split; [exact Hres|]. split; [exact Hfinal|].
  rewrite Hfinal. vm_compute. reflexivity.
Defined.

(** [unpack] rejects only with the error of the acquisition it made: of the
    external worker when it delegated, of [emptyDir] or [copyDir] when it
    copied. A skipped acquisition and the cleanup never make it reject. *)
Theorem unpack_rejects_with_acquisition (ext : External)
    (po : PrepareApplicationStageDirectoryOptions) (options : ElectronDownloadOptions)
    (dmn : string) (st : State) (e : exn) :
  let resolved := unpack_resolved ext (config st) po options (files st) in
  res (unpack ext po options dmn st) = Throw e ->
  match resolved.2 with
  | None =>
      Ext.isSafeToUnpackElectronOnRemoteBuildServer ext (packager po) (config st) = false /\
      (Ext.executeAppBuilder ext (unpack_args resolved.1 (appOutDir po) dmn) (files st)).1 =
        Throw e
  | Some d =>
      FS.emptyDir (appOutDir po) (files st) = Throw e \/
      exists m1, FS.emptyDir (appOutDir po) (files st) = Ok m1 /\
                 FS.copyDir (getElectronSrcDir (packager po) d)
                   (getElectronDestinationDir (packager po) (appOutDir po)) m1 = Throw e
  end.
Proof.
  cbv zeta.
  destruct (unpack_resolved ext (config st) po options (files st)).2 as [d|] eqn:Hr.
  - rewrite (unpack_copied ext po options dmn st d Hr). cbv zeta.
    destruct (FS.emptyDir _ _) as [m1|e1]; cbn [res].
    + destruct (FS.copyDir _ _ m1) as [m2|e2] eqn:Hc; cbn [res]; [discriminate|].
      intros H; inversion H; subst. right. exists m1. auto.
    + intros H; inversion H; subst. left. reflexivity.
  - destruct (Ext.isSafeToUnpackElectronOnRemoteBuildServer ext (packager po) (config st))
      eqn:Hs.
    + rewrite (unpack_skipped ext po options dmn st Hr Hs). cbn [res]. discriminate.
    + rewrite (unpack_delegated ext po options dmn st Hr Hs). cbv zeta.
      destruct (Ext.executeAppBuilder _ _ _) as [[[]|e1] m]; cbn [res]; [discriminate|].
      intros H; inversion H; subst. auto.
Qed.

Lemma unpack_rejects_with_acquisition_witness :
  let ext := Scenario.collaborators true None id in
  let st := {| files := Scenario.staged;
               config := Scenario.mkConfig None (Some (DistPath "missing")) None |} in
  res (unpack ext (Scenario.prepare LINUX linux) Scenario.options0 "Electron.app" st) =
    Throw (ENOENT "/project/missing") /\
  exists m1, FS.emptyDir "/out" Scenario.staged = Ok m1 /\
             FS.copyDir "/project/missing" "/out" m1 = Throw (ENOENT "/project/missing").
Proof.
  cbv zeta.
  assert (Hres : res (unpack (Scenario.collaborators true None id)
                        (Scenario.prepare LINUX linux) Scenario.options0 "Electron.app"
                        {| files := Scenario.staged;
                           config := Scenario.mkConfig None (Some (DistPath "missing")) None |})
                 = Throw (ENOENT "/project/missing")) by (vm_compute; reflexivity).
  split; [exact Hres|].
  pose proof (unpack_rejects_with_acquisition _ _ _ _ _ _ Hres) as H.
  cbv zeta in H.
  assert (Hemp : FS.emptyDir "/out" Scenario.staged <> Throw (ENOENT "/project/missing"))
    by (vm_compute; discriminate).
  destruct H as [H | H]; [exact (False_ind _ (Hemp H)) | exact H].
Defined.

(** ** The local copy *)

(** Without a distribution left to copy, [unpack] calls neither [emptyDir]
    nor [copyDir]. *)
Lemma unpack_no_copy_without_dist (ext : External)
    (po : PrepareApplicationStageDirectoryOptions) (options : ElectronDownloadOptions)
    (dmn : string) (st : State) :
  (unpack_resolved ext (config st) po options (files st)).2 = None ->
  (forall s t h, ~ In (EvCopyDir s t h) (trace (unpack ext po options dmn st))) /\
  usedLocalCopy (trace (unpack ext po options dmn st)) = false.
Proof.
  intros Hr.
  assert (Hbefore : forall s t h,
             ~ In (EvCopyDir s t h) (resolveEvents ext (config st) po options (files st))).
  { intros s t h. unfold resolveEvents. repeat break_inner; cbn; intuition discriminate. }
  assert (Hcleanup : forall s t h b, ~ In (EvCopyDir s t h) (cleanupEvents po dmn b)).
  { intros s t h b. unfold cleanupEvents, removeAsar, removeVersion, renameLicense.
    repeat break_inner; cbn; intuition discriminate. }
  destruct (Ext.isSafeToUnpackElectronOnRemoteBuildServer ext (packager po) (config st))
    eqn:Hs.
  - rewrite (unpack_skipped ext po options dmn st Hr Hs). cbn [trace].
    split; [exact Hbefore|].
    unfold usedLocalCopy, resolveEvents. repeat break_inner; reflexivity.
  - rewrite (unpack_delegated ext po options dmn st Hr Hs). cbv zeta.
    destruct (Ext.executeAppBuilder _ _ _) as [[[]|e1] m]; cbn [trace]; split.
    + intros s t h [Hin | [Hin | Hin]]%in_app_or;
        [exact (Hbefore _ _ _ Hin) | discriminate | exact (Hcleanup _ _ _ _ Hin)].
    + unfold usedLocalCopy, resolveEvents, cleanupEvents. repeat break_inner; reflexivity.
    + intros s t h [Hin | [Hin | []]]%in_app_or; [exact (Hbefore _ _ _ Hin) | discriminate].
    + unfold usedLocalCopy, resolveEvents. repeat break_inner; reflexivity.
Qed.



(** Every call of [copyDir] that [unpack] makes comes right after
    [emptyDir] of the output directory, copies the source directory of the
    configured distribution into the destination directory of the output
    directory, and asks for real copies, not hard links. A run that copies
    never calls the external worker. *)
Theorem unpack_copy_protocol (ext : External)
    (po : PrepareApplicationStageDirectoryOptions) (options : ElectronDownloadOptions)
    (dmn : string) (st : State) :
  let o := unpack ext po options dmn st in
  (forall source destination isUseHardLink,
     In (EvCopyDir source destination isUseHardLink) (trace o) ->
     isUseHardLink = DO_NOT_USE_HARD_LINKS /\
     destination = getElectronDestinationDir (packager po) (appOutDir po) /\
     (exists d, (unpack_resolved ext (config st) po options (files st)).2 = Some d /\
                source = getElectronSrcDir (packager po) d) /\
     exists t1 t2,
       trace o = t1 ++ EvEmptyDir (appOutDir po) ::
                       EvCopyDir source destination isUseHardLink :: t2) /\
  usedLocalCopy (trace o) && usedDelegation (trace o) = false.
Proof.
  cbv zeta.
  destruct (unpack_resolved ext (config st) po options (files st)).2 as [d|] eqn:Hr.
  - rewrite (unpack_copied ext po options dmn st d Hr). cbv zeta.
    assert (Hbefore : forall s t h,
               ~ In (EvCopyDir s t h) (resolveEvents ext (config st) po options (files st))).
    { intros s t h. unfold resolveEvents. repeat break_inner; cbn; intuition discriminate. }
    assert (Hcleanup : forall s t h b, ~ In (EvCopyDir s t h) (cleanupEvents po dmn b)).
    { intros s t h b. unfold cleanupEvents, removeAsar, removeVersion, renameLicense.
      repeat break_inner; cbn; intuition discriminate. }
    assert (Hdeleg : usedDelegation
                       (resolveEvents ext (config st) po options (files st) ++
                        copyEvents po d ++ cleanupEvents po dmn true) = false).
    { unfold usedDelegation, resolveEvents, cleanupEvents, copyEvents.
      repeat break_inner; reflexivity. }
    assert (Hdeleg' : forall t, usedDelegation
                        (resolveEvents ext (config st) po options (files st) ++ t) =
                      usedDelegation t).
    { intros t. unfold usedDelegation, resolveEvents. repeat break_inner; reflexivity. }
    destruct (FS.emptyDir _ _) as [m1|e1]; [destruct (FS.copyDir _ _ m1) as [m2|e2]|];
      cbn [res final trace]; (split; [|rewrite ?Hdeleg, ?Hdeleg'; cbn; apply andb_false_r]).
    + intros s t h [Hin | [Hin | Hin]%in_app_or]%in_app_or;
        [destruct (Hbefore _ _ _ Hin) | | destruct (Hcleanup _ _ _ _ Hin)].
      cbn in Hin. destruct Hin as [Hin | [Hin | [Hin | []]]]; try discriminate.
      inversion Hin; subst. repeat split; eauto.
      exists (resolveEvents ext (config st) po options (files st) ++
              [EvLogInfo [("source", getElectronSrcDir (packager po) d);
                          ("destination",
                           getElectronDestinationDir (packager po) (appOutDir po))]
                 "copying Electron"]), (cleanupEvents po dmn true).
      rewrite <- app_assoc. reflexivity.
    + intros s t h [Hin | Hin]%in_app_or; [destruct (Hbefore _ _ _ Hin)|].
      cbn in Hin. destruct Hin as [Hin | [Hin | [Hin | []]]]; try discriminate.
      inversion Hin; subst. repeat split; eauto.
      exists (resolveEvents ext (config st) po options (files st) ++
              [EvLogInfo [("source", getElectronSrcDir (packager po) d);
                          ("destination",
                           getElectronDestinationDir (packager po) (appOutDir po))]
                 "copying Electron"]), [].
      rewrite <- app_assoc. reflexivity.
    + intros s t h [Hin | Hin]%in_app_or; [destruct (Hbefore _ _ _ Hin)|].
      cbn in Hin. destruct Hin as [Hin | [Hin | []]]; discriminate.
  - pose proof (unpack_no_copy_without_dist ext po options dmn st Hr) as [Hno Hcopy].
    split; [|rewrite Hcopy; reflexivity].
    intros s t h Hin. destruct (Hno _ _ _ Hin).
Qed.

(** ** The distribution override *)

(** With [electronDist] configured and no zip of the wanted build in it,
    [unpack] looks for the zip first, then takes the directory as the source
    of a local copy: the output directory is emptied, the external worker is
    not called, and [options] is left as it was given ([cache] is not
    written). *)
Theorem unpack_dist_without_zip (ext : External)
    (po : PrepareApplicationStageDirectoryOptions) (options : ElectronDownloadOptions)
    (dmn : string) (st : State) (d : string) :
  let zip := path.join (unpack_resolvedDist ext (packager po) d)
               (unpack_zipFile options (platformName po)) in
  let o := unpack ext po options dmn st in
  unpack_dist (config st) po = Some d ->
  files st !! zip = None ->
  head (trace o) = Some (EvStatOrNull zip) /\
  In (EvEmptyDir (appOutDir po)) (trace o) /\
  usedDelegation (trace o) = false /\
  (isOk (res o) = true -> res o = Ok options).
Proof.
  cbv zeta. intros Hdist Hzip.
  assert (Hres : unpack_resolved ext (config st) po options (files st) = (options, Some d)).
  { unfold unpack_resolved. rewrite Hdist. cbv zeta. rewrite Hzip. reflexivity. }
  assert (Hr : (unpack_resolved ext (config st) po options (files st)).2 = Some d)
    by (rewrite Hres; reflexivity).
  rewrite (unpack_copied ext po options dmn st d Hr), Hres. cbv zeta.
  unfold resolveEvents, copyEvents, cleanupEvents, usedDelegation, removeAsar, removeVersion,
    renameLicense.
  rewrite Hdist. cbv zeta. rewrite Hzip.
  repeat break_inner; cbn; intuition (try discriminate; try congruence).
Qed.

Lemma unpack_dist_without_zip_witness :
  let ext := Scenario.collaborators true None id in
  let po := Scenario.prepare LINUX linux in
  let st := {| files := Scenario.withDist;
               config := Scenario.mkConfig None (Some (DistPath "dist")) None |} in
  let o := unpack ext po Scenario.options0 "Electron.app" st in
  unpack_dist (config st) po = Some "dist" /\
  files st !! "/project/dist/electron-v25.0.0-linux-x64.zip" = None /\
  head (trace o) = Some (EvStatOrNull "/project/dist/electron-v25.0.0-linux-x64.zip") /\
  res o = Ok Scenario.options0.
Proof.
  cbv zeta.
  assert (Hdist : unpack_dist (Scenario.mkConfig None (Some (DistPath "dist")) None)
                    (Scenario.prepare LINUX linux) = Some "dist") by reflexivity.
  assert (Hzip : Scenario.withDist !! "/project/dist/electron-v25.0.0-linux-x64.zip" = None)
    by (vm_compute; reflexivity).
  split; [exact Hdist|]. split; [exact Hzip|].
  destruct (unpack_dist_without_zip (Scenario.collaborators true None id)
              (Scenario.prepare LINUX linux) Scenario.options0 "Electron.app"
              {| files := Scenario.withDist;
                 config := Scenario.mkConfig None (Some (DistPath "dist")) None |}
              "dist" Hdist Hzip) as (Hhead & _ & _ & Hok).
  split; [exact Hhead|]. apply Hok. vm_compute. reflexivity.
Defined.

(** Without [electronDist], or when the function given as [electronDist]
    returns nothing, [unpack] does not look at the filesystem before it
    acquires: [statOrNull] is not called, no local copy is made, and
    [options] is left as it was given. *)
Theorem unpack_without_dist (ext : External)
    (po : PrepareApplicationStageDirectoryOptions) (options : ElectronDownloadOptions)
    (dmn : string) (st : State) :
  let o := unpack ext po options dmn st in
  unpack_dist (config st) po = None ->
  existsb isStatOrNull (trace o) = false /\
  usedLocalCopy (trace o) = false /\
  usedDelegation (trace o) =
    negb (Ext.isSafeToUnpackElectronOnRemoteBuildServer ext (packager po) (config st)) /\
  (isOk (res o) = true -> res o = Ok options).
Proof.
  cbv zeta. intros Hdist.
  assert (Hres : unpack_resolved ext (config st) po options (files st) = (options, None)).
  { unfold unpack_resolved. rewrite Hdist. reflexivity. }
  assert (Hr : (unpack_resolved ext (config st) po options (files st)).2 = None)
    by (rewrite Hres; reflexivity).
  destruct (Ext.isSafeToUnpackElectronOnRemoteBuildServer ext (packager po) (config st))
    eqn:Hs.
  - rewrite (unpack_skipped ext po options dmn st Hr Hs), Hres.
    unfold resolveEvents. rewrite Hdist. cbn. auto.
  - rewrite (unpack_delegated ext po options dmn st Hr Hs), Hres. cbv zeta.
    unfold resolveEvents, cleanupEvents, usedLocalCopy, usedDelegation, removeAsar,
      removeVersion, renameLicense.
    rewrite Hdist.
    repeat break_inner; cbn; intuition (try discriminate; try congruence).
Qed.

Lemma unpack_without_dist_witness :
  let ext := Scenario.collaborators false None id in
  let st := {| files := Scenario.staged; config := Scenario.mkConfig None None None |} in
  let o := unpack ext (Scenario.prepare LINUX linux) Scenario.options0 "Electron.app" st in
  unpack_dist (config st) (Scenario.prepare LINUX linux) = None /\
  existsb isStatOrNull (trace o) = false /\ usedDelegation (trace o) = true.
Proof.
  cbv zeta. split; [reflexivity|].
  destruct (unpack_without_dist (Scenario.collaborators false None id)
              (Scenario.prepare LINUX linux) Scenario.options0 "Electron.app"
              {| files := Scenario.staged; config := Scenario.mkConfig None None None |}
              eq_refl) as (Hstat & _ & Hdeleg & _).
  split; [exact Hstat | exact Hdeleg].
Defined.

(** ** The configuration is written by version resolution only *)

Lemma unpack_config (ext : External)
    (po : PrepareApplicationStageDirectoryOptions) (options : ElectronDownloadOptions)
    (dmn : string) (st : State) :
  config (final (unpack ext po options dmn st)) = config st.
Proof.
  destruct (unpack_resolved ext (config st) po options (files st)).2 as [d|] eqn:Hr.
  - rewrite (unpack_copied ext po options dmn st d Hr). cbv zeta.
    repeat break_inner; cbn [final]; rewrite ?cleanupAfterUnpack_config; reflexivity.
  - destruct (Ext.isSafeToUnpackElectronOnRemoteBuildServer ext (packager po) (config st))
      eqn:Hs.
    + rewrite (unpack_skipped ext po options dmn st Hr Hs). reflexivity.
    + rewrite (unpack_delegated ext po options dmn st Hr Hs). cbv zeta.
      repeat break_inner; cbn [final]; rewrite ?cleanupAfterUnpack_config; reflexivity.
Qed.

Lemma unpack_trace_without_ffmpeg (ext : External)
    (po : PrepareApplicationStageDirectoryOptions) (options : ElectronDownloadOptions)
    (dmn : string) (st : State) :
  existsb isReplaceFFMPEG (trace (unpack ext po options dmn st)) = false.
Proof.
  unpack_trace_cases ext po options dmn st; reflexivity.
Qed.

Lemma beforeCopyExtraFiles_config (ext : External) (options : BeforeCopyExtraFilesOptions)
    (st : State) :
  config (final (beforeCopyExtraFiles ext options st)) = config st.
Proof.
  destruct (platform (bc_packager options)) eqn:Hp.
  - destruct (asArray (electronLanguages (platformSpecificBuildOptions (bc_packager options))))
      as [|w ws] eqn:Hw.
    + rewrite (beforeCopyExtraFiles_mac_keep_all ext options st Hp Hw). reflexivity.
    + unfold beforeCopyExtraFiles. rewrite Hp, Hw.
      rewrite (bool_decide_eq_false_2 (MAC = LINUX)) by discriminate.
      rewrite (bool_decide_eq_false_2 (MAC = WINDOWS)) by discriminate.
      rewrite (bool_decide_eq_false_2 (List.length (w :: ws) = 0%nat)) by discriminate.
      run.
      repeat (first [rewrite promiseMap_pruneLocale | break_inner];
              cbn [res final trace files config app after set_files]);
        reflexivity.
  - unfold beforeCopyExtraFiles. rewrite Hp.
    rewrite (bool_decide_eq_true_2 (LINUX = LINUX)) by reflexivity.
    exec; reflexivity.
  - unfold beforeCopyExtraFiles. rewrite Hp.
    rewrite (bool_decide_eq_false_2 (WINDOWS = LINUX)) by discriminate.
    rewrite (bool_decide_eq_true_2 (WINDOWS = WINDOWS)) by reflexivity.
    exec; reflexivity.
Qed.

(** Acquisition, preparation and the pre-extra-files hook read the
    configuration and never write it: whatever they do and however they end,
    the configuration object is the one they found. *)
Theorem staging_keeps_configuration (ext : External) (this : Framework)
    (po : PrepareApplicationStageDirectoryOptions) (options : ElectronDownloadOptions)
    (dmn : string) (hook : BeforeCopyExtraFilesOptions) (st : State) :
  config (final (unpack ext po options dmn st)) = config st /\
  config (final (prepareApplicationStageDirectory ext this po st)) = config st /\
  config (final (beforeCopyExtraFiles ext hook st)) = config st.
Proof.
  split; [apply unpack_config|]. split; [|apply beforeCopyExtraFiles_config].
  rewrite prepareApplicationStageDirectory_unpack. cbv zeta.
  repeat break_inner; cbn [final set_files config]; apply unpack_config.
Qed.

(** ** Preparation *)

(** Preparation succeeds exactly when [unpack] does, and passes its failure
    on; FFmpeg is replaced exactly when [unpack] succeeded and the
    configuration asks for it, after everything [unpack] did. *)
Theorem prepareApplicationStageDirectory_ffmpeg (ext : External) (this : Framework)
    (po : PrepareApplicationStageDirectoryOptions) (st : State) :
  let u := unpack ext po
             (createDownloadOpts (config st) (platformName po) (arch po) (fw_version this))
             (fw_distMacOsAppName this) st in
  let o := prepareApplicationStageDirectory ext this po st in
  isOk (res o) = isOk (res u) /\
  (forall e, res u = Throw e -> res o = Throw e /\ final o = final u /\ trace o = trace u) /\
  existsb isReplaceFFMPEG (trace o) = isOk (res u) && downloadAlternateFFmpeg (config st) /\
  exists t, trace o = trace u ++ t.
Proof.
  cbv zeta. rewrite prepareApplicationStageDirectory_unpack. cbv zeta.
  pose proof (unpack_config ext po
                (createDownloadOpts (config st) (platformName po) (arch po) (fw_version this))
                (fw_distMacOsAppName this) st) as Hcfg.
  pose proof (unpack_trace_without_ffmpeg ext po
                (createDownloadOpts (config st) (platformName po) (arch po) (fw_version this))
                (fw_distMacOsAppName this) st) as Hff.
  destruct (unpack ext po _ _ st) as [[a|e] st' t]; cbn [res final trace isOk andb] in *.
  - rewrite Hcfg. destruct (downloadAlternateFFmpeg (config st)); cbn [res final trace isOk].
    + split; [reflexivity|]. split; [discriminate|].
      split; [rewrite existsb_app, Hff; reflexivity | eauto].
    + split; [reflexivity|]. split; [discriminate|].
      split; [exact Hff | exists []; rewrite app_nil_r; reflexivity].
  - split; [reflexivity|]. split; [intros e' H; inversion H; auto|].
    split; [exact Hff | exists []; rewrite app_nil_r; reflexivity].
Qed.

(** ** Download options *)

Lemma createDownloadOpts_lookup (opts : Configuration) (platform : ElectronPlatformName)
    (arch electronVersion k : string) :
  createDownloadOpts opts platform arch electronVersion !! k =
    match default ∅ (electronDownload opts) !! k with
    | Some v => Some v
    | None =>
        if bool_decide (k = "version") then Some (VStr electronVersion)
        else if bool_decide (k = "arch") then Some (VStr arch)
        else if bool_decide (k = "platform") then Some (VStr (platformNameString platform))
        else None
    end.
Proof.
  unfold createDownloadOpts, Js.spread.
  assert (Hbase : (<["version" := VStr electronVersion]>
                     (<["arch" := VStr arch]>
                        (<["platform" := VStr (platformNameString platform)]>
                           (∅ : ElectronDownloadOptions)))) !! k =
                  if bool_decide (k = "version") then Some (VStr electronVersion)
                  else if bool_decide (k = "arch") then Some (VStr arch)
                  else if bool_decide (k = "platform")
                       then Some (VStr (platformNameString platform))
                       else None).
  { repeat case_bool_decide; subst; simplify_map_eq; reflexivity. }
  destruct (electronDownload opts) as [download|].
  - change (default ∅ (Some download)) with download.
    rewrite lookup_union, Hbase.
    destruct (download !! k); repeat case_bool_decide; reflexivity.
  - change (default ∅ (@None ElectronDownloadOptions)) with (∅ : ElectronDownloadOptions).
    rewrite lookup_empty. exact Hbase.
Qed.

(** The download options always hold [platform], [arch] and [version], each
    with the computed value unless [electronDownload] has the property; every
    other property is there exactly when [electronDownload] has it, so
    [cache], [mirror] and the like pass through unchanged. *)
Theorem createDownloadOpts_properties (opts : Configuration) (platform : ElectronPlatformName)
    (arch electronVersion : string) :
  let configured := default ∅ (electronDownload opts) in
  let result := createDownloadOpts opts platform arch electronVersion in
  (is_Some (result !! "platform") /\ is_Some (result !! "arch") /\
   is_Some (result !! "version")) /\
  (configured !! "version" = None -> prop result "version" = VStr electronVersion) /\
  (configured !! "arch" = None -> prop result "arch" = VStr arch) /\
  (configured !! "platform" = None ->
   prop result "platform" = VStr (platformNameString platform)) /\
  (forall k, k <> "platform" -> k <> "arch" -> k <> "version" ->
             result !! k = configured !! k).
Proof.
  cbv zeta. unfold prop. repeat split.
  1-3: rewrite createDownloadOpts_lookup;
       destruct (default ∅ (electronDownload opts) !! _); cbn; eauto.
  1-3: intros Hnone; rewrite createDownloadOpts_lookup, Hnone; reflexivity.
  intros k Hp Ha Hv. rewrite createDownloadOpts_lookup.
  destruct (default ∅ (electronDownload opts) !! k); [reflexivity|].
  rewrite !bool_decide_eq_false_2 by assumption. reflexivity.
Qed.

Lemma createDownloadOpts_properties_witness :
  let opts := Scenario.mkConfig None None (Some (<["mirror" := VStr "https://m/"]> ∅)) in
  prop (createDownloadOpts opts linux "x64" "25.0.0") "version" = VStr "25.0.0" /\
  createDownloadOpts opts linux "x64" "25.0.0" !! "mirror" = Some (VStr "https://m/").
Proof.
  cbv zeta.
  destruct (createDownloadOpts_properties
              (Scenario.mkConfig None None (Some (<["mirror" := VStr "https://m/"]> ∅)))
              linux "x64" "25.0.0") as (_ & Hv & _ & _ & Hother).
  split.
  - apply Hv. vm_compute. reflexivity.
  - rewrite Hother by discriminate. vm_compute. reflexivity.
Defined.

(** The zip that [unpack] looks for is named after the version and the arch
    of the download options and after the platform name of the preparation:
    with no version and no arch in [electronDownload], these are the resolved
    Electron version and the target arch, and a platform set in
    [electronDownload] does not change the name. *)
Theorem unpack_zipFile_of_download (opts : Configuration) (platform name : ElectronPlatformName)
    (arch electronVersion : string) :
  let configured := default ∅ (electronDownload opts) in
  configured !! "version" = None ->
  configured !! "arch" = None ->
  unpack_zipFile (createDownloadOpts opts platform arch electronVersion) name =
    ("electron-v" +:+ electronVersion +:+ "-" +:+ platformNameString name +:+ "-" +:+ arch
     +:+ ".zip")%string.
Proof.
  cbv zeta. intros Hv Ha. unfold unpack_zipFile, prop.
  rewrite !createDownloadOpts_lookup, Hv, Ha. reflexivity.
Qed.

Lemma unpack_zipFile_of_download_witness :
  unpack_zipFile
    (createDownloadOpts (Scenario.mkConfig None None (Some (<["platform" := VStr "mas"]> ∅)))
       darwin "arm64" "25.0.0") darwin = "electron-v25.0.0-darwin-arm64.zip".
Proof.
  apply (unpack_zipFile_of_download
           (Scenario.mkConfig None None (Some (<["platform" := VStr "mas"]> ∅)))
           darwin darwin "arm64" "25.0.0"); vm_compute; reflexivity.
Defined.

(** ** Version resolution, the other branches *)

(** For a pre-packed build the version of the installed package is taken:
    the manifest is not read, and the version is written into the
    configuration. *)
Theorem createElectronFrameworkSupport_installed (ext : External) (packager : Packager)
    (st : State) (v : string) :
  let o := createElectronFrameworkSupport ext packager st in
  electronVersion (config st) = None ->
  isPrepackedAppAsar packager = true ->
  Ext.getElectronVersionFromInstalled ext (projectDir packager) (files st) = Some v ->
  (exists fw, res o = Ok fw /\ fw_version fw = v) /\
  trace o = [EvGetElectronVersionFromInstalled (projectDir packager)] /\
  final o = set_config (set_electronVersion (Some v) (config st)) st.
Proof.
  cbv zeta. intros Hv Hpre Hinst. unfold createElectronFrameworkSupport. run.
  rewrite Hv, Hpre, Hinst. cbn. eauto.
Qed.

Lemma createElectronFrameworkSupport_installed_witness :
  let ext := Scenario.collaborators false (Some "24.1.0") id in
  let packager := Scenario.mkPackager LINUX true None in
  let st := {| files := Scenario.staged; config := Scenario.mkConfig None None None |} in
  let o := createElectronFrameworkSupport ext packager st in
  trace o = [EvGetElectronVersionFromInstalled "/project"] /\
  electronVersion (config (final o)) = Some "24.1.0".
Proof.
  cbv zeta.
  destruct (createElectronFrameworkSupport_installed
              (Scenario.collaborators false (Some "24.1.0") id)
              (Scenario.mkPackager LINUX true None)
              {| files := Scenario.staged; config := Scenario.mkConfig None None None |}
              "24.1.0" eq_refl eq_refl eq_refl) as (_ & Htrace & Hfinal).
  split; [exact Htrace|]. rewrite Hfinal. reflexivity.
Defined.

(** For a build that is not pre-packed the version is computed from the
    manifest and the installed metadata is not read; when the computation
    rejects, so does the creation, and nothing is written: the next creation
    computes again. *)
Theorem createElectronFrameworkSupport_manifest (ext : External) (packager : Packager)
    (st : State) :
  let o := createElectronFrameworkSupport ext packager st in
  electronVersion (config st) = None ->
  isPrepackedAppAsar packager = false ->
  trace o = [EvComputeElectronVersion (projectDir packager)] /\
  match Ext.computeElectronVersion ext (projectDir packager) (metadata packager) (files st) with
  | Ok v =>
      (exists fw, res o = Ok fw /\ fw_version fw = v) /\
      final o = set_config (set_electronVersion (Some v) (config st)) st
  | Throw e => res o = Throw e /\ final o = st
  end.
Proof.
  cbv zeta. intros Hv Hpre. unfold createElectronFrameworkSupport. run.
  rewrite Hv, Hpre. steps; cbn; eauto.
Qed.

Lemma createElectronFrameworkSupport_manifest_witness :
  let ext :=
    {| Ext.cwd := "/project";
       Ext.isSafeToUnpackElectronOnRemoteBuildServer := λ _ _, false;
       Ext.executeAppBuilder := λ _ m, (Ok tt, m);
       Ext.createMacApp := λ _ _ _ _ _ m, (Ok tt, m);
       Ext.replaceFFMPEG := λ _ _ _ _ m, m;
       Ext.getElectronVersionFromInstalled := λ _ _, Some "24.1.0";
       Ext.computeElectronVersion := λ _ _ _, Throw (Error "electron is not a dependency");
       Ext.readdirOrder := λ _ l, l |} in
  let packager := Scenario.mkPackager LINUX false None in
  let st := {| files := Scenario.staged; config := Scenario.mkConfig None None None |} in
  let o := createElectronFrameworkSupport ext packager st in
  res o = Throw (Error "electron is not a dependency") /\ final o = st.
Proof.
  cbv zeta.
  match goal with
  | |- res (createElectronFrameworkSupport ?ext ?packager ?st) = _ /\ _ =>
      destruct (createElectronFrameworkSupport_manifest ext packager st eq_refl eq_refl)
        as [_ H]
  end.
  exact H.
Defined.

(** Whatever branch resolves the version, a framework that is created is
    named after the branding: its name is the project name and its macOS
    bundle is the product name followed by ".app"; the configuration then
    holds the version of the framework; and creation changes nothing but
    [electronVersion]: the filesystem and the other settings are as they
    were, also when it rejects. *)
Theorem createElectronFrameworkSupport_frame (ext : External) (packager : Packager)
    (st : State) :
  let o := createElectronFrameworkSupport ext packager st in
  let branding := createBrandingOpts (config st) in
  (forall fw, res o = Ok fw ->
     fw_name fw = Required.projectName branding /\
     fw_distMacOsAppName fw = (Required.productName branding +:+ ".app")%string /\
     electronVersion (config (final o)) = Some (fw_version fw)) /\
  files (final o) = files st /\
  electronBranding (config (final o)) = electronBranding (config st) /\
  electronDownload (config (final o)) = electronDownload (config st) /\
  electronDist (config (final o)) = electronDist (config st) /\
  downloadAlternateFFmpeg (config (final o)) = downloadAlternateFFmpeg (config st).
Proof.
  cbv zeta. unfold createElectronFrameworkSupport. run.
  steps; (split; [intros fw H; inversion H; subst; cbn; auto|]); cbn; auto.
Qed.

(** ** Locale pruning in general *)

Lemma rm_lookup_None (p k : string) (m : FS) : m !! k = None -> FS.rm p m !! k = None.
Proof.
  intros Hk. unfold FS.rm, FS.removeTree. apply map_lookup_filter_None. left. exact Hk.
Qed.

Lemma rmAll_lookup_None (dir : string) (names : list string) :
  forall (m : FS) (k : string), m !! k = None -> rmAll dir names m !! k = None.
Proof.
  unfold rmAll. induction names as [|n names IH]; intros m k Hk; [exact Hk|].
  cbn [foldl]. apply IH, rm_lookup_None, Hk.
Qed.

Lemma rmAll_lookup_other (dir : string) (names : list string) :
  forall (m : FS) (k : string),
    (forall name, name ∈ names -> FS.under (path.join dir name) k = false) ->
    rmAll dir names m !! k = m !! k.
Proof.
  unfold rmAll. induction names as [|n names IH]; intros m k Hk; [reflexivity|].
  cbn [foldl]. rewrite IH.
  - apply rm_lookup_other, Hk. left.
  - intros name Hin. apply Hk. right. exact Hin.
Qed.

Lemma rmAll_lookup_under (dir : string) (names : list string) :
  forall (m : FS) (name k : string),
    name ∈ names -> FS.under (path.join dir name) k = true ->
    rmAll dir names m !! k = None.
Proof.
  unfold rmAll. induction names as [|n names IH]; intros m name k Hin Hu.
  - inversion Hin.
  - cbn [foldl]. apply elem_of_cons in Hin as [->|Hin].
    + apply (rmAll_lookup_None dir names), rm_lookup_under, Hu.
    + exact (IH _ name k Hin Hu).
Qed.

Lemma pruned_spec (wanted : list string) (ext : string) (listing : list string)
    (name : string) :
  name ∈ pruned wanted ext listing <->
  name ∈ listing /\ Js.endsWith name ext = true /\
  Js.substring0 (String.length name - String.length ext) name ∉ wanted.
Proof.
  unfold pruned, isPruned, Js.includes. rewrite list_elem_of_filter.
  rewrite andb_true_iff, negb_true_iff, bool_decide_eq_false. tauto.
Qed.

(** On macOS with a non-empty allow-list the hook removes, of the entries
    that the resources directory lists, exactly those whose name ends in
    ".lproj" and whose name without that ending is not in the allow-list:
    [fs.rm] is called on these, once for each time the listing names them,
    and on nothing else. *)
Theorem locale_pruning_removes_exactly (ext : External)
    (options : BeforeCopyExtraFilesOptions) (st : State) (m : FS) :
  let packager := bc_packager options in
  let wanted := asArray (electronLanguages (platformSpecificBuildOptions packager)) in
  let resourcesDir := getResourcesDir packager (bc_appOutDir options) in
  let listing := Ext.readdirOrder ext resourcesDir (FS.children resourcesDir m) in
  let o := beforeCopyExtraFiles ext options st in
  platform packager = MAC ->
  wanted <> [] ->
  Ext.createMacApp ext packager (config st) (bc_appOutDir options) (bc_asarIntegrity options)
    (bool_decide (bc_platformName options = mas)) (files st) = (Ok tt, m) ->
  m !! resourcesDir = Some Dir ->
  res o = Ok tt /\
  removed (trace o) = map (path.join resourcesDir) (pruned wanted ".lproj" listing) /\
  forall name,
    name ∈ pruned wanted ".lproj" listing <->
    name ∈ listing /\ Js.endsWith name ".lproj" = true /\
    Js.substring0 (String.length name - String.length ".lproj") name ∉ wanted.
Proof.
  cbv zeta. intros Hmac Hwanted Hm Hdir.
  rewrite (beforeCopyExtraFiles_mac_prune ext options st m Hmac Hwanted Hm Hdir).
  cbv zeta. cbn [res trace]. split; [reflexivity|]. split.
  - cbn [removed omap]. apply removed_rm.
  - intros name. apply pruned_spec.
Qed.

Lemma locale_pruning_removes_exactly_witness :
  let ext := Scenario.collaborators false None id in
  let options := Scenario.hook MAC darwin (Some (One "de")) in
  let st := {| files := Scenario.macStage; config := Scenario.mkConfig None None None |} in
  removed (trace (beforeCopyExtraFiles ext options st)) =
    ["/out/My App.app/Contents/Resources/en.lproj";
     "/out/My App.app/Contents/Resources/fr.lproj"].
Proof.
  cbv zeta.
  assert (Hdir : Scenario.macStage !! Scenario.resources = Some Dir)
    by (vm_compute; reflexivity).
  destruct (locale_pruning_removes_exactly
              (Scenario.collaborators false None id)
              (Scenario.hook MAC darwin (Some (One "de")))
              {| files := Scenario.macStage; config := Scenario.mkConfig None None None |}
              Scenario.macStage eq_refl ltac:(discriminate) eq_refl Hdir)
    as (_ & Hremoved & _).
  rewrite Hremoved. vm_compute. reflexivity.
Defined.

(** What pruning does to the filesystem: everything at or under a removed
    entry is gone, and every path that is not at or under a removed entry,
    the kept locales and the other files of the bundle among them, holds what
    the bundle constructor left there. *)
Theorem locale_pruning_filesystem (ext : External)
    (options : BeforeCopyExtraFilesOptions) (st : State) (m : FS) :
  let packager := bc_packager options in
  let wanted := asArray (electronLanguages (platformSpecificBuildOptions packager)) in
  let resourcesDir := getResourcesDir packager (bc_appOutDir options) in
  let listing := Ext.readdirOrder ext resourcesDir (FS.children resourcesDir m) in
  let left := files (final (beforeCopyExtraFiles ext options st)) in
  platform packager = MAC ->
  wanted <> [] ->
  Ext.createMacApp ext packager (config st) (bc_appOutDir options) (bc_asarIntegrity options)
    (bool_decide (bc_platformName options = mas)) (files st) = (Ok tt, m) ->
  m !! resourcesDir = Some Dir ->
  (forall name k,
     name ∈ pruned wanted ".lproj" listing ->
     FS.under (path.join resourcesDir name) k = true -> left !! k = None) /\
  (forall k,
     (forall name, name ∈ pruned wanted ".lproj" listing ->
                   FS.under (path.join resourcesDir name) k = false) ->
     left !! k = m !! k).
Proof.
  cbv zeta. intros Hmac Hwanted Hm Hdir.
  rewrite (beforeCopyExtraFiles_mac_prune ext options st m Hmac Hwanted Hm Hdir).
  cbv zeta. cbn [final files set_files]. split.
  - intros name k Hin Hu. exact (rmAll_lookup_under _ _ m name k Hin Hu).
  - intros k Hk. exact (rmAll_lookup_other _ _ m k Hk).
Qed.

Lemma locale_pruning_filesystem_witness :
  let ext := Scenario.collaborators false None id in
  let options := Scenario.hook MAC darwin (Some (One "de")) in
  let st := {| files := Scenario.macStage; config := Scenario.mkConfig None None None |} in
  files (final (beforeCopyExtraFiles ext options st))
    !! "/out/My App.app/Contents/Resources/en.lproj/a.strings" = None.
Proof.
  cbv zeta.
  assert (Hdir : Scenario.macStage !! Scenario.resources = Some Dir)
    by (vm_compute; reflexivity).
  destruct (locale_pruning_filesystem
              (Scenario.collaborators false None id)
              (Scenario.hook MAC darwin (Some (One "de")))
              {| files := Scenario.macStage; config := Scenario.mkConfig None None None |}
              Scenario.macStage eq_refl ltac:(discriminate) eq_refl Hdir)
    as (Hgone & _).
  apply (Hgone "en.lproj").
  - apply pruned_spec. split; [|split].
    + vm_compute. left.
    + reflexivity.
    + vm_compute. intros H. apply list_elem_of_In in H. destruct H as [H|[]]. discriminate H.
  - vm_compute. reflexivity.
Defined.

(** The order in which the resources directory is listed does not matter:
    two runs of the hook that differ only in that order, each listing the
    entries of the directory once, leave the same state and remove the same
    entries. *)
Theorem locale_pruning_order_independent (ext ext' : External)
    (options : BeforeCopyExtraFilesOptions) (st : State) (m : FS) :
  let packager := bc_packager options in
  let wanted := asArray (electronLanguages (platformSpecificBuildOptions packager)) in
  let resourcesDir := getResourcesDir packager (bc_appOutDir options) in
  let isMas := bool_decide (bc_platformName options = mas) in
  let o := beforeCopyExtraFiles ext options st in
  let o' := beforeCopyExtraFiles ext' options st in
  platform packager = MAC ->
  wanted <> [] ->
  Ext.createMacApp ext packager (config st) (bc_appOutDir options) (bc_asarIntegrity options)
    isMas (files st) = (Ok tt, m) ->
  Ext.createMacApp ext' packager (config st) (bc_appOutDir options) (bc_asarIntegrity options)
    isMas (files st) = (Ok tt, m) ->
  m !! resourcesDir = Some Dir ->
  Ext.readdirOrder ext resourcesDir (FS.children resourcesDir m) ≡ₚ
    FS.children resourcesDir m ->
  Ext.readdirOrder ext' resourcesDir (FS.children resourcesDir m) ≡ₚ
    FS.children resourcesDir m ->
  res o = res o' /\ final o = final o' /\ removed (trace o) ≡ₚ removed (trace o').
Proof.
  cbv zeta. intros Hmac Hwanted Hm Hm' Hdir Hl Hl'.
  rewrite (beforeCopyExtraFiles_mac_prune ext options st m Hmac Hwanted Hm Hdir).
  rewrite (beforeCopyExtraFiles_mac_prune ext' options st m Hmac Hwanted Hm' Hdir).
  cbv zeta. cbn [res final trace].
  assert (Hp : pruned (asArray (electronLanguages
                                  (platformSpecificBuildOptions (bc_packager options))))
                 ".lproj"
                 (Ext.readdirOrder ext
                    (getResourcesDir (bc_packager options) (bc_appOutDir options))
                    (FS.children
                       (getResourcesDir (bc_packager options) (bc_appOutDir options)) m)) ≡ₚ
               pruned (asArray (electronLanguages
                                  (platformSpecificBuildOptions (bc_packager options))))
                 ".lproj"
                 (Ext.readdirOrder ext'
                    (getResourcesDir (bc_packager options) (bc_appOutDir options))
                    (FS.children
                       (getResourcesDir (bc_packager options) (bc_appOutDir options)) m))).
  { unfold pruned. rewrite Hl, Hl'. reflexivity. }
  split; [reflexivity|]. split.
  - rewrite (rmAll_permutation _ _ _ Hp). reflexivity.
  - assert (Hrem : forall c d names,
               removed (EvCreateMacApp c d ::
                        EvReaddir (getResourcesDir (bc_packager options) (bc_appOutDir options)) ::
                        map (λ name,
                               EvRm (path.join
                                       (getResourcesDir (bc_packager options)
                                          (bc_appOutDir options)) name)) names) =
               map (path.join (getResourcesDir (bc_packager options) (bc_appOutDir options)))
                 names).
    { intros c d names. cbn [removed omap]. apply removed_rm. }
    rewrite !Hrem, Hp. reflexivity.
Qed.

Lemma locale_pruning_order_independent_witness :
  let ext := Scenario.collaborators false None id in
  let ext' := Scenario.collaborators false None (@rev string) in
  let options := Scenario.hook MAC darwin (Some (One "de")) in
  let st := {| files := Scenario.macStage; config := Scenario.mkConfig None None None |} in
  final (beforeCopyExtraFiles ext options st) = final (beforeCopyExtraFiles ext' options st).
Proof.
  cbv zeta.
  assert (Hdir : Scenario.macStage !! Scenario.resources = Some Dir)
    by (vm_compute; reflexivity).
  destruct (locale_pruning_order_independent
              (Scenario.collaborators false None id)
              (Scenario.collaborators false None (@rev string))
              (Scenario.hook MAC darwin (Some (One "de")))
              {| files := Scenario.macStage; config := Scenario.mkConfig None None None |}
              Scenario.macStage eq_refl ltac:(discriminate) eq_refl eq_refl Hdir
              (Permutation_refl _) (Permutation_sym (Permutation_rev _)))
    as (_ & Hfinal & _).
  exact Hfinal.
Defined.

(** ** When the macOS hook fails *)

(** A failure of the bundle constructor is the failure of the hook, whatever
    the allow-list: nothing is listed and nothing is removed, and the
    filesystem stays as the failed constructor left it. And when the
    resources directory is missing after the bundle was constructed, the hook
    rejects with the failure of [readdir], having removed nothing. *)
Theorem beforeCopyExtraFiles_mac_failures (ext : External)
    (options : BeforeCopyExtraFilesOptions) (st : State) :
  let packager := bc_packager options in
  let wanted := asArray (electronLanguages (platformSpecificBuildOptions packager)) in
  let resourcesDir := getResourcesDir packager (bc_appOutDir options) in
  let isMas := bool_decide (bc_platformName options = mas) in
  let construct :=
    Ext.createMacApp ext packager (config st) (bc_appOutDir options)
      (bc_asarIntegrity options) isMas (files st) in
  let o := beforeCopyExtraFiles ext options st in
  platform packager = MAC ->
  (forall e m, construct = (Throw e, m) ->
     res o = Throw e /\ final o = set_files m st /\
     trace o = [EvCreateMacApp (bc_appOutDir options) isMas]) /\
  (forall m, construct = (Ok tt, m) -> wanted <> [] -> m !! resourcesDir = None ->
     res o = Throw (ENOENT resourcesDir) /\ final o = set_files m st /\
     removed (trace o) = []).
Proof.
  cbv zeta. intros Hmac. unfold beforeCopyExtraFiles. rewrite Hmac.
  rewrite (bool_decide_eq_false_2 (MAC = LINUX)) by discriminate.
  rewrite (bool_decide_eq_false_2 (MAC = WINDOWS)) by discriminate.
  split.
  - intros e m He. run. rewrite He. cbn. auto.
  - intros m Hm Hwanted Hdir.
    destruct (asArray _) as [|w ws]; [congruence|].
    rewrite (bool_decide_eq_false_2 (List.length (w :: ws) = 0%nat)) by discriminate.
    run. rewrite Hm. cbn [res final trace files config app]. rewrite Hdir. cbn. auto.
Qed.

Lemma beforeCopyExtraFiles_mac_failures_witness :
  let ext := Scenario.collaborators false None id in
  let options := Scenario.hook MAC darwin (Some (One "de")) in
  let st := {| files := Scenario.windowsStage; config := Scenario.mkConfig None None None |} in
  res (beforeCopyExtraFiles ext options st) =
    Throw (ENOENT "/out/My App.app/Contents/Resources").
Proof.
  cbv zeta.
  destruct (beforeCopyExtraFiles_mac_failures
              (Scenario.collaborators false None id)
              (Scenario.hook MAC darwin (Some (One "de")))
              {| files := Scenario.windowsStage; config := Scenario.mkConfig None None None |}
              eq_refl) as [_ H].
  destruct (H Scenario.windowsStage eq_refl ltac:(discriminate)
              ltac:(vm_compute; reflexivity)) as (Hres & _).
  exact Hres.
Defined.

(** ** The Linux executable *)

(** On Linux the hook renames the unpacked [<projectName>] to the
    executable name of the packager, and the rename is required: without the
    source the hook rejects and changes nothing. When unpacking was left to
    the remote build server the hook does nothing at all. *)
Theorem beforeCopyExtraFiles_linux (ext : External) (options : BeforeCopyExtraFilesOptions)
    (st : State) :
  let packager := bc_packager options in
  let source :=
    path.join (bc_appOutDir options) (Required.projectName (createBrandingOpts (config st))) in
  let executable := path.join (bc_appOutDir options) (executableName packager) in
  let safe := Ext.isSafeToUnpackElectronOnRemoteBuildServer ext packager (config st) in
  let o := beforeCopyExtraFiles ext options st in
  platform packager = LINUX ->
  (safe = true -> res o = Ok tt /\ final o = st /\ trace o = []) /\
  (safe = false ->
   trace o = [EvRename source executable] /\
   (files st !! source = None -> res o = Throw (ENOENT source) /\ final o = st) /\
   (forall data, files st !! source = Some (File data) -> files st !! executable <> Some Dir ->
      res o = Ok tt /\
      files (final o) = <[executable := File data]> (delete source (files st)))).
Proof.
  cbv zeta. intros Hlinux. unfold beforeCopyExtraFiles. rewrite Hlinux.
  rewrite (bool_decide_eq_true_2 (LINUX = LINUX)) by reflexivity.
  split; intros Hsafe; run; rewrite Hsafe; cbn [negb res final trace files config app];
    [auto|].
  split; [steps; reflexivity|]. unfold FS.rename. split.
  - intros Hsrc. rewrite Hsrc. cbn. auto.
  - intros data Hsrc Hdst. rewrite Hsrc.
    destruct (files st !! path.join (bc_appOutDir options) (executableName (bc_packager options)))
      as [[d'|]|]; [|congruence|]; cbn; auto.
Qed.

Lemma beforeCopyExtraFiles_linux_witness :
  let ext := Scenario.collaborators false None id in
  let options := Scenario.hook LINUX linux None in
  let st := {| files := Scenario.staged; config := Scenario.mkConfig None None None |} in
  let o := beforeCopyExtraFiles ext options st in
  res o = Ok tt /\ files (final o) !! "/out/my-app" = Some (File "ELF") /\
  files (final o) !! "/out/electron" = None.
Proof.
  cbv zeta.
  destruct (beforeCopyExtraFiles_linux
              (Scenario.collaborators false None id) (Scenario.hook LINUX linux None)
              {| files := Scenario.staged; config := Scenario.mkConfig None None None |}
              eq_refl) as [_ H].
  destruct (H eq_refl) as (_ & _ & Hfile).
  destruct (Hfile "ELF" ltac:(vm_compute; reflexivity) ltac:(vm_compute; discriminate))
    as [Hres Hfiles].
  split; [exact Hres|]. rewrite Hfiles. split; vm_compute; reflexivity.
Defined.

(** ** What a local copy leaves alone *)

Lemma prefix_split (a k : string) :
  String.prefix a k = true -> exists r, k = a +:+ r.
Proof.
  revert k. induction a as [|x a IH]; intros k; [exists k; reflexivity|].
  destruct k as [|y k]; cbn [String.prefix]; [discriminate|].
  destruct (ascii_dec x y) as [->|]; [|discriminate].
  intros [r ->]%IH. exists r. reflexivity.
Qed.

Lemma under_split (p k : string) :
  FS.under p k = true <-> k = p \/ exists r, k = p +:+ String "/" r.
Proof.
  unfold FS.under. rewrite orb_true_iff, bool_decide_eq_true. split.
  - intros [-> | [r ->]%prefix_split]; [left; reflexivity|].
    right. exists r. rewrite append_assoc. reflexivity.
  - intros [-> | [r ->]]; [left; reflexivity|]. right.
    change (p +:+ String "/" r) with (p +:+ path.sep +:+ r).
    rewrite <- append_assoc. apply prefix_append_self.
Qed.

Lemma under_trans (a b c : string) :
  FS.under a b = true -> FS.under b c = true -> FS.under a c = true.
Proof.
  rewrite !under_split. intros [-> | [r ->]] [-> | [r' ->]]; eauto.
  right. exists (r +:+ String "/" r'). rewrite append_assoc. reflexivity.
Qed.

Lemma substring_none (n : nat) (s : string) : String.substring n 0 s = "".
Proof. revert s. induction n as [|n IH]; intros [|c s]; cbn; auto. Qed.

Lemma substring_all (b : string) : String.substring 0 (String.length b) b = b.
Proof.
  induction b as [|y b IH]; [reflexivity|].
  cbn [String.length String.substring]. f_equal. exact IH.
Qed.

Lemma substring_append (a b : string) :
  String.substring (String.length a) (String.length (a +:+ b) - String.length a) (a +:+ b) = b.
Proof.
  induction a as [|x a IH].
  - change ("" +:+ b) with b. cbn [String.length]. rewrite Nat.sub_0_r. apply substring_all.
  - change (String x a +:+ b) with (String x (a +:+ b)).
    cbn [String.length String.substring Nat.sub]. exact IH.
Qed.

Lemma reroot_under (src dst k : string) :
  FS.under src k = true -> FS.under dst (FS.reroot src dst k) = true.
Proof.
  intros [-> | [r ->]]%under_split; unfold FS.reroot; apply under_split.
  - left. rewrite Nat.sub_diag, substring_none. apply append_nil_r.
  - right. exists r. rewrite substring_append. reflexivity.
Qed.

Lemma graft_lookup_outside (src dst k : string) (from into : FS) :
  FS.under dst k = false -> FS.graft src dst from into !! k = into !! k.
Proof.
  intros Hk. unfold FS.graft.
  apply (map_fold_weak_ind (λ r (_ : FS), r !! k = into !! k)); [reflexivity|].
  intros i x m r _ IH. destruct (FS.under src i) eqn:Hi; [|exact IH].
  rewrite lookup_insert_ne; [exact IH|].
  intros <-. rewrite (reroot_under _ _ _ Hi) in Hk. discriminate.
Qed.

Lemma under_self (p : string) : FS.under p p = true.
Proof. apply under_split. left. reflexivity. Qed.

Lemma rename_lookup_outside (src dst k : string) (m m' : FS) :
  FS.rename src dst m = Ok m' ->
  FS.under src k = false -> FS.under dst k = false ->
  m' !! k = m !! k.
Proof.
  intros Hren Hsrc Hdst.
  assert (Hks : k <> src) by (intros ->; rewrite under_self in Hsrc; discriminate).
  assert (Hkd : k <> dst) by (intros ->; rewrite under_self in Hdst; discriminate).
  unfold FS.rename in Hren.
  destruct (m !! src) as [[d|]|]; [| |discriminate].
  - destruct (m !! dst) as [[d'|]|]; inversion Hren; subst;
      rewrite lookup_insert_ne, lookup_delete_ne by congruence; reflexivity.
  - case_bool_decide; [inversion Hren; subst; reflexivity|].
    destruct (m !! dst) as [[d'|]|]; [discriminate| |];
      (case_bool_decide; [|discriminate]); inversion Hren; subst;
      rewrite graft_lookup_outside, !removeTree_lookup_other by assumption; reflexivity.
Qed.

Lemma cleanupAfterUnpack_lookup_outside (po : PrepareApplicationStageDirectoryOptions)
    (dmn : string) (isFullCleanup : bool) (st : State) (k : string) :
  k <> path.join (cleanup_resourcesPath po dmn) "default_app.asar" ->
  k <> path.join (appOutDir po) "version" ->
  FS.under (path.join (appOutDir po) "LICENSE") k = false ->
  FS.under (path.join (appOutDir po) "LICENSE.electron.txt") k = false ->
  files (final (cleanupAfterUnpack po dmn isFullCleanup st)) !! k = files st !! k.
Proof.
  intros Ha Hv Hl Hr. rewrite cleanupAfterUnpack_files. cbv zeta.
  assert (Hren : forall m,
             bestEffort (FS.rename (path.join (appOutDir po) "LICENSE")
                           (path.join (appOutDir po) "LICENSE.electron.txt")) m !! k = m !! k).
  { intros m. unfold bestEffort.
    destruct (FS.rename _ _ m) as [m'|] eqn:Hm; [|reflexivity].
    exact (rename_lookup_outside _ _ k m m' Hm Hl Hr). }
  case_bool_decide; [|rewrite Hren];
    destruct isFullCleanup; rewrite ?bestEffort_unlink_other by assumption; reflexivity.
Qed.

(** *** Directories that are made on the way *)

Lemma foldr_insert_Dir_lookup (l : list string) (k : string) (m : FS) :
  (In k l -> m !! k = Some Dir) ->
  foldr (λ a acc, <[a := Dir]> acc) m l !! k = m !! k.
Proof.
  induction l as [|a l IH]; [reflexivity|].
  intros Hin. cbn [foldr]. destruct (decide (a = k)) as [->|Hne].
  - rewrite lookup_insert_eq. symmetry. apply Hin. left. reflexivity.
  - rewrite lookup_insert_ne by exact Hne. apply IH. intros Hk. apply Hin. right. exact Hk.
Qed.

Lemma mkdirs_lookup_other (dir k : string) (m m' : FS) :
  FS.mkdirs dir m = Ok m' -> k <> dir ->
  (In k (FS.parents dir) -> is_Some (m !! k)) ->
  m' !! k = m !! k.
Proof.
  unfold FS.mkdirs. intros Hm Hne Hparents.
  destruct (find (FS.isFile m) (FS.parents dir)) as [a|] eqn:Hfind; [discriminate|].
  assert (Hdirs : In k (FS.parents dir ++ [dir]) -> m !! k = Some Dir).
  { intros [Hin | [Heq | []]]%in_app_or; [|congruence].
    pose proof (find_none _ _ Hfind k Hin) as Hfile.
    destruct (Hparents Hin) as [e He]. unfold FS.isFile in Hfile. rewrite He in Hfile |- *.
    destruct e; [discriminate | reflexivity]. }
  destruct (m !! dir) as [[d|]|]; inversion Hm; subst;
    apply foldr_insert_Dir_lookup, Hdirs.
Qed.

Lemma under_below (p k : string) : FS.under p k = false -> FS.below p k = false.
Proof. unfold FS.under, FS.below. intros [_ H]%orb_false_iff. exact H. Qed.

Lemma emptyDir_lookup_outside (dir k : string) (m m' : FS) :
  FS.emptyDir dir m = Ok m' -> FS.under dir k = false ->
  (In k (FS.parents dir) -> is_Some (m !! k)) ->
  m' !! k = m !! k.
Proof.
  unfold FS.emptyDir. intros He Hk Hparents.
  assert (Hne : k <> dir) by (intros ->; rewrite under_self in Hk; discriminate).
  destruct (m !! dir) as [[d|]|] eqn:Hdir;
    try exact (mkdirs_lookup_other dir k m m' He Hne Hparents).
  inversion He; subst.
  destruct (m !! k) as [e|] eqn:Hmk.
  - apply map_lookup_filter_Some. split; [exact Hmk | exact (under_below _ _ Hk)].
  - apply map_lookup_filter_None. left. exact Hmk.
Qed.

Lemma copyDir_lookup_outside (src dst k : string) (m m' : FS) :
  FS.copyDir src dst m = Ok m' -> FS.under dst k = false ->
  (In k (FS.parents dst) -> is_Some (m !! k)) ->
  m' !! k = m !! k.
Proof.
  unfold FS.copyDir. intros Hc Hk Hparents.
  assert (Hne : k <> dst) by (intros ->; rewrite under_self in Hk; discriminate).
  destruct (m !! src) as [[d|]|]; [discriminate| |discriminate].
  destruct (FS.mkdirs dst m) as [m1|] eqn:Hm; inversion Hc; subst.
  rewrite graft_lookup_outside by exact Hk.
  exact (mkdirs_lookup_other dst k m m1 Hm Hne Hparents).
Qed.

(** *** The paths of the finalizer lie under the output directory *)

Lemma joinBase_of_join (parent name : string) :
  plainPath name = true ->
  joinBase (path.join parent name) = path.join parent name +:+ "/".
Proof. intros Hn. rewrite (join_plainPath parent name Hn). apply joinBase_join, Hn. Qed.

Lemma under_join_self (parent name x : string) :
  plainPath name = true -> plainPath x = true ->
  FS.under (path.join parent name) (path.join (path.join parent name) x) = true.
Proof.
  intros Hn Hx. rewrite (join_plainPath _ x Hx), joinBase_of_join by exact Hn.
  apply under_split. right. exists x. rewrite append_assoc. reflexivity.
Qed.

Lemma joinAll_resources (out dmn : string) :
  out <> "" -> plainPath dmn = true ->
  path.joinAll [out; dmn; "Contents"; "Resources"] =
    path.join out (dmn +:+ "/Contents/Resources").
Proof.
  intros Hout Hdmn. pose proof (plainPath_nonempty dmn Hdmn) as Hne.
  assert (Hlong : dmn +:+ "/Contents/Resources" <> "")
    by (destruct dmn; [congruence | discriminate]).
  unfold path.join, path.joinAll. cbn [List.filter].
  rewrite (bool_decide_eq_false_2 (out = "")), (bool_decide_eq_false_2 (dmn = "")),
    (bool_decide_eq_false_2 (dmn +:+ "/Contents/Resources" = "")) by assumption.
  rewrite (bool_decide_eq_false_2 ("Contents" = "")) by discriminate.
  rewrite (bool_decide_eq_false_2 ("Resources" = "")) by discriminate.
  reflexivity.
Qed.

Lemma cleanupAfterUnpack_outside (po : PrepareApplicationStageDirectoryOptions)
    (dmn : string) (isFullCleanup : bool) (st : State) (parent name k : string) :
  appOutDir po = path.join parent name -> plainPath name = true ->
  (platform (packager po) = MAC -> plainPath dmn = true) ->
  FS.under (appOutDir po) k = false ->
  files (final (cleanupAfterUnpack po dmn isFullCleanup st)) !! k = files st !! k.
Proof.
  intros Hout Hname Hdmn Hk.
  assert (Hin : forall x, plainPath x = true ->
                  FS.under (appOutDir po) (path.join (appOutDir po) x) = true).
  { intros x Hx. rewrite Hout. apply under_join_self; assumption. }
  assert (Hnot : forall p, FS.under (appOutDir po) p = true -> FS.under p k = false).
  { intros p Hp. destruct (FS.under p k) eqn:Hpk; [|reflexivity].
    rewrite (under_trans _ _ _ Hp Hpk) in Hk. discriminate. }
  assert (Hne : forall p, FS.under (appOutDir po) p = true -> k <> p).
  { intros p Hp ->. congruence. }
  assert (Hasar : FS.under (appOutDir po)
                    (path.join (cleanup_resourcesPath po dmn) "default_app.asar") = true).
  { unfold cleanup_resourcesPath. case_bool_decide as Hmac.
    - specialize (Hdmn Hmac).
      assert (Hnonempty : appOutDir po <> "")
        by (rewrite Hout; apply join_nonempty, Hname).
      rewrite (joinAll_resources _ _ Hnonempty Hdmn).
      assert (Hlong : plainPath (dmn +:+ "/Contents/Resources") = true)
        by (apply (plainPath_append dmn "Contents/Resources"); [exact Hdmn | reflexivity]).
      rewrite join_join by (exact Hlong || reflexivity).
      apply Hin. apply (plainPath_append _ "default_app.asar"); [exact Hlong | reflexivity].
    - rewrite join_join by reflexivity. apply Hin. reflexivity. }
  apply cleanupAfterUnpack_lookup_outside.
  - apply Hne, Hasar.
  - apply Hne, Hin. reflexivity.
  - apply Hnot, Hin. reflexivity.
  - apply Hnot, Hin. reflexivity.
Qed.

(** A local copy writes under the output directory and under the
    destination only, and makes the missing directories above them: whether
    it completes or fails on the way, every other path, the distribution it
    copies from included, holds afterwards what it held before. The output
    directory is a plain name in a directory, as [path.join] gives it, and
    on macOS the name of the bundle is a plain name. *)
Theorem unpack_copy_leaves_source (ext : External)
    (po : PrepareApplicationStageDirectoryOptions) (options : ElectronDownloadOptions)
    (dmn : string) (st : State) (d parent name k : string) :
  let destination := getElectronDestinationDir (packager po) (appOutDir po) in
  (unpack_resolved ext (config st) po options (files st)).2 = Some d ->
  appOutDir po = path.join parent name -> plainPath name = true ->
  (platform (packager po) = MAC -> plainPath dmn = true) ->
  FS.under (appOutDir po) k = false ->
  FS.under destination k = false ->
  (In k (FS.parents (appOutDir po) ++ FS.parents destination) -> is_Some (files st !! k)) ->
  files (final (unpack ext po options dmn st)) !! k = files st !! k.
Proof.
  cbv zeta. intros Hr Hout Hname Hdmn Hk Hdest Hparents.
  rewrite (unpack_copied ext po options dmn st d Hr). cbv zeta.
  destruct (FS.emptyDir (appOutDir po) (files st)) as [m1|e1] eqn:He; [|reflexivity].
  assert (H1 : m1 !! k = files st !! k).
  { apply (emptyDir_lookup_outside _ k _ _ He Hk).
    intros Hin. apply Hparents, in_or_app. left. exact Hin. }
  destruct (FS.copyDir _ _ m1) as [m2|e2] eqn:Hc; cbn [final files set_files]; [|exact H1].
  assert (H2 : m2 !! k = m1 !! k).
  { apply (copyDir_lookup_outside _ _ k _ _ Hc Hdest).
    intros Hin. rewrite H1. apply Hparents, in_or_app. right. exact Hin. }
  rewrite (cleanupAfterUnpack_outside po dmn true _ parent name k Hout Hname Hdmn Hk).
  cbn [files set_files]. congruence.
Qed.

Lemma unpack_copy_leaves_source_witness :
  let ext := Scenario.collaborators true None id in
  let st := {| files := Scenario.withDist;
               config := Scenario.mkConfig None (Some (DistPath "dist")) None |} in
  let left :=
    files (final (unpack ext (Scenario.prepare LINUX linux) Scenario.options0 "Electron.app"
                    st)) in
  left !! "/project/dist/version" = Some (File "25.0.0") /\
  left !! "/out/electron" = Some (File "ELF").
Proof.
  cbv zeta. split; [|vm_compute; reflexivity].
  rewrite (unpack_copy_leaves_source (Scenario.collaborators true None id)
             (Scenario.prepare LINUX linux) Scenario.options0 "Electron.app"
             {| files := Scenario.withDist;
                config := Scenario.mkConfig None (Some (DistPath "dist")) None |}
             "dist" "/" "out" "/project/dist/version");
    [vm_compute; reflexivity | vm_compute; reflexivity | vm_compute; reflexivity
    | reflexivity | discriminate | vm_compute; reflexivity | vm_compute; reflexivity
    | vm_compute; intros []].
Defined.
